(** * Receipt processor: validation, scoring and the in-memory store

    A shallow embedding of [app.py] (the Flask receipt processor) and the
    properties of its specification.

    Conventions of the embedding:
    - a Python [str] is a [string]; its characters are read as the code
      points 0..255 (Latin-1), classified as CPython classifies them;
    - a Python [int] is a [Z];
    - a Python [float] is an IEEE-754 binary64 value, [spec_float] with
      the operations of the Standard Library at precision 53 and maximal
      exponent 1024;
    - a parsed JSON document is a [json] tree, a JSON object a [gmap] from
      keys to values;
    - a Python function that may raise is a function into [result]. *)

From Stdlib Require Import ZArith Ascii String List Bool Lia.
From Stdlib Require Import Floats.SpecFloat.
From stdpp Require Import base option list gmap strings fin_maps.

Set Warnings "-register-all".

Local Open Scope string_scope.
Local Open Scope list_scope.
Local Open Scope Z_scope.

(** ** Exceptions and results *)

Inductive exn :=
| ValueError (msg : string)
| KeyError (key : string)
| TypeError
| OverflowError
| ZeroDivisionError.

Inductive result (A : Type) :=
| Ok (a : A)
| Raise (e : exn).
Arguments Ok {A} a.
Arguments Raise {A} e.

#[global] Instance result_ret : MRet result := fun A a => Ok a.
#[global] Instance result_bind : MBind result := fun A B f m =>
  match m with
  | Ok a => f a
  | Raise e => Raise e
  end.

(** ** JSON documents, as [request.json] delivers them *)

Inductive json :=
| JNull
| JBool (b : bool)
| JInt (n : Z)
| JFloat (f : spec_float)
| JStr (s : string)
| JList (l : list json)
| JDict (d : gmap string json).

(** ** Characters and strings *)

Definition ord (c : ascii) : Z := Z.of_N (N_of_ascii c).

Definition in_range (lo hi : Z) (c : ascii) : bool :=
  (lo <=? ord c) && (ord c <=? hi).

(** [str.isspace] on one character, which is also the class [\s] of [re]:
    TAB..CR, FS..US, SPACE, NEL and NBSP below code point 256. *)
Definition isspace (c : ascii) : bool :=
  in_range 9 13 c || in_range 28 32 c || (ord c =? 133) || (ord c =? 160).

(** The class [\d] of [re] ([str.isdecimal]): only 0..9 below 256. *)
Definition isdecimal (c : ascii) : bool := in_range 48 57 c.

(** [str.isalnum] on one character: ASCII letters and digits, and in the
    upper half the letters, the superscript digits and the vulgar
    fractions of Latin-1. *)
Definition isalnum (c : ascii) : bool :=
  in_range 48 57 c || in_range 65 90 c || in_range 97 122 c
  || (ord c =? 170) || in_range 178 179 c || (ord c =? 181)
  || in_range 185 186 c || in_range 188 190 c
  || in_range 192 214 c || in_range 216 246 c || in_range 248 255 c.

(** The class [\w] of [re]: alphanumeric or underscore. *)
Definition isword (c : ascii) : bool := isalnum c || (ord c =? 95).

Definition chars (s : string) : list ascii := list_ascii_of_string s.

Fixpoint lstrip (s : list ascii) : list ascii :=
  match s with
  | c :: t => if isspace c then lstrip t else s
  | [] => []
  end.

(** [str.strip()] *)
Definition strip (s : list ascii) : list ascii :=
  rev (lstrip (rev (lstrip s))).

(** ** The fragment of [re] the program uses

    Literals, character classes, [+] on a class, the anchors and
    concatenation.  The matcher backtracks through a continuation, so
    every way to split the input is tried, as in [re]. *)

Inductive regex :=
| Lit (c : ascii)
| Class (p : ascii -> bool)
| Plus (p : ascii -> bool)
| Bol
| Eol
| Seq (r1 r2 : regex).

Definition newline : ascii := ascii_of_nat 10.

Fixpoint many (p : ascii -> bool) (k : nat -> list ascii -> bool)
    (pos : nat) (s : list ascii) : bool :=
  match s with
  | c :: t => (p c && many p k (S pos) t) || k pos s
  | [] => k pos s
  end.

Fixpoint rmatch (r : regex) (pos : nat) (s : list ascii)
    (k : nat -> list ascii -> bool) : bool :=
  match r with
  | Lit c =>
      match s with
      | x :: t => bool_decide (x = c) && k (S pos) t
      | [] => false
      end
  | Class p =>
      match s with
      | x :: t => p x && k (S pos) t
      | [] => false
      end
  | Plus p =>
      match s with
      | x :: t => p x && many p k (S pos) t
      | [] => false
      end
  | Bol => bool_decide (pos = 0%nat) && k pos s
  | Eol =>
      (* without MULTILINE: at the end, or before a final newline *)
      match s with
      | [] => k pos s
      | [c] => bool_decide (c = newline) && k pos s
      | _ => false
      end
  | Seq r1 r2 => rmatch r1 pos s (fun pos' s' => rmatch r2 pos' s' k)
  end.

(** [re.match(r, s)] is truthy: [r] matches a prefix of [s]. *)
Definition re_match (r : regex) (s : string) : bool :=
  rmatch r 0 (chars s) (fun _ _ => true).

Fixpoint seq_all (rs : list regex) (last : regex) : regex :=
  match rs with
  | [] => last
  | r :: rs' => Seq r (seq_all rs' last)
  end.

(** r"\S+" *)
Definition RE_RETAILER : regex := Plus (fun c => negb (isspace c)).

(** r"^\d+\.\d{2}$" *)
Definition RE_AMOUNT : regex :=
  seq_all [Bol; Plus isdecimal; Lit "."; Class isdecimal; Class isdecimal] Eol.

(** r"^[\w\s\-]+$" *)
Definition RE_DESCRIPTION : regex :=
  seq_all [Bol; Plus (fun c => isword c || isspace c || bool_decide (c = "-"%char))] Eol.

(** ** Python floats: IEEE-754 binary64 *)

Definition prec : Z := 53.
Definition emax : Z := 1024.

Definition fmul : spec_float -> spec_float -> spec_float := SFmul prec emax.
Definition fdiv : spec_float -> spec_float -> spec_float := SFdiv prec emax.
Definition fadd : spec_float -> spec_float -> spec_float := SFadd prec emax.

(** An integer as the quotient's operand: the mantissa is kept whole, so
    that [fdiv] rounds the exact quotient once. *)
Definition SF_of_Z (z : Z) : spec_float :=
  match z with
  | Z0 => S754_zero false
  | Zpos p => S754_finite false p 0
  | Zneg p => S754_finite true p 0
  end.

Definition digit_value (c : ascii) : Z := ord c - 48.

(** [int] of a string of decimal digits *)
Definition int_of_digits (ds : list ascii) : Z :=
  fold_left (fun acc c => 10 * acc + digit_value c) ds 0.

Fixpoint split_dot (s : list ascii) : list ascii * option (list ascii) :=
  match s with
  | [] => ([], None)
  | c :: t =>
      if bool_decide (c = "."%char) then ([], Some t)
      else let '(a, b) := split_dot t in (c :: a, b)
  end.

(** [float(s)] for a string; the decimal literals without sign and
    exponent are read, correctly rounded: surrounding whitespace is
    dropped, and the value of [digits.digits] is the nearest binary64 to
    the decimal number written.  The validators let no other literal
    through to [float]; a string with no digit is not a number. *)
Definition py_float (s : string) : result spec_float :=
  let '(ip, fp) := split_dot (strip (chars s)) in
  let fp := default [] fp in
  if forallb isdecimal (ip ++ fp) && negb (bool_decide (ip ++ fp = [])) then
    Ok (fdiv (SF_of_Z (int_of_digits (ip ++ fp)))
             (SF_of_Z (10 ^ Z.of_nat (length fp))))
  else Raise (ValueError ("could not convert string to float: " +:+ s)).

Definition sign_of (x : spec_float) : bool :=
  match x with
  | S754_zero s | S754_infinity s | S754_finite s _ _ => s
  | S754_nan => false
  end.

(** Round half to even of the quotient [a / d], for [d > 0]. *)
Definition rne (a d : Z) : Z :=
  let q := a / d in
  let r := a mod d in
  match 2 * r ?= d with
  | Lt => q
  | Gt => q + 1
  | Eq => if Z.even q then q else q + 1
  end.

(** [round(x)] with one argument: the nearest [int], ties to even. *)
Definition py_round (x : spec_float) : result Z :=
  match x with
  | S754_nan => Raise (ValueError "cannot convert float NaN to integer")
  | S754_infinity _ => Raise OverflowError
  | S754_zero _ => Ok 0
  | S754_finite s m e =>
      if 0 <=? e then Ok (cond_Zopp s (Zpos m * 2 ^ e))
      else Ok (cond_Zopp s (rne (Zpos m) (2 ^ (- e))))
  end.

(** [math.ceil(x)] *)
Definition math_ceil (x : spec_float) : result Z :=
  match x with
  | S754_nan => Raise (ValueError "cannot convert float NaN to integer")
  | S754_infinity _ => Raise OverflowError
  | S754_zero _ => Ok 0
  | S754_finite s m e =>
      if 0 <=? e then Ok (cond_Zopp s (Zpos m * 2 ^ e))
      else Ok (- ((- cond_Zopp s (Zpos m)) / 2 ^ (- e)))
  end.

(** [x == n] for a float [x] and an int [n]: Python compares the exact
    values. *)
Definition float_eq_int (x : spec_float) (n : Z) : bool :=
  match x with
  | S754_nan | S754_infinity _ => false
  | S754_zero _ => n =? 0
  | S754_finite s m e =>
      if 0 <=? e then cond_Zopp s (Zpos m * 2 ^ e) =? n
      else cond_Zopp s (Zpos m) =? n * 2 ^ (- e)
  end.

(** C's [fmod]: the exact remainder, with the sign of [x]. *)
Definition c_fmod (x y : spec_float) : spec_float :=
  match x, y with
  | S754_nan, _ | _, S754_nan => S754_nan
  | S754_infinity _, _ => S754_nan
  | _, S754_zero _ => S754_nan
  | S754_zero _, _ => x
  | S754_finite _ _ _, S754_infinity _ => x
  | S754_finite sx mx ex, S754_finite _ my ey =>
      let e := Z.min ex ey in
      let r := (Zpos mx * 2 ^ (ex - e)) mod (Zpos my * 2 ^ (ey - e)) in
      binary_normalize prec emax (cond_Zopp sx r) e sx
  end.

(** [x % y] on floats ([float_rem] of CPython): [fmod], then the sign of
    the divisor. *)
Definition py_float_mod (x y : spec_float) : result spec_float :=
  match y with
  | S754_zero _ => Raise ZeroDivisionError
  | _ =>
      let m := c_fmod x y in
      match m with
      | S754_zero _ => Ok (S754_zero (sign_of y))
      | S754_nan => Ok S754_nan
      | _ => if xorb (sign_of y) (sign_of m) then Ok (fadd m y) else Ok m
      end
  end.

(** The literals [0.2] and [0.25] *)
Definition lit_0_2 : spec_float := S754_finite false 7205759403792794 (-55).
Definition lit_0_25 : spec_float := S754_finite false 4503599627370496 (-54).

(** ** [datetime.strptime] for the two formats of the program

    [strptime] turns the format into a regular expression with one group
    per directive, matches it at the start of the input, refuses input
    that is left over and builds the [datetime] from the groups.  The
    groups are read here by a backtracking parser that lists the
    possible matches in the order [re] tries them. *)

Record datetime := { year : Z; month : Z; day : Z; hour : Z; minute : Z }.

Definition parser (A : Type) : Type := list ascii -> list (A * list ascii).

Definition p_ret {A} (a : A) : parser A := fun s => [(a, s)].

Definition p_bind {A B} (p : parser A) (f : A -> parser B) : parser B :=
  fun s => flat_map (fun at_ => f (fst at_) (snd at_)) (p s).

Definition p_alt {A} (p q : parser A) : parser A := fun s => p s ++ q s.

(** one digit between [lo] and [hi] *)
Definition p_digit (lo hi : Z) : parser Z := fun s =>
  match s with
  | c :: t => if in_range (48 + lo) (48 + hi) c then [(digit_value c, t)] else []
  | [] => []
  end.

Definition p_lit (c : ascii) : parser unit := fun s =>
  match s with
  | x :: t => if bool_decide (x = c) then [(tt, t)] else []
  | [] => []
  end.

Definition p_two (lo1 hi1 lo2 hi2 : Z) : parser Z :=
  p_bind (p_digit lo1 hi1) (fun a => p_bind (p_digit lo2 hi2) (fun b => p_ret (10 * a + b))).

(** %Y: \d\d\d\d *)
Definition p_Y : parser Z :=
  p_bind (p_two 0 9 0 9) (fun a => p_bind (p_two 0 9 0 9) (fun b => p_ret (100 * a + b))).

(** %m: 1[0-2]|0[1-9]|[1-9] *)
Definition p_m : parser Z :=
  p_alt (p_two 1 1 0 2) (p_alt (p_two 0 0 1 9) (p_digit 1 9)).

(** %d: 3[0-1]|[1-2]\d|0[1-9]|[1-9]| [1-9] *)
Definition p_d : parser Z :=
  p_alt (p_two 3 3 0 1) (p_alt (p_two 1 2 0 9) (p_alt (p_two 0 0 1 9)
    (p_alt (p_digit 1 9) (p_bind (p_lit " ") (fun _ => p_digit 1 9))))).

(** %H: 2[0-3]|[0-1]\d|\d *)
Definition p_H : parser Z :=
  p_alt (p_two 2 2 0 3) (p_alt (p_two 0 1 0 9) (p_digit 0 9)).

(** %M: [0-5]\d|\d *)
Definition p_M : parser Z := p_alt (p_two 0 5 0 9) (p_digit 0 9).

(** The first match; input left over is "unconverted data". *)
Definition first_full {A} (p : parser A) (s : string) : option A :=
  match p (chars s) with
  | (a, []) :: _ => Some a
  | _ => None
  end.

Definition is_leap (y : Z) : bool :=
  (y mod 4 =? 0) && (negb (y mod 100 =? 0) || (y mod 400 =? 0)).

Definition days_in_month (y m : Z) : Z :=
  if m =? 2 then (if is_leap y then 29 else 28)
  else if (m =? 4) || (m =? 6) || (m =? 9) || (m =? 11) then 30
  else 31.

(** RECEIPT_DATE_FORMAT = '%Y-%m-%d' *)
Definition strptime_date (s : string) : option datetime :=
  match first_full
          (p_bind p_Y (fun y => p_bind (p_lit "-") (fun _ =>
           p_bind p_m (fun m => p_bind (p_lit "-") (fun _ =>
           p_bind p_d (fun d => p_ret (y, m, d))))))) s with
  | Some (y, m, d) =>
      (* datetime(y, m, d): MINYEAR is 1, the day must exist *)
      if (1 <=? y) && (d <=? days_in_month y m)
      then Some {| year := y; month := m; day := d; hour := 0; minute := 0 |}
      else None
  | None => None
  end.

(** RECEIPT_TIME_FORMAT = '%H:%M' *)
Definition strptime_time (s : string) : option datetime :=
  match first_full
          (p_bind p_H (fun h => p_bind (p_lit ":") (fun _ =>
           p_bind p_M (fun m => p_ret (h, m))))) s with
  | Some (h, m) =>
      Some {| year := 1900; month := 1; day := 1; hour := h; minute := m |}
  | None => None
  end.

(** ** The program *)

Definition required_receipt_attributes : list string :=
  ["retailer"; "total"; "items"; "purchaseDate"; "purchaseTime"].
Definition required_item_attributes : list string := ["shortDescription"; "price"].
Definition POINTS_RETAILER_NAME_ALPHANUM_CHARACTER : Z := 1.
Definition POINTS_TOTAL_HAS_NO_CENTS : Z := 50.
Definition POINTS_TOTAL_IS_MULTIPLE_OF_QUARTERS : Z := 25.
Definition POINTS_ITEMS_COUNT : Z := 5.
Definition POINTS_ITEM_DESCRIPTION : spec_float := lit_0_2.
Definition POINTS_ODD_PURCHASE_DAY : Z := 6.
Definition POINTS_VALID_PURCHASE_HOUR : Z := 10.
Definition REWARD_ITEM_DESCRIPTION_LENGTH_FACTOR : Z := 3.
Definition REWARD_HOUR_START : Z := 14.
Definition REWARD_HOUR_END : Z := 16.

Definition is_str (v : json) : bool := match v with JStr _ => true | _ => false end.

(** [d[key]] on a dict *)
Definition getitem (d : gmap string json) (key : string) : result json :=
  match d !! key with
  | Some v => Ok v
  | None => Raise (KeyError key)
  end.

(** [v[key]] on any value: only a dict has string subscripts *)
Definition subscript (v : json) (key : string) : result json :=
  match v with
  | JDict d => getitem d key
  | _ => Raise TypeError
  end.

(** Passing a value where the callee's annotation wants a [str] or a
    [List]: the annotation is taken as the type, and any other value
    raises [TypeError] at the call.  Python raises it where the value is
    first used, which is later for two kinds of value, both of them
    refused by [validate_receipt_json_structure] before
    [calculate_points] runs: a price that is not a string is met only
    after the description passed its pattern, and an [items] that is a
    string or a dict is measured and iterated (empty, it scores 0).
    After the structure validation no cast fails
    ([calculate_points_well_typed] below). *)
Definition as_str (v : json) : result string :=
  match v with JStr s => Ok s | _ => Raise TypeError end.
Definition as_list (v : json) : result (list json) :=
  match v with JList l => Ok l | _ => Raise TypeError end.

(** [for x in l: body(x)], for a body that only raises or passes *)
Fixpoint for_each {A} (l : list A) (body : A -> result unit) : result unit :=
  match l with
  | [] => Ok tt
  | x :: rest => _ ← body x; for_each rest body
  end.

Definition validate_retailer_name (retailer_name : string) : result unit :=
  if negb (re_match RE_RETAILER retailer_name) then
    Raise (ValueError ("Error: invalid receipt retailer name (" +:+ retailer_name +:+ ")"))
  else Ok tt.

Definition score_retailer (retailer_name : string) : result Z :=
  _ ← validate_retailer_name retailer_name;
  Ok (fold_right Z.add 0
        (map (fun c => Z.b2z (isalnum c) * POINTS_RETAILER_NAME_ALPHANUM_CHARACTER)
             (chars retailer_name))).

Definition validate_total (total : string) : result unit :=
  if negb (re_match RE_AMOUNT total) then
    Raise (ValueError ("Error: invalid receipt total (" +:+ total +:+ ")"))
  else Ok tt.

Definition score_total (total : string) : result Z :=
  _ ← validate_total total;
  parsed_total ← py_float total;
  rounded_total ← py_round parsed_total;
  let points := 0 in
  let points :=
    if float_eq_int parsed_total rounded_total
    then points + POINTS_TOTAL_HAS_NO_CENTS else points in
  remainder ← py_float_mod parsed_total lit_0_25;
  let points :=
    if float_eq_int remainder 0
    then points + POINTS_TOTAL_IS_MULTIPLE_OF_QUARTERS else points in
  Ok points.

Definition validate_item (description price : string) : result unit :=
  if negb (re_match RE_DESCRIPTION description) then
    Raise (ValueError ("Error: invalid item description (" +:+ description +:+ ")"))
  else if negb (re_match RE_AMOUNT price) then
    Raise (ValueError ("Error: invalid item price (" +:+ price +:+ ")"))
  else Ok tt.

(** The loop of [score_items], carrying [points] *)
Fixpoint score_items_loop (items : list json) (points : Z) : result Z :=
  match items with
  | [] => Ok points
  | item :: rest =>
      description ← subscript item "shortDescription";
      price ← subscript item "price";
      description ← as_str description;
      price ← as_str price;
      _ ← validate_item description price;
      if Z.of_nat (length (strip (chars description)))
           mod REWARD_ITEM_DESCRIPTION_LENGTH_FACTOR =? 0
      then
        parsed ← py_float price;
        bonus ← math_ceil (fmul parsed POINTS_ITEM_DESCRIPTION);
        score_items_loop rest (points + bonus)
      else score_items_loop rest points
  end.

Definition score_items (items : list json) : result Z :=
  let count := Z.of_nat (length items) in
  let points := (count / 2) * POINTS_ITEMS_COUNT in
  score_items_loop items points.

Definition validate_and_parse_date_time (date time : string)
    : result (datetime * datetime) :=
  match strptime_date date with
  | None => Raise (ValueError ("Error: invalid receipt purchase date (" +:+ date +:+ ")"))
  | Some date_obj =>
      match strptime_time time with
      | None => Raise (ValueError ("Error: invalid receipt purchase time (" +:+ time +:+ ")"))
      | Some time_obj => Ok (date_obj, time_obj)
      end
  end.

Definition score_date_time (date time : string) : result Z :=
  let points := 0 in
  '(date_obj, time_obj) ← validate_and_parse_date_time date time;
  let points :=
    if negb (day date_obj mod 2 =? 0)
    then points + POINTS_ODD_PURCHASE_DAY else points in
  let points :=
    if (REWARD_HOUR_START <=? hour time_obj) && (hour time_obj <? REWARD_HOUR_END)
    then points + POINTS_VALID_PURCHASE_HOUR else points in
  Ok points.

(** The first loop of [validate_receipt_json_structure]: per attribute,
    presence and then type. *)
Definition check_attribute (receipt : gmap string json) (attribute : string)
    : result unit :=
  match receipt !! attribute with
  | None => Raise (ValueError ("Error: missing " +:+ attribute +:+ " in receipt"))
  | Some v =>
      if negb (bool_decide (attribute = "items")) && negb (is_str v) then
        Raise (ValueError ("Error: invalid " +:+ attribute +:+ " format"))
      else Ok tt
  end.

(** The body of the loop over the items *)
Definition check_item (item : json) : result unit :=
  match item with
  | JDict d =>
      for_each required_item_attributes (fun attribute =>
        v ← getitem d attribute;
        if negb (is_str v) then Raise (ValueError "Error: invalid receipt item format")
        else Ok tt)
  | _ => Raise (ValueError "Error: invalid receipt item format")
  end.

Definition validate_receipt_json_structure (receipt : gmap string json)
    : result unit :=
  _ ← for_each required_receipt_attributes (check_attribute receipt);
  items ← getitem receipt "items";
  match items with
  | JList l =>
      if (Z.of_nat (length l) <? 1) then
        Raise (ValueError "Error: receipt items list is empty")
      else for_each l check_item
  | _ => Raise (ValueError "Error: invalid receipt items list format")
  end.

Definition calculate_points (receipt : gmap string json) : result Z :=
  let points := 0 in
  retailer ← getitem receipt "retailer";
  retailer ← as_str retailer;
  p ← score_retailer retailer;
  let points := points + p in
  total ← getitem receipt "total";
  total ← as_str total;
  p ← score_total total;
  let points := points + p in
  items ← getitem receipt "items";
  items ← as_list items;
  p ← score_items items;
  let points := points + p in
  date ← getitem receipt "purchaseDate";
  date ← as_str date;
  time ← getitem receipt "purchaseTime";
  time ← as_str time;
  p ← score_date_time date time;
  let points := points + p in
  Ok points.

(** ** The two routes and the store

    [receipts] is the module-level dict; a route takes it and returns it.
    [receipt_id] is what [str(uuid4())] returned for the request.  An
    exception that is not a [ValueError] leaves [process_receipt]
    unhandled. *)

Inductive body :=
| BError (msg : string)
| BId (receipt_id : string)
| BPoints (points : Z).

Inductive response :=
| Response (status : Z) (b : body)
| Unhandled (e : exn).

(** The value the [try] block computes before it is stored *)
Definition validate_and_calculate (receipt : gmap string json) : result Z :=
  _ ← validate_receipt_json_structure receipt;
  calculate_points receipt.

Definition process_receipt (receipts : gmap string Z) (receipt_id : string)
    (receipt : gmap string json) : response * gmap string Z :=
  match validate_and_calculate receipt with
  | Ok points => (Response 200 (BId receipt_id), <[receipt_id := points]> receipts)
  | Raise (ValueError msg) => (Response 400 (BError msg), receipts)
  | Raise e => (Unhandled e, receipts)
  end.

Definition get_points (receipts : gmap string Z) (receipt_id : string) : response :=
  match receipts !! receipt_id with
  | None => Response 404 (BError ("ERROR: receipt id not found (" +:+ receipt_id +:+ ")"))
  | Some points => Response 200 (BPoints points)
  end.

(** ** Test data of [test.py] *)

Definition item (description price : string) : json :=
  JDict {[ "shortDescription" := JStr description; "price" := JStr price ]}.

Definition receipt (retailer date time total : string) (items : list json)
    : gmap string json :=
  {[ "retailer" := JStr retailer; "purchaseDate" := JStr date;
     "purchaseTime" := JStr time; "items" := JList items; "total" := JStr total ]}.

Definition target_receipt : gmap string json :=
  receipt "Target" "2022-01-01" "13:01" "35.35"
    [ item "Mountain Dew 12PK" "6.49";
      item "Emils Cheese Pizza" "12.25";
      item "Knorr Creamy Chicken" "1.26";
      item "Doritos Nacho Cheese" "3.35";
      item "   Klarbrunn 12-PK 12 FL OZ  " "12.00" ].

Definition corner_market_receipt : gmap string json :=
  receipt "M&M Corner Market" "2022-03-20" "14:33" "9.00"
    [ item "Gatorade" "2.25"; item "Gatorade" "2.25";
      item "Gatorade" "2.25"; item "Gatorade" "2.25" ].

Definition walgreens_receipt : gmap string json :=
  receipt "Walgreens" "2022-01-02" "08:13" "2.65"
    [ item "Pepsi - 12-oz" "1.25"; item "Dasani" "1.40" ].

Definition simple_receipt_skeleton : gmap string json :=
  receipt "Target" "2022-01-02" "13:13" "1.25" [ item "Pepsi - 12-oz" "1.25" ].

(** ** The service as a transition system over its requests *)

Inductive request :=
| Submit (receipt_id : string) (receipt : gmap string json)
| Retrieve (receipt_id : string).

Definition handle (receipts : gmap string Z) (r : request)
    : response * gmap string Z :=
  match r with
  | Submit receipt_id receipt => process_receipt receipts receipt_id receipt
  | Retrieve receipt_id => (get_points receipts receipt_id, receipts)
  end.

(** The store after a sequence of requests *)
Definition store_after (receipts : gmap string Z) (rs : list request)
    : gmap string Z :=
  fold_left (fun st r => snd (handle st r)) rs receipts.

(** The ids issued to the submissions of a sequence of requests *)
Fixpoint issued_ids (rs : list request) : list string :=
  match rs with
  | [] => []
  | Submit receipt_id _ :: rest => receipt_id :: issued_ids rest
  | Retrieve _ :: rest => issued_ids rest
  end.

Definition receipt_item_without_price : gmap string json :=
  receipt "Target" "2022-01-02" "13:13" "1.25"
    [ JDict {[ "shortDescription" := JStr "Pepsi - 12-oz" ]} ].

Definition blank_retailer_receipt : gmap string json :=
  receipt "   " "2022-01-02" "13:13" "1.25" [ item "Pepsi - 12-oz" "1.25" ].

(** ** Agreement of two receipts on the declared fields *)

(** Two items agree when they are dicts with the same values under
    [shortDescription] and [price] (other keys are free), or are the same
    value. *)
Definition item_agree (i1 i2 : json) : Prop :=
  match i1, i2 with
  | JDict d1, JDict d2 =>
      d1 !! "shortDescription" = d2 !! "shortDescription"
      /\ d1 !! "price" = d2 !! "price"
  | _, _ => i1 = i2
  end.

Definition items_agree (v1 v2 : option json) : Prop :=
  match v1, v2 with
  | Some (JList l1), Some (JList l2) => Forall2 item_agree l1 l2
  | _, _ => v1 = v2
  end.

Definition receipts_agree (r1 r2 : gmap string json) : Prop :=
  r1 !! "retailer" = r2 !! "retailer"
  /\ r1 !! "total" = r2 !! "total"
  /\ r1 !! "purchaseDate" = r2 !! "purchaseDate"
  /\ r1 !! "purchaseTime" = r2 !! "purchaseTime"
  /\ items_agree (r1 !! "items") (r2 !! "items").

(** The skeleton receipt with an unknown top-level key and an unknown
    key in its item *)
Definition simple_receipt_with_extras : gmap string json :=
  <["cashier" := JInt 7]>
    (receipt "Target" "2022-01-02" "13:13" "1.25"
       [ JDict {[ "shortDescription" := JStr "Pepsi - 12-oz";
                  "price" := JStr "1.25"; "sku" := JNull ]} ]).

(** ** Receipts that break two rules at once *)




(** A field that passes both checks of the first loop *)
Definition field_well_formed (receipt : gmap string json) (attribute : string) : Prop :=
  exists v, receipt !! attribute = Some v /\ (attribute = "items" \/ is_str v = true).

(** An item that is a dict with these two strings under its keys *)
Definition item_fields (it : json) (description price : string) : Prop :=
  exists d, it = JDict d
            /\ d !! "shortDescription" = Some (JStr description)
            /\ d !! "price" = Some (JStr price).


(** What [calculate_points] can still raise after the structure
    validation *)
Definition value_or_overflow (e : exn) : Prop :=
  (exists msg, e = ValueError msg) \/ e = OverflowError.

(** ** Reading the rounding of [SpecFloat] as integer division *)

(** The position of the remainder [r] of a division by [d], as a
    [location] *)
Definition loc_ok (l : location) (r d : Z) : Prop :=
  match l with
  | loc_Exact => r = 0
  | loc_Inexact c => r <> 0 /\ (2 * r ?= d) = c
  end.

(** A shift record stands for the quotient [a / d] *)
Definition stands_for (mrs : shr_record) (a d : Z) : Prop :=
  0 <= a /\ 0 < d /\ shr_m mrs = a / d
  /\ loc_ok (loc_of_shr_record mrs) (a mod d) d.

(** ** Exact decimal arithmetic, to compare the float scores with *)

(** The amount a string writes, in cents: its decimal digits read as one
    number, the dot left out. *)
Definition amount_cents (s : string) : Z :=
  int_of_digits (List.filter isdecimal (chars s)).

(** The ceiling of [a / b] *)
Definition ceil_div (a b : Z) : Z := - (- a / b).

(** The points of a total of so many cents, by exact decimal comparison *)
Definition total_points_exact (cents : Z) : Z :=
  (if cents mod 100 =? 0 then POINTS_TOTAL_HAS_NO_CENTS else 0)
  + (if cents mod 25 =? 0 then POINTS_TOTAL_IS_MULTIPLE_OF_QUARTERS else 0).

(** The bonus of one item, by exact decimal arithmetic: a fifth of the
    price, rounded up, when the trimmed length of the description is a
    multiple of 3. *)
Definition item_bonus_exact (it : json) : Z :=
  match it with
  | JDict d =>
      match d !! "shortDescription", d !! "price" with
      | Some (JStr description), Some (JStr price) =>
          if Z.of_nat (length (strip (chars description))) mod 3 =? 0
          then ceil_div (amount_cents price) 500
          else 0
      | _, _ => 0
      end
  | _ => 0
  end.

Definition items_points_exact (items : list json) : Z :=
  Z.of_nat (length items) / 2 * 5
  + fold_right Z.add 0 (map item_bonus_exact items).

(** A total of 2^47 and one cent *)
Definition total_2_47_and_a_cent : string := "140737488355328.01".

(** One item whose price is a cent above a multiple of 5.00, beyond 2^47 *)
Definition items_beyond_2_47 : list json :=
  [ item "abc" "140737488355330.01" ].

(** A total of 1 followed by 309 zeros, beyond the largest float *)
Definition huge_total : string :=
  string_of_list_ascii ("1"%char :: repeat "0"%char 309 ++ chars ".00").

Definition receipt_huge_total : gmap string json :=
  receipt "Target" "2022-01-02" "13:13" huge_total [ item "Pepsi - 12-oz" "1.25" ].

(** ** What the patterns accept *)

(** Digits, a dot, two digits, and at most one final newline *)
Definition amount_shape (s : list ascii) : Prop :=
  exists ds c1 c2 tl,
    s = ds ++ "."%char :: c1 :: c2 :: tl
    /\ ds <> [] /\ forallb isdecimal ds = true
    /\ isdecimal c1 = true /\ isdecimal c2 = true
    /\ (tl = [] \/ tl = [newline]).

(** The class [\w\s\-] *)
Definition description_char (c : ascii) : bool :=
  isword c || isspace c || bool_decide (c = "-"%char).

(** ** Floats that are not negative *)

(** Zero, a positive finite float or plus infinity: what [float] makes
    of an amount and what the product with [0.2] keeps *)
Definition nonneg_float (x : spec_float) : Prop :=
  match x with
  | S754_nan => False
  | S754_zero s | S754_infinity s | S754_finite s _ _ => s = false
  end.

(** ** The error messages of the interface *)

(** The messages of the [raise] statements of [app.py] *)
Inductive error_message : string -> Prop :=
| missing_attribute a :
    a ∈ required_receipt_attributes ->
    error_message ("Error: missing " +:+ a +:+ " in receipt")
| invalid_attribute_format a :
    a ∈ required_receipt_attributes -> a <> "items" ->
    error_message ("Error: invalid " +:+ a +:+ " format")
| invalid_items_list_format : error_message "Error: invalid receipt items list format"
| items_list_empty : error_message "Error: receipt items list is empty"
| invalid_item_format : error_message "Error: invalid receipt item format"
| invalid_retailer_name v :
    error_message ("Error: invalid receipt retailer name (" +:+ v +:+ ")")
| invalid_total v : error_message ("Error: invalid receipt total (" +:+ v +:+ ")")
| invalid_item_description v :
    error_message ("Error: invalid item description (" +:+ v +:+ ")")
| invalid_item_price v : error_message ("Error: invalid item price (" +:+ v +:+ ")")
| invalid_purchase_date v :
    error_message ("Error: invalid receipt purchase date (" +:+ v +:+ ")")
| invalid_purchase_time v :
    error_message ("Error: invalid receipt purchase time (" +:+ v +:+ ")").

(** The messages of the date and of the time error start like this. *)
Definition PURCHASE_ERROR_PREFIX : string := "Error: invalid receipt purchase ".

(** ** Receipts of the expected structure *)

(** The four attributes that must be strings are there and are strings *)
Definition string_attributes (receipt : gmap string json) : Prop :=
  exists retailer total date time,
    receipt !! "retailer" = Some (JStr retailer)
    /\ receipt !! "total" = Some (JStr total)
    /\ receipt !! "purchaseDate" = Some (JStr date)
    /\ receipt !! "purchaseTime" = Some (JStr time).

Definition well_formed_receipt (receipt : gmap string json) : Prop :=
  string_attributes receipt
  /\ exists items,
       receipt !! "items" = Some (JList items)
       /\ items <> []
       /\ Forall (fun it => exists description price,
                    item_fields it description price) items.

(** ** The loop of [score_items], one item at a time *)

(** What the body of the loop adds to [points] for one item *)
Definition item_points (item : json) : result Z :=
  description ← subscript item "shortDescription";
  price ← subscript item "price";
  description ← as_str description;
  price ← as_str price;
  _ ← validate_item description price;
  if Z.of_nat (length (strip (chars description)))
       mod REWARD_ITEM_DESCRIPTION_LENGTH_FACTOR =? 0
  then
    parsed ← py_float price;
    math_ceil (fmul parsed POINTS_ITEM_DESCRIPTION)
  else Ok 0.

(** ** Dates and times as they are usually written *)

Definition digit_char (n : Z) : ascii := ascii_of_N (Z.to_N (48 + n)).

(** A number below 100 with two digits, a year with four *)
Definition two_digits (n : Z) : string :=
  String (digit_char (n / 10)) (String (digit_char (n mod 10)) "").
Definition four_digits (n : Z) : string :=
  two_digits (n / 100) +:+ two_digits (n mod 100).

(** YYYY-MM-DD and HH:MM *)
Definition iso_date (y m d : Z) : string :=
  four_digits y +:+ "-" +:+ two_digits m +:+ "-" +:+ two_digits d.
Definition clock_time (h mi : Z) : string :=
  two_digits h +:+ ":" +:+ two_digits mi.

(** ** Amounts in the range of a float *)

(** The amounts, in cents, whose float is finite: below
    [2 ^ 1024 - 2 ^ 970], from where on the nearest binary64 is
    infinity. *)
Definition FLOAT_RANGE_CENTS : Z := 100 * (2 ^ 1024 - 2 ^ 970).

(** A float in the normal range: 53 bits of mantissa *)
Definition normal_float (x : spec_float) : Prop :=
  exists m e, x = S754_finite false m e
              /\ 2 ^ 52 <= Z.pos m < 2 ^ 53 /\ -59 <= e <= emax - prec.

(** ** Valid receipts *)

(** A receipt that passes every validation rule: the structure, the
    retailer name, the total, the two formats of every item, the date
    and the time *)
Definition valid_receipt (receipt : gmap string json) : Prop :=
  exists retailer total date time items,
    receipt !! "retailer" = Some (JStr retailer)
    /\ receipt !! "total" = Some (JStr total)
    /\ receipt !! "purchaseDate" = Some (JStr date)
    /\ receipt !! "purchaseTime" = Some (JStr time)
    /\ receipt !! "items" = Some (JList items)
    /\ items <> []
    /\ validate_retailer_name retailer = Ok tt
    /\ validate_total total = Ok tt
    /\ Forall (fun it => exists description price,
                 item_fields it description price
                 /\ validate_item description price = Ok tt) items
    /\ is_Some (strptime_date date)
    /\ is_Some (strptime_time time).

(** The total, and the price of every item whose description earns the
    bonus, are in the range of a float. *)
Definition amounts_in_float_range (receipt : gmap string json) : Prop :=
  (forall total, receipt !! "total" = Some (JStr total) ->
                 amount_cents total < FLOAT_RANGE_CENTS)
  /\ forall items, receipt !! "items" = Some (JList items) ->
       Forall (fun it => forall description price,
                 item_fields it description price ->
                 Z.of_nat (length (strip (chars description)))
                   mod REWARD_ITEM_DESCRIPTION_LENGTH_FACTOR = 0 ->
                 amount_cents price < FLOAT_RANGE_CENTS) items.

(** ** A request body of any JSON type

    [process_receipt] hands [request.json] to the validation as it is: a
    body that is not an object meets the same statements.  [in] is
    defined on a dict (its keys), a string (its substrings) and a list
    (its elements) and raises [TypeError] on the other values; a string
    subscript is defined on a dict only. *)

(** [needle in s] for two strings *)
Fixpoint occurs (needle s : string) : bool :=
  String.prefix needle s
  || match s with
     | EmptyString => false
     | String _ rest => occurs needle rest
     end.

(** [attribute in receipt] *)
Definition contains (receipt : json) (attribute : string) : result bool :=
  match receipt with
  | JDict d => Ok (bool_decide (is_Some (d !! attribute)))
  | JStr s => Ok (occurs attribute s)
  | JList l =>
      Ok (existsb (fun v => match v with
                            | JStr s => bool_decide (s = attribute)
                            | _ => false
                            end) l)
  | _ => Raise TypeError
  end.

(** The body of the first loop of [validate_receipt_json_structure] *)
Definition check_attribute_any (receipt : json) (attribute : string) : result unit :=
  present ← contains receipt attribute;
  if negb present then
    Raise (ValueError ("Error: missing " +:+ attribute +:+ " in receipt"))
  else if negb (bool_decide (attribute = "items")) then
    v ← subscript receipt attribute;
    if negb (is_str v) then
      Raise (ValueError ("Error: invalid " +:+ attribute +:+ " format"))
    else Ok tt
  else Ok tt.

Definition validate_receipt_json_structure_any (receipt : json) : result unit :=
  _ ← for_each required_receipt_attributes (check_attribute_any receipt);
  items ← subscript receipt "items";
  match items with
  | JList l =>
      if (Z.of_nat (length l) <? 1) then
        Raise (ValueError "Error: receipt items list is empty")
      else for_each l check_item
  | _ => Raise (ValueError "Error: invalid receipt items list format")
  end.

(** [calculate_points] starts with [receipt['retailer']] *)
Definition calculate_points_any (receipt : json) : result Z :=
  match receipt with
  | JDict d => calculate_points d
  | _ => Raise TypeError
  end.

Definition process_receipt_any (receipts : gmap string Z) (receipt_id : string)
    (receipt : json) : response * gmap string Z :=
  match (_ ← validate_receipt_json_structure_any receipt;
         calculate_points_any receipt) with
  | Ok points => (Response 200 (BId receipt_id), <[receipt_id := points]> receipts)
  | Raise (ValueError msg) => (Response 400 (BError msg), receipts)
  | Raise e => (Unhandled e, receipts)
  end.

(** * Properties *)

#[local] Arguments py_float : simpl never.
#[local] Arguments py_round : simpl never.
#[local] Arguments py_float_mod : simpl never.
#[local] Arguments math_ceil : simpl never.
#[local] Arguments float_eq_int : simpl never.
#[local] Arguments fmul : simpl never.
#[local] Arguments validate_item : simpl never.
#[local] Arguments String.prefix : simpl never.

(** ** The example receipts *)

(** C1: the 5-item Target receipt and the 4-item M&M Corner Market
    receipt of the test data pass the structural validation and
    [calculate_points] returns 28 and 109 for them. *)
Theorem example_receipts_points :
  validate_receipt_json_structure target_receipt = Ok tt
  /\ calculate_points target_receipt = Ok 28
  /\ validate_receipt_json_structure corner_market_receipt = Ok tt
  /\ calculate_points corner_market_receipt = Ok 109.
Proof. vm_compute. auto. Qed.

(** ** The retailer name *)

Lemma many_true p pos s : many p (fun _ _ => true) pos s = true.
Proof.
  revert pos; induction s as [|c t IH]; intros pos; simpl; [reflexivity|].
  apply orb_true_r.
Qed.

(** What [re.match(r"\S+", s)] decides: the first character. *)
Lemma re_match_retailer s :
  re_match RE_RETAILER s =
  match chars s with
  | c :: _ => negb (isspace c)
  | [] => false
  end.
Proof.
  unfold re_match, RE_RETAILER; simpl.
  destruct (chars s) as [|c t]; [reflexivity|].
  now rewrite many_true, andb_true_r.
Qed.

(** C2: a retailer name that begins with a whitespace character is
    rejected with the retailer-name error, whatever follows the
    whitespace (also when non-whitespace characters follow). *)
Theorem retailer_leading_whitespace_rejected (c : ascii) (rest : string)
    (Hspace : isspace c = true) :
  validate_retailer_name (String c rest) =
  Raise (ValueError ("Error: invalid receipt retailer name ("
                     +:+ String c rest +:+ ")")).
Proof.
  unfold validate_retailer_name.
  rewrite re_match_retailer; simpl.
  now rewrite Hspace.
Qed.

Lemma retailer_leading_whitespace_rejected_witness :
  isspace " " = true
  /\ negb (forallb isspace (chars " Target")) = true
  /\ validate_retailer_name " Target" =
     Raise (ValueError "Error: invalid receipt retailer name ( Target)").
Proof.
  split; [reflexivity|]. split; [reflexivity|].
  apply (retailer_leading_whitespace_rejected " " "Target"); reflexivity.
Defined.

(** ** Items without their keys *)

(** C6: for a receipt whose only item is a dict without the key
    [price], the [KeyError] of the item subscript leaves
    [process_receipt] unhandled: the answer is not the
    item-format error, and the store is as before. *)
Theorem item_without_price_unhandled (receipts : gmap string Z) (receipt_id : string) :
  validate_receipt_json_structure receipt_item_without_price = Raise (KeyError "price")
  /\ process_receipt receipts receipt_id receipt_item_without_price
     = (Unhandled (KeyError "price"), receipts).
Proof.
  assert (H : validate_receipt_json_structure receipt_item_without_price
              = Raise (KeyError "price")) by (vm_compute; reflexivity).
  split; [exact H|].
  unfold process_receipt, validate_and_calculate. rewrite H. reflexivity.
Qed.

(** A total that matches the pattern and reads as the float infinity:
    [round] raises [OverflowError], which [process_receipt] does not
    handle either. *)
Lemma huge_total_unhandled (receipts : gmap string Z) (receipt_id : string) :
  re_match RE_AMOUNT huge_total = true
  /\ process_receipt receipts receipt_id receipt_huge_total
     = (Unhandled OverflowError, receipts).
Proof.
  split; [vm_compute; reflexivity|].
  assert (H : validate_and_calculate receipt_huge_total = Raise OverflowError)
    by (vm_compute; reflexivity).
  unfold process_receipt. now rewrite H.
Qed.

(** ** The store *)

Lemma process_receipt_ok receipts receipt_id receipt points :
  validate_and_calculate receipt = Ok points ->
  process_receipt receipts receipt_id receipt
  = (Response 200 (BId receipt_id), <[receipt_id := points]> receipts).
Proof. intros H. unfold process_receipt. now rewrite H. Qed.

Lemma process_receipt_raise receipts receipt_id receipt e :
  validate_and_calculate receipt = Raise e ->
  snd (process_receipt receipts receipt_id receipt) = receipts.
Proof. intros H. unfold process_receipt. rewrite H. now destruct e. Qed.

(** A retrieval never writes. *)
Lemma retrieve_read_only receipts receipt_id :
  snd (handle receipts (Retrieve receipt_id)) = receipts.
Proof. reflexivity. Qed.

(** Requests that were issued other ids leave the entry of an id alone. *)
Lemma store_after_other (rs : list request) (receipts : gmap string Z) (k : string) :
  k ∉ issued_ids rs ->
  store_after receipts rs !! k = receipts !! k.
Proof.
  revert receipts; induction rs as [|r rs IH]; intros receipts Hk; [reflexivity|].
  unfold store_after in *; simpl.
  destruct r as [i rc|i]; simpl in *.
  - apply not_elem_of_cons in Hk as [Hne Hk].
    rewrite IH by exact Hk.
    unfold process_receipt.
    destruct (validate_and_calculate rc) as [p|[]]; simpl; try reflexivity.
    now apply lookup_insert_ne.
  - now apply IH.
Qed.

(** The entries of the store are the ids of the submissions that got
    through validation and scoring. *)
Lemma store_after_entries (rs : list request) (receipts : gmap string Z) (k : string) :
  is_Some (store_after receipts rs !! k) <->
  is_Some (receipts !! k)
  \/ exists r p, Submit k r ∈ rs /\ validate_and_calculate r = Ok p.
Proof.
  revert receipts; induction rs as [|r rs IH]; intros receipts.
  - simpl. split; [now left|].
    intros [H|(r & p & Hin & _)]; [exact H|]. now apply elem_of_nil in Hin.
  - change (store_after receipts (r :: rs))
      with (store_after (snd (handle receipts r)) rs).
    rewrite IH. split.
    + intros [H|(r' & p & Hin & Hp)].
      * destruct r as [i rc|i]; simpl in H; [|now left].
        unfold process_receipt in H.
        destruct (validate_and_calculate rc) as [p|e] eqn:E.
        -- simpl in H. destruct (decide (i = k)) as [->|Hne].
           ++ right. exists rc, p. split; [apply elem_of_cons; now left|exact E].
           ++ rewrite lookup_insert_ne in H by exact Hne. now left.
        -- left. now destruct e.
      * right. exists r', p. split; [apply elem_of_cons; now right|exact Hp].
    + intros [H|(r' & p & Hin & Hp)].
      * left. destruct r as [i rc|i]; simpl; [|exact H].
        unfold process_receipt.
        destruct (validate_and_calculate rc) as [p|e]; [|now destruct e].
        simpl. destruct (decide (i = k)) as [->|Hne].
        -- rewrite lookup_insert_eq. eauto.
        -- now rewrite lookup_insert_ne.
      * apply elem_of_cons in Hin as [<-|Hin].
        -- left. simpl. rewrite (process_receipt_ok _ _ _ _ Hp). simpl.
           rewrite lookup_insert_eq. eauto.
        -- right. exists r', p. now split.
Qed.

(** ** Only the declared fields are read *)

Lemma check_attribute_agree r1 r2 a :
  a <> "items" -> r1 !! a = r2 !! a ->
  check_attribute r1 a = check_attribute r2 a.
Proof. intros _ H. unfold check_attribute. now rewrite H. Qed.

Lemma check_attribute_items_agree r1 r2 :
  items_agree (r1 !! "items") (r2 !! "items") ->
  check_attribute r1 "items" = check_attribute r2 "items".
Proof.
  unfold check_attribute, items_agree.
  destruct (r1 !! "items") as [v1|], (r2 !! "items") as [v2|];
    simpl; try congruence; try reflexivity; destruct v1; congruence.
Qed.

Lemma check_item_agree i1 i2 : item_agree i1 i2 -> check_item i1 = check_item i2.
Proof.
  unfold item_agree.
  destruct i1, i2; try congruence.
  intros [Hd Hp]. unfold check_item, required_item_attributes, getitem; simpl.
  now rewrite Hd, Hp.
Qed.

Lemma for_each_check_item_agree l1 l2 :
  Forall2 item_agree l1 l2 -> for_each l1 check_item = for_each l2 check_item.
Proof.
  induction 1 as [|i1 i2 l1 l2 Hi _ IH]; [reflexivity|].
  simpl. now rewrite (check_item_agree _ _ Hi), IH.
Qed.

Lemma subscript_agree i1 i2 key :
  item_agree i1 i2 -> key = "shortDescription" \/ key = "price" ->
  subscript i1 key = subscript i2 key.
Proof.
  unfold item_agree.
  destruct i1, i2; try congruence.
  intros [Hd Hp] [->| ->]; unfold subscript, getitem; [now rewrite Hd|now rewrite Hp].
Qed.

Lemma score_items_loop_agree l1 l2 :
  Forall2 item_agree l1 l2 ->
  forall points, score_items_loop l1 points = score_items_loop l2 points.
Proof.
  induction 1 as [|i1 i2 l1 l2 Hi _ IH]; intros points; [reflexivity|].
  simpl.
  rewrite (subscript_agree _ _ "shortDescription" Hi) by now left.
  rewrite (subscript_agree _ _ "price" Hi) by now right.
  destruct (subscript i2 "shortDescription") as [dv|]; [|reflexivity]; simpl.
  destruct (subscript i2 "price") as [pv|]; [|reflexivity]; simpl.
  destruct (as_str dv) as [d|]; [|reflexivity]; simpl.
  destruct (as_str pv) as [p|]; [|reflexivity]; simpl.
  destruct (validate_item d p); [|reflexivity]; simpl.
  destruct (_ =? 0); [|apply IH].
  destruct (py_float p) as [f|]; [|reflexivity]; simpl.
  destruct (math_ceil _); [|reflexivity]; simpl.
  apply IH.
Qed.

(** C10: two receipts that agree on retailer, total, purchaseDate and
    purchaseTime and item by item on shortDescription and price get the
    same outcome from the structural validation, the same outcome from
    [calculate_points], and so the same answer from [process_receipt]. *)
Theorem outcome_depends_on_declared_fields (r1 r2 : gmap string json)
    (Hagree : receipts_agree r1 r2) :
  validate_receipt_json_structure r1 = validate_receipt_json_structure r2
  /\ calculate_points r1 = calculate_points r2
  /\ forall receipts receipt_id,
       process_receipt receipts receipt_id r1 = process_receipt receipts receipt_id r2.
Proof.
  destruct Hagree as (Hr & Ht & Hd & Htm & Hi).
  assert (Hv : validate_receipt_json_structure r1 = validate_receipt_json_structure r2).
  { unfold validate_receipt_json_structure, required_receipt_attributes; simpl.
    rewrite (check_attribute_agree r1 r2 "retailer") by (done || exact Hr).
    rewrite (check_attribute_agree r1 r2 "total") by (done || exact Ht).
    rewrite (check_attribute_items_agree r1 r2 Hi).
    rewrite (check_attribute_agree r1 r2 "purchaseDate") by (done || exact Hd).
    rewrite (check_attribute_agree r1 r2 "purchaseTime") by (done || exact Htm).
    do 5 (match goal with |- context [check_attribute r2 ?a] =>
            destruct (check_attribute r2 a); [|reflexivity]; simpl end).
    unfold getitem, items_agree in *.
    destruct (r1 !! "items") as [v1|], (r2 !! "items") as [v2|];
      simpl; try congruence; try (destruct v1; congruence).
    destruct v1, v2; simpl; try congruence; try reflexivity.
    rewrite (Forall2_length _ _ _ Hi).
    destruct (_ <? 1); [reflexivity|].
    now apply for_each_check_item_agree. }
  assert (Hc : calculate_points r1 = calculate_points r2).
  { unfold calculate_points, getitem. rewrite Hr, Ht, Hd, Htm.
    destruct (r2 !! "retailer") as [v|]; [|reflexivity]; simpl.
    destruct (as_str v) as [s|]; [|reflexivity]; simpl.
    destruct (score_retailer s); [|reflexivity]; simpl.
    destruct (r2 !! "total") as [vt|]; [|reflexivity]; simpl.
    destruct (as_str vt) as [st|]; [|reflexivity]; simpl.
    destruct (score_total st); [|reflexivity]; simpl.
    unfold items_agree in Hi.
    destruct (r1 !! "items") as [v1|], (r2 !! "items") as [v2|];
      simpl; try congruence; try (destruct v1; congruence); try reflexivity.
    destruct v1, v2; simpl; try congruence; try reflexivity.
    unfold score_items.
    rewrite (Forall2_length _ _ _ Hi).
    now rewrite (score_items_loop_agree _ _ Hi). }
  split; [exact Hv|]. split; [exact Hc|].
  intros receipts receipt_id.
  unfold process_receipt, validate_and_calculate. now rewrite Hv, Hc.
Qed.

Lemma outcome_depends_on_declared_fields_witness :
  receipts_agree simple_receipt_skeleton simple_receipt_with_extras
  /\ simple_receipt_skeleton <> simple_receipt_with_extras
  /\ calculate_points simple_receipt_skeleton
     = calculate_points simple_receipt_with_extras.
Proof.
  assert (Ha : receipts_agree simple_receipt_skeleton simple_receipt_with_extras).
  { repeat split; try (vm_compute; reflexivity).
    unfold items_agree.
    replace (simple_receipt_skeleton !! "items")
      with (Some (JList [item "Pepsi - 12-oz" "1.25"])) by (vm_compute; reflexivity).
    replace (simple_receipt_with_extras !! "items")
      with (Some (JList [JDict {[ "shortDescription" := JStr "Pepsi - 12-oz";
                                  "price" := JStr "1.25"; "sku" := JNull ]}]))
      by (vm_compute; reflexivity).
    constructor; [|constructor].
    split; vm_compute; reflexivity. }
  split; [exact Ha|]. split.
  - intros H.
    assert (H' : simple_receipt_skeleton !! "cashier"
                 = simple_receipt_with_extras !! "cashier") by now rewrite H.
    vm_compute in H'. discriminate H'.
  - exact (proj1 (proj2 (outcome_depends_on_declared_fields _ _ Ha))).
Defined.

(** ** The order of the checks *)

Lemma for_each_first_failure {A} (body : A -> result unit) pre a post e :
  Forall (fun b => body b = Ok tt) pre ->
  body a = Raise e ->
  for_each (pre ++ a :: post) body = Raise e.
Proof.
  induction 1 as [|b pre Hb _ IH]; intros Ha; simpl.
  - now rewrite Ha.
  - rewrite Hb; simpl. now apply IH.
Qed.

Lemma for_each_ok {A} (body : A -> result unit) l :
  for_each l body = Ok tt <-> Forall (fun b => body b = Ok tt) l.
Proof.
  induction l as [|b l IH]; simpl.
  - split; [constructor|reflexivity].
  - split.
    + intros H. destruct (body b) as [[]|] eqn:Hb; [|discriminate].
      constructor; [exact Hb|now apply IH].
    + intros H. apply Forall_cons in H as [Hb Hl]. rewrite Hb; simpl. now apply IH.
Qed.


(** Structure validation that passes: the items are a list whose
    elements each passed the item checks. *)
Lemma validate_structure_ok receipt :
  validate_receipt_json_structure receipt = Ok tt ->
  Forall (field_well_formed receipt) required_receipt_attributes
  /\ exists l, receipt !! "items" = Some (JList l)
               /\ l <> [] /\ Forall (fun it => check_item it = Ok tt) l.
Proof.
  unfold validate_receipt_json_structure. intros H.
  destruct (for_each required_receipt_attributes (check_attribute receipt))
    as [[]|] eqn:Hattrs; [|discriminate]. simpl in H.
  split.
  - apply for_each_ok in Hattrs.
    eapply Forall_impl; [exact Hattrs|]. intros a Ha. unfold check_attribute in Ha.
    destruct (receipt !! a) as [v|] eqn:Hv; [|discriminate].
    exists v. split; [exact Hv|].
    destruct (decide (a = "items")) as [->|Hne]; [now left|right].
    rewrite bool_decide_eq_false_2 in Ha by exact Hne. simpl in Ha.
    now destruct (is_str v).
  - unfold getitem in H. destruct (receipt !! "items") as [v|]; [|discriminate].
    simpl in H. destruct v; try discriminate.
    exists l. split; [reflexivity|].
    destruct l as [|it l]; [discriminate|]. split; [discriminate|].
    change (Z.of_nat (length (it :: l)) <? 1) with (Z.pos (Pos.of_succ_nat (length l)) <? 1) in H.
    destruct (_ <? 1); [discriminate|]. now apply for_each_ok.
Qed.

Lemma check_item_ok it :
  check_item it = Ok tt -> exists d p, item_fields it d p.
Proof.
  unfold check_item, item_fields. destruct it; try discriminate.
  unfold required_item_attributes, getitem; simpl.
  destruct (d !! "shortDescription") as [v1|] eqn:E1; [|discriminate]; simpl.
  destruct v1; try discriminate; simpl.
  destruct (d !! "price") as [v2|] eqn:E2; [|discriminate]; simpl.
  destruct v2; try discriminate; simpl.
  intros _. eexists _, _, d. rewrite E1, E2. auto.
Qed.

Lemma for_each_raise {A} (body : A -> result unit) l e :
  for_each l body = Raise e -> exists a, a ∈ l /\ body a = Raise e.
Proof.
  induction l as [|b l IH]; simpl; [discriminate|].
  destruct (body b) as [[]|e'] eqn:Hb; simpl.
  - intros H. destruct (IH H) as (a & Ha & Hr).
    exists a. split; [apply elem_of_cons; now right|exact Hr].
  - intros [= ->]. exists b. split; [apply elem_of_cons; now left|exact Hb].
Qed.












Lemma string_field receipt a :
  field_well_formed receipt a -> a <> "items" ->
  exists s, receipt !! a = Some (JStr s).
Proof.
  intros (v & Hv & [->|Hs]) Hne; [done|].
  destruct v; try discriminate. eauto.
Qed.



(** ** After the structure validation no cast fails *)

Lemma math_ceil_raises x e : math_ceil x = Raise e -> value_or_overflow e.
Proof.
  unfold math_ceil, value_or_overflow. destruct x; try discriminate.
  - intros [= <-]. now right.
  - intros [= <-]. left. eauto.
  - destruct (0 <=? e0); discriminate.
Qed.

Lemma py_round_raises x e : py_round x = Raise e -> value_or_overflow e.
Proof.
  unfold py_round, value_or_overflow. destruct x; try discriminate.
  - intros [= <-]. now right.
  - intros [= <-]. left. eauto.
  - destruct (0 <=? e0); discriminate.
Qed.

Lemma py_float_raises s e : py_float s = Raise e -> value_or_overflow e.
Proof.
  unfold py_float. destruct (split_dot _) as [ip fp].
  destruct (_ && _); [discriminate|]. intros [= <-]. left. eauto.
Qed.

Lemma py_float_mod_quarter x : exists r, py_float_mod x lit_0_25 = Ok r.
Proof.
  unfold py_float_mod, lit_0_25.
  destruct (c_fmod x _); eauto; destruct (xorb _ _); eauto.
Qed.

Lemma score_total_raises s e : score_total s = Raise e -> value_or_overflow e.
Proof.
  unfold score_total, validate_total.
  destruct (negb _); simpl; [intros [= <-]; left; eauto|].
  destruct (py_float s) as [x|e'] eqn:Hx; simpl;
    [|intros [= ->]; now apply py_float_raises in Hx].
  destruct (py_round x) as [n|e'] eqn:Hn; simpl;
    [|intros [= ->]; now apply py_round_raises in Hn].
  destruct (py_float_mod_quarter x) as (r & ->). discriminate.
Qed.

Lemma validate_item_raises d p e : validate_item d p = Raise e -> value_or_overflow e.
Proof.
  unfold validate_item.
  destruct (negb _); [intros [= <-]; left; eauto|].
  destruct (negb _); [intros [= <-]; left; eauto|discriminate].
Qed.

Lemma score_items_loop_raises items :
  Forall (fun it => check_item it = Ok tt) items ->
  forall points e, score_items_loop items points = Raise e -> value_or_overflow e.
Proof.
  induction 1 as [|it rest Hit _ IH]; intros points e H; [discriminate|].
  destruct (check_item_ok _ Hit) as (d & p & dct & -> & Hd & Hp).
  simpl in H. unfold getitem in H. rewrite Hd, Hp in H. simpl in H.
  destruct (validate_item d p) as [[]|e'] eqn:Hv; simpl in H;
    [|injection H as ->; now apply validate_item_raises in Hv].
  destruct (_ =? 0); [|now apply IH in H].
  destruct (py_float p) as [x|e'] eqn:Hx; simpl in H;
    [|injection H as ->; now apply py_float_raises in Hx].
  destruct (math_ceil _) as [b|e'] eqn:Hb; simpl in H;
    [now apply IH in H|injection H as ->; now apply math_ceil_raises in Hb].
Qed.

(** After [validate_receipt_json_structure], [calculate_points] finds
    every key and every value of the type it needs: it raises nothing
    but a [ValueError] or the [OverflowError] of [round] and
    [math.ceil]. *)
Lemma calculate_points_well_typed receipt e :
  validate_receipt_json_structure receipt = Ok tt ->
  calculate_points receipt = Raise e ->
  value_or_overflow e.
Proof.
  intros Hv H.
  destruct (validate_structure_ok _ Hv) as (Hfields & l & Hitems & _ & Hchecked).
  unfold required_receipt_attributes in Hfields.
  repeat (apply Forall_cons in Hfields as [?Hf Hfields]).
  destruct (string_field _ _ Hf) as (retailer & Hr); [done|].
  destruct (string_field _ _ Hf0) as (total & Ht); [done|].
  destruct (string_field _ _ Hf2) as (date & Hd); [done|].
  destruct (string_field _ _ Hf3) as (time & Htm); [done|].
  unfold calculate_points, getitem in H.
  rewrite Hr, Ht, Hitems, Hd, Htm in H. simpl in H.
  destruct (score_retailer retailer) as [pr|e'] eqn:Hsr; simpl in H.
  2:{ injection H as ->. unfold score_retailer, validate_retailer_name in Hsr.
      destruct (negb _); [|discriminate]. injection Hsr as <-. left. eauto. }
  destruct (score_total total) as [pt|e'] eqn:Hst; simpl in H;
    [|injection H as ->; now apply score_total_raises in Hst].
  destruct (score_items l) as [pi|e'] eqn:Hsi; simpl in H;
    [|injection H as ->; now apply (score_items_loop_raises _ Hchecked) in Hsi].
  unfold score_date_time, validate_and_parse_date_time in H.
  destruct (strptime_date date); simpl in H; [|injection H as <-; left; eauto].
  destruct (strptime_time time); simpl in H; [discriminate|].
  injection H as <-; left; eauto.
Qed.

(** * The float scores *)

(** [2 ^ x] is positive: the side condition of many steps below *)
Ltac pow2_pos := apply Z.pow_pos_nonneg; lia.

(** ** Round half to even on integers *)

Lemma rne_cases a d :
  0 < d ->
  (rne a d = a / d /\ 2 * (a mod d) <= d)
  \/ (rne a d = a / d + 1 /\ d <= 2 * (a mod d)).
Proof.
  intros Hd. unfold rne.
  destruct (Z.compare_spec (2 * (a mod d)) d) as [H|H|H].
  - destruct (Z.even (a / d)); [left|right]; lia.
  - left; lia.
  - right; lia.
Qed.

Lemma rne_error a d : 0 < d -> - d <= 2 * (d * rne a d - a) <= d.
Proof.
  intros Hd.
  pose proof (Z.div_mod a d ltac:(lia)) as Hdm.
  pose proof (Z.mod_pos_bound a d Hd) as Hm.
  destruct (rne_cases a d Hd) as [[-> H]|[-> H]]; nia.
Qed.

Lemma rne_exact j d : 0 < d -> rne (d * j) d = j.
Proof.
  intros Hd. unfold rne.
  rewrite (Z.mul_comm d j), Z.div_mul, Z.mod_mul by lia.
  destruct (Z.compare_spec (2 * 0) d); lia.
Qed.

Lemma rne_scale a d c : 0 < d -> 0 < c -> rne (a * c) (d * c) = rne a d.
Proof.
  intros Hd Hc. unfold rne.
  rewrite Z.div_mul_cancel_r by lia.
  rewrite Z.mul_mod_distr_r by lia.
  destruct (Z.compare_spec (2 * (a mod d)) d),
    (Z.compare_spec (2 * (a mod d * c)) (d * c)); try reflexivity; nia.
Qed.

Lemma rne_le a d K : 0 < d -> a <= d * K -> rne a d <= K.
Proof.
  intros Hd H.
  pose proof (Z.div_mod a d ltac:(lia)) as Hdm.
  pose proof (Z.mod_pos_bound a d Hd) as Hm.
  destruct (rne_cases a d Hd) as [[-> H']|[-> H']]; nia.
Qed.

Lemma rne_ge a d K : 0 < d -> d * K <= a -> K <= rne a d.
Proof.
  intros Hd H.
  pose proof (Z.div_mod a d ltac:(lia)) as Hdm.
  pose proof (Z.mod_pos_bound a d Hd) as Hm.
  destruct (rne_cases a d Hd) as [[-> H']|[-> H']]; nia.
Qed.

(** ** The rounding of [SpecFloat] *)

Lemma digits2_size p : digits2_pos p = Pos.size p.
Proof. induction p; simpl; congruence. Qed.

Lemma Zdigits2_log2 q : 0 < q -> Zdigits2 q = Z.log2 q + 1.
Proof.
  destruct q as [|p|p]; try lia. intros _. simpl.
  rewrite digits2_size. destruct p; simpl; lia.
Qed.

Lemma Zdigits2_bounds q : 0 < q -> 2 ^ (Zdigits2 q - 1) <= q < 2 ^ Zdigits2 q.
Proof.
  intros Hq. rewrite Zdigits2_log2 by exact Hq.
  pose proof (Z.log2_spec q Hq). replace (Z.log2 q + 1 - 1) with (Z.log2 q) by lia.
  replace (Z.log2 q + 1) with (Z.succ (Z.log2 q)) by lia. lia.
Qed.

Lemma Zdigits2_unique q d : 0 < d -> 2 ^ (d - 1) <= q < 2 ^ d -> Zdigits2 q = d.
Proof.
  intros Hd H.
  assert (0 < q) by (pose proof (Z.pow_pos_nonneg 2 (d - 1)); lia).
  rewrite Zdigits2_log2 by assumption.
  rewrite (Z.log2_unique q (d - 1)); [lia|lia|].
  replace (Z.succ (d - 1)) with d by lia. exact H.
Qed.

Lemma stands_for_loc m l r d :
  0 <= m -> 0 <= r < d -> loc_ok l r d ->
  stands_for (shr_record_of_loc m l) (m * d + r) d.
Proof.
  intros Hm Hr Hl. unfold stands_for.
  assert (Hq : (m * d + r) / d = m) by (rewrite Z.div_add_l by lia; rewrite Z.div_small; lia).
  assert (Hmod : (m * d + r) mod d = r).
  { rewrite Z.add_comm, Z.mod_add by lia. apply Z.mod_small; lia. }
  rewrite Hq, Hmod. split; [nia|]. split; [lia|].
  destruct l as [|[]]; simpl in *; auto.
Qed.

Lemma shr_1_stands_for mrs a d :
  stands_for mrs a d -> stands_for (shr_1 mrs) a (2 * d).
Proof.
  intros (Ha & Hd & Hm & Hl). unfold stands_for.
  split; [exact Ha|]. split; [lia|].
  pose proof (Z.div_mod a d ltac:(lia)) as Hdm.
  pose proof (Z.mod_pos_bound a d Hd) as Hmb.
  assert (Hq : a / (2 * d) = (a / d) / 2)
    by (rewrite (Z.mul_comm 2 d), Z.div_div by lia; reflexivity).
  assert (Hr : a mod (2 * d) = d * ((a / d) mod 2) + a mod d).
  { rewrite (Z.mul_comm 2 d). rewrite Z.rem_mul_r by lia. lia. }
  rewrite Hq, Hr, <- Hm.
  assert (Hpos : 0 <= shr_m mrs) by (rewrite Hm; apply Z.div_pos; lia).
  destruct mrs as [m r s]. simpl in *.
  assert (Hs : orb r s = false <-> a mod d = 0).
  { destruct r, s; simpl in *; lia. }
  destruct m as [|[p|p|]|]; try lia.
  - (* zero *)
    change (0 / 2) with 0. change (0 mod 2) with 0.
    split; [reflexivity|].
    destruct (orb r s) eqn:E; simpl.
    + assert (a mod d <> 0) by (intros H0; apply Hs in H0; congruence).
      split; [lia|]. apply Z.compare_lt_iff. lia.
    + assert (a mod d = 0) by (apply Hs; reflexivity). lia.
  - (* odd *) rewrite Pos2Z.inj_xI.
    replace ((2 * Z.pos p + 1) / 2) with (Z.pos p) by (apply Z.div_unique with 1; lia).
    replace ((2 * Z.pos p + 1) mod 2) with 1 by (apply Z.mod_unique with (Z.pos p); lia).
    split; [reflexivity|].
    destruct (orb r s) eqn:E; simpl.
    + assert (a mod d <> 0) by (intros H0; apply Hs in H0; congruence).
      split; [lia|]. apply Z.compare_gt_iff. lia.
    + assert (a mod d = 0) by (apply Hs; reflexivity).
      split; [lia|]. apply Z.compare_eq_iff. lia.
  - (* even *) rewrite Pos2Z.inj_xO.
    replace (2 * Z.pos p / 2) with (Z.pos p) by (apply Z.div_unique with 0; lia).
    replace ((2 * Z.pos p) mod 2) with 0 by (apply Z.mod_unique with (Z.pos p); lia).
    split; [reflexivity|].
    destruct (orb r s) eqn:E; simpl.
    + assert (a mod d <> 0) by (intros H0; apply Hs in H0; congruence).
      split; [lia|]. apply Z.compare_lt_iff. lia.
    + assert (a mod d = 0) by (apply Hs; reflexivity). lia.
  - (* one *)
    change (1 / 2) with 0. change (1 mod 2) with 1.
    split; [reflexivity|].
    destruct (orb r s) eqn:E; simpl.
    + assert (a mod d <> 0) by (intros H0; apply Hs in H0; congruence).
      split; [lia|]. apply Z.compare_gt_iff. lia.
    + assert (a mod d = 0) by (apply Hs; reflexivity).
      split; [lia|]. apply Z.compare_eq_iff. lia.
Qed.

Lemma pow2_xO p : 2 ^ Z.pos p~0 = 2 ^ Z.pos p * 2 ^ Z.pos p.
Proof.
  replace (Z.pos p~0) with (Z.pos p + Z.pos p) by lia.
  apply Z.pow_add_r; lia.
Qed.

Lemma pow2_xI p : 2 ^ Z.pos p~1 = 2 * (2 ^ Z.pos p * 2 ^ Z.pos p).
Proof.
  replace (Z.pos p~1) with (1 + (Z.pos p + Z.pos p)) by lia.
  rewrite Z.pow_add_r, Z.pow_add_r by lia. reflexivity.
Qed.

Lemma iter_shr_1_stands_for p : forall mrs a d,
  stands_for mrs a d ->
  stands_for (SpecFloat.iter_pos shr_1 p mrs) a (2 ^ Z.pos p * d).
Proof.
  induction p as [p IH|p IH|]; intros mrs a d H; simpl SpecFloat.iter_pos.
  - apply shr_1_stands_for in H. apply IH, IH in H.
    replace (2 ^ Z.pos p~1 * d) with (2 ^ Z.pos p * (2 ^ Z.pos p * (2 * d)));
      [exact H|rewrite pow2_xI; ring].
  - apply IH, IH in H.
    replace (2 ^ Z.pos p~0 * d) with (2 ^ Z.pos p * (2 ^ Z.pos p * d));
      [exact H|rewrite pow2_xO; ring].
  - apply shr_1_stands_for in H. exact H.
Qed.

Lemma round_nearest_even_rne mrs a d :
  stands_for mrs a d ->
  round_nearest_even (shr_m mrs) (loc_of_shr_record mrs) = rne a d.
Proof.
  intros (Ha & Hd & Hm & Hl). unfold rne. rewrite Hm.
  destruct (loc_of_shr_record mrs) as [|c]; simpl in *.
  - rewrite Hl. destruct (Z.compare_spec (2 * 0) d); try lia; reflexivity.
  - destruct Hl as [_ ->]. destruct c; reflexivity.
Qed.

Lemma fexp_normal x : 3 - emax - prec <= x - prec -> fexp prec emax x = x - prec.
Proof. unfold fexp, SpecFloat.emin. lia. Qed.

Lemma shr_stands_for mrs e k a d :
  0 <= k -> stands_for mrs a d ->
  stands_for (fst (shr mrs e k)) a (2 ^ k * d) /\ snd (shr mrs e k) = e + k.
Proof.
  intros Hk H. destruct k as [|p|p]; try lia; unfold shr, fst, snd.
  - split; [|lia]. rewrite Z.pow_0_r, Z.mul_1_l. exact H.
  - split; [|reflexivity]. now apply iter_shr_1_stands_for.
Qed.

(** [binary_round_aux] on a mantissa of [prec + k] bits in the normal
    range: [k] bits are shifted out and the quotient is rounded half to
    even; a carry out of the 53 bits moves to the next exponent. *)
Lemma binary_round_aux_normal q e l r d k :
  0 < q -> 0 <= r < d -> loc_ok l r d -> 0 <= k ->
  Zdigits2 q = prec + k -> 3 - emax - prec <= e + k ->
  let m := rne (q * d + r) (2 ^ k * d) in
  2 ^ 52 <= m <= 2 ^ 53
  /\ binary_round_aux prec emax false q e l =
     if m =? 2 ^ 53 then
       if e + k + 1 <=? emax - prec then S754_finite false (2 ^ 52) (e + k + 1)
       else S754_infinity false
     else
       if e + k <=? emax - prec then S754_finite false (Z.to_pos m) (e + k)
       else S754_infinity false.
Proof.
  intros Hq Hr Hl Hk Hdig Hmin m.
  pose proof (Zdigits2_bounds q Hq) as Hqb. rewrite Hdig in Hqb.
  assert (H2k : 0 < 2 ^ k) by pow2_pos.
  assert (Hqb' : 2 ^ 52 * 2 ^ k <= q < 2 ^ 53 * 2 ^ k).
  { unfold prec in Hqb. replace (53 + k - 1) with (52 + k) in Hqb by lia.
    rewrite !Z.pow_add_r in Hqb by lia. exact Hqb. }
  assert (Hm : 2 ^ 52 <= m <= 2 ^ 53).
  { unfold m. split.
    - apply rne_ge; [nia|]. nia.
    - apply rne_le; [nia|]. nia. }
  split; [exact Hm|].
  unfold binary_round_aux, shr_fexp.
  rewrite (fexp_normal (Zdigits2 q + e)) by lia.
  replace (Zdigits2 q + e - prec - e) with k by lia.
  pose proof (stands_for_loc q l r d ltac:(lia) Hr Hl) as Hs.
  destruct (shr_stands_for _ e k _ _ Hk Hs) as [Hs' He'].
  destruct (shr (shr_record_of_loc q l) e k) as [mrs' e'] eqn:Eshr.
  simpl in Hs', He'. subst e'.
  rewrite (round_nearest_even_rne _ _ _ Hs'). fold m.
  destruct (Z.eqb_spec m (2 ^ 53)) as [E|E].
  - rewrite E.
    assert (Hd54 : Zdigits2 (2 ^ 53) = 54) by reflexivity.
    rewrite Hd54, (fexp_normal (54 + (e + k))) by (unfold prec, emax in *; lia).
    replace (54 + (e + k) - prec - (e + k)) with 1 by (unfold prec, emax in *; lia).
    reflexivity.
  - assert (Hd53 : Zdigits2 m = 53) by (apply Zdigits2_unique; lia).
    rewrite Hd53, (fexp_normal (53 + (e + k))) by (unfold prec, emax in *; lia).
    replace (53 + (e + k) - prec - (e + k)) with 0 by (unfold prec, emax in *; lia).
    simpl. destruct m as [|pm|pm]; try lia. reflexivity.
Qed.

Lemma rne_le_half a d K : 0 < d -> 2 * a < d * (2 * K + 1) -> rne a d <= K.
Proof.
  intros Hd H.
  pose proof (Z.div_mod a d ltac:(lia)) as Hdm.
  pose proof (Z.mod_pos_bound a d Hd) as Hm.
  destruct (rne_cases a d Hd) as [[-> H']|[-> H']]; nia.
Qed.

Lemma new_location_100 r : 0 <= r < 100 -> loc_ok (new_location 100 r) r 100.
Proof.
  intros Hr. unfold new_location, new_location_even.
  change (IntDef.Z.even 100) with true. cbv beta iota.
  destruct (Z.eqb_spec r 0) as [->|Hne]; simpl; [reflexivity|].
  split; [exact Hne|reflexivity].
Qed.

(** The float of an amount of [n] cents below [2 ^ 47]: a 53-bit
    mantissa [m] at exponent [- t], [m] the quotient [n * 2 ^ t / 100]
    rounded half to even. *)
Lemma fdiv_cents n :
  0 < n < 100 * 2 ^ 47 ->
  exists t, 6 <= t <= 59
    /\ 2 ^ 52 <= rne (n * 2 ^ t) 100 < 2 ^ 53
    /\ fdiv (SF_of_Z n) (SF_of_Z 100)
       = S754_finite false (Z.to_pos (rne (n * 2 ^ t) 100)) (- t).
Proof.
  intros Hn.
  destruct n as [|pn|pn]; try lia.
  unfold fdiv, SF_of_Z, SFdiv, SFdiv_core_binary.
  change (Zdigits2 100) with 7. simpl xorb.
  set (n := Z.pos pn) in *.
  pose proof (Zdigits2_bounds n ltac:(lia)) as Hd1.
  set (d1 := Zdigits2 n) in *.
  assert (Hd1r : 1 <= d1 <= 54).
  { split.
    - subst d1 n. simpl. lia.
    - destruct (Z_le_gt_dec d1 54); [assumption|].
      assert (2 ^ 54 <= 2 ^ (d1 - 1)) by (apply Z.pow_le_mono_r; lia). lia. }
  rewrite (fexp_normal (d1 + 0 - (7 + 0))) by (unfold prec, emax; lia).
  replace (Z.min (d1 + 0 - (7 + 0) - prec) (0 - 0)) with (d1 - 60) by (unfold prec; lia).
  replace (0 - 0 - (d1 - 60)) with (60 - d1) by lia.
  set (s := 60 - d1) in *.
  assert (Hs : 6 <= s <= 59) by lia.
  assert (Hm' : match s with
                | 0 => n
                | Z.pos _ => Z.shiftl n s
                | Z.neg _ => 0
                end = n * 2 ^ s).
  { destruct s; try lia. apply Z.shiftl_mul_pow2. lia. }
  rewrite Hm'. clear Hm'.
  assert (Hm'b : 2 ^ 59 <= n * 2 ^ s < 2 ^ 60).
  { replace 59 with (d1 - 1 + s) by lia. replace 60 with (d1 + s) by lia.
    rewrite !Z.pow_add_r by lia.
    assert (0 < 2 ^ s) by pow2_pos. nia. }
  assert (H2s : 2 ^ 6 <= 2 ^ s) by (apply Z.pow_le_mono_r; lia).
  assert (H64 : exists c, n * 2 ^ s = 64 * c /\ (s = 6 -> c = n) /\ (7 <= s -> exists c', c = 2 * c')).
  { exists (n * 2 ^ (s - 6)). split; [|split].
    - replace s with (6 + (s - 6)) at 1 by lia. rewrite Z.pow_add_r by lia.
      change (2 ^ 6) with 64. ring.
    - intros ->. simpl. lia.
    - intros H7. exists (n * 2 ^ (s - 7)).
      replace (s - 6) with (1 + (s - 7)) by lia. rewrite Z.pow_add_r by lia.
      change (2 ^ 1) with 2. ring. }
  set (m' := n * 2 ^ s) in *.
  pose proof (Z.div_mod m' 100 ltac:(lia)) as Hdm.
  pose proof (Z.mod_pos_bound m' 100 ltac:(lia)) as Hmb.
  assert (Hdiv : Z.div_eucl m' 100 = (m' / 100, m' mod 100)).
  { unfold Z.div, Z.modulo. now destruct (Z.div_eucl m' 100). }
  rewrite Hdiv. clear Hdiv.
  set (q := m' / 100) in *. set (r := m' mod 100) in *.
  assert (Hq : 2 ^ 52 <= q < 2 ^ 54) by (change (2 ^ 59) with 576460752303423488 in *;
    change (2 ^ 60) with 1152921504606846976 in *;
    change (2 ^ 52) with 4503599627370496; change (2 ^ 54) with 18014398509481984; lia).
  assert (Hk : exists k, (k = 0 \/ k = 1) /\ Zdigits2 q = prec + k
                         /\ 2 ^ 52 * 2 ^ k <= q < 2 ^ 53 * 2 ^ k).
  { destruct (Z_lt_le_dec q (2 ^ 53)) as [Hlt|Hge].
    - exists 0. split; [now left|]. split; [apply Zdigits2_unique; unfold prec; simpl; lia|].
      simpl. lia.
    - exists 1. split; [now right|]. split; [apply Zdigits2_unique; unfold prec; simpl; lia|].
      change (2 ^ 1) with 2. change (2 ^ 53 * 2) with (2 ^ 54). change (2 ^ 52 * 2) with (2 ^ 53). lia. }
  destruct Hk as (k & Hk01 & Hdig & Hqk).
  destruct (binary_round_aux_normal q (d1 - 60) (new_location 100 r) r 100 k)
    as [Hmb2 Hround]; try assumption; try lia.
  { now apply new_location_100. }
  { unfold prec, emax; lia. }
  replace (q * 100 + r) with m' in * by lia.
  assert (Ht : 6 <= s - k).
  { destruct Hk01 as [->| ->]; [lia|].
    destruct (Z.eq_dec s 6) as [E6|]; [|lia].
    destruct H64 as (c & Hc & Hc6 & _). specialize (Hc6 E6).
    change (2 ^ 53 * 2 ^ 1) with 18014398509481984 in Hqk.
    change (2 ^ 52 * 2 ^ 1) with 9007199254740992 in Hqk.
    change (2 ^ 47) with 140737488355328 in Hn. lia. }
  exists (s - k). split; [lia|].
  assert (Hscale : rne m' (2 ^ k * 100) = rne (n * 2 ^ (s - k)) 100).
  { unfold m'. replace s with (s - k + k) at 1 by lia.
    rewrite Z.pow_add_r by lia. rewrite Z.mul_assoc, (Z.mul_comm (2 ^ k) 100).
    apply rne_scale; [lia|pow2_pos]. }
  rewrite Hscale in *.
  set (m := rne (n * 2 ^ (s - k)) 100) in *.
  assert (Hlt : m < 2 ^ 53).
  { assert (m <= 2 ^ 53 - 1); [|lia]. unfold m. apply rne_le_half; [lia|].
    (* n * 2 ^ (s - k) is a multiple of 64 below 100 * 2 ^ 53 *)
    assert (Hc : exists c, n * 2 ^ (s - k) = 64 * c).
    { exists (n * 2 ^ (s - k - 6)).
      replace (s - k) with (6 + (s - k - 6)) at 1 by lia. rewrite Z.pow_add_r by lia.
      change (2 ^ 6) with 64. ring. }
    destruct Hc as (c & Hc).
    assert (Hbelow : n * 2 ^ (s - k) < 100 * 2 ^ 53).
    { destruct Hk01 as [->| ->].
      - replace (s - 0) with s by lia. fold m'. simpl in Hqk. lia.
      - assert (m' = 2 * (n * 2 ^ (s - 1))).
        { unfold m'. replace s with (1 + (s - 1)) at 1 by lia.
          rewrite Z.pow_add_r by lia. change (2 ^ 1) with 2. ring. }
        change (2 ^ 53 * 2 ^ 1) with (2 * 2 ^ 53) in Hqk. lia. }
    rewrite Hc in *. change (2 ^ 53) with 9007199254740992 in *. lia. }
  split; [lia|].
  rewrite Hround.
  destruct (Z.eqb_spec m (2 ^ 53)) as [E|_]; [lia|].
  replace (d1 - 60 + k) with (- (s - k)) by lia.
  destruct (Z.leb_spec (- (s - k)) (emax - prec)) as [_|Hbad]; [reflexivity|].
  unfold emax, prec in Hbad. lia.
Qed.

(** ** The total: integral values and multiples of a quarter *)

Lemma pos_iter_xO p d : Z.pos (Pos.iter xO p d) = Z.pos p * 2 ^ Z.pos d.
Proof.
  revert p. induction d as [d IH|d IH|]; intros p; simpl Pos.iter.
  - rewrite Pos2Z.inj_xO, IH, IH, pow2_xI. ring.
  - rewrite IH, IH, pow2_xO. ring.
  - rewrite Pos2Z.inj_xO. change (2 ^ 1) with 2. ring.
Qed.

(** A remainder that fits the mantissa is kept by [binary_normalize]:
    the result is a positive finite float. *)
Lemma binary_normalize_positive r e :
  0 < r < 2 ^ 53 -> -900 <= e <= 0 ->
  exists m e', binary_normalize prec emax r e false = S754_finite false m e'.
Proof.
  intros Hr He. destruct r as [|pr|pr]; try lia.
  unfold binary_normalize, binary_round.
  pose proof (Zdigits2_bounds (Z.pos pr) ltac:(lia)) as Hd.
  change (Zdigits2 (Z.pos pr)) with (Z.pos (digits2_pos pr)) in Hd.
  set (d := Z.pos (digits2_pos pr)) in *.
  assert (Hdr : 1 <= d <= 53).
  { split; [subst d; lia|].
    destruct (Z_le_gt_dec d 53); [assumption|].
    assert (2 ^ 53 <= 2 ^ (d - 1)) by (apply Z.pow_le_mono_r; lia). lia. }
  rewrite (fexp_normal (d + e)) by (unfold prec, emax; lia).
  unfold shl_align.
  assert (Hround : forall mz ez, Zdigits2 (Z.pos mz) = 53 -> -1000 <= ez <= 0 ->
            exists m e', binary_round_aux prec emax false (Z.pos mz) ez loc_Exact
                         = S754_finite false m e').
  { intros mz ez Hdig Hez.
    destruct (binary_round_aux_normal (Z.pos mz) ez loc_Exact 0 1 0)
      as [Hb Heq]; try lia; try reflexivity.
    { rewrite Hdig. reflexivity. }
    { unfold prec, emax. lia. }
    rewrite Heq.
    assert (Hrne : rne (Z.pos mz * 1 + 0) (2 ^ 0 * 1) = Z.pos mz).
    { replace (Z.pos mz * 1 + 0) with (1 * Z.pos mz) by lia.
      change (2 ^ 0 * 1) with 1. apply rne_exact. lia. }
    rewrite Hrne.
    pose proof (Zdigits2_bounds (Z.pos mz) ltac:(lia)) as Hmzb. rewrite Hdig in Hmzb.
    destruct (Z.eqb_spec (Z.pos mz) (2 ^ 53)) as [E|_]; [simpl in Hmzb; lia|].
    destruct (Z.leb_spec (ez + 0) (emax - prec)) as [_|Hbad];
      [eauto|unfold emax, prec in Hbad; lia]. }
  destruct (d + e - prec - e) as [|p|p] eqn:Ediff.
  - apply Hround; [|lia]. change (Zdigits2 (Z.pos pr)) with d. unfold prec in Ediff. lia.
  - unfold prec in Ediff. lia.
  - apply Hround; [|unfold prec; lia].
    apply Zdigits2_unique; [lia|]. rewrite pos_iter_xO.
    assert (Hp : Z.pos p = 53 - d) by (unfold prec in Ediff; lia).
    rewrite Hp.
    assert (H1 : 2 ^ (53 - 1) = 2 ^ (d - 1) * 2 ^ (53 - d))
      by (rewrite <- Z.pow_add_r by lia; f_equal; lia).
    assert (H2 : 2 ^ 53 = 2 ^ d * 2 ^ (53 - d))
      by (rewrite <- Z.pow_add_r by lia; f_equal; lia).
    assert (0 < 2 ^ (53 - d)) by pow2_pos.
    rewrite H1, H2. nia.
Qed.

Lemma rne_integral n t :
  6 <= t -> 0 <= n ->
  (rne (n * 2 ^ t) 100 mod 2 ^ t = 0 <-> n mod 100 = 0).
Proof.
  intros Ht Hn.
  assert (HP : 64 <= 2 ^ t).
  { change 64 with (2 ^ 6). apply Z.pow_le_mono_r; lia. }
  set (P := 2 ^ t) in *.
  split.
  - intros H. apply Z.mod_divide in H; [|lia]. destruct H as (K & HK).
    pose proof (rne_error (n * P) 100 ltac:(lia)) as He. rewrite HK in He.
    apply Z.mod_divide; [lia|]. exists K. nia.
  - intros H. apply Z.mod_divide in H; [|lia]. destruct H as (j & ->).
    replace (j * 100 * P) with (100 * (j * P)) by ring.
    rewrite rne_exact by lia. apply Z.mod_mul. lia.
Qed.

Lemma rne_quarter n t :
  6 <= t -> 0 <= n ->
  (rne (n * 2 ^ t) 100 mod 2 ^ (t - 2) = 0 <-> n mod 25 = 0).
Proof.
  intros Ht Hn.
  assert (HP : 16 <= 2 ^ (t - 2)).
  { change 16 with (2 ^ 4). apply Z.pow_le_mono_r; lia. }
  assert (H4 : 2 ^ t = 4 * 2 ^ (t - 2)).
  { replace t with (2 + (t - 2)) at 1 by lia. now rewrite Z.pow_add_r by lia. }
  rewrite H4. set (P := 2 ^ (t - 2)) in *.
  split.
  - intros H. apply Z.mod_divide in H; [|lia]. destruct H as (K & HK).
    pose proof (rne_error (n * (4 * P)) 100 ltac:(lia)) as He. rewrite HK in He.
    apply Z.mod_divide; [lia|]. exists K. nia.
  - intros H. apply Z.mod_divide in H; [|lia]. destruct H as (j & ->).
    replace (j * 25 * (4 * P)) with (100 * (j * P)) by ring.
    rewrite rne_exact by lia. apply Z.mod_mul. lia.
Qed.

(** [x == round(x)] holds exactly when the cents are 00. *)
Lemma total_no_cents n :
  0 <= n < 100 * 2 ^ 47 ->
  exists rounded,
    py_round (fdiv (SF_of_Z n) (SF_of_Z 100)) = Ok rounded
    /\ float_eq_int (fdiv (SF_of_Z n) (SF_of_Z 100)) rounded = (n mod 100 =? 0).
Proof.
  intros Hn. destruct (Z.eq_dec n 0) as [->|Hne].
  - exists 0. split; reflexivity.
  - destruct (fdiv_cents n ltac:(lia)) as (t & Ht & Hm & ->).
    set (m := rne (n * 2 ^ t) 100) in *.
    unfold py_round, float_eq_int.
    destruct (Z.leb_spec 0 (- t)) as [Hbad|_]; [lia|].
    replace (- - t) with t by lia. simpl cond_Zopp.
    rewrite Z2Pos.id by lia.
    eexists. split; [reflexivity|].
    assert (0 < 2 ^ t) by pow2_pos.
    pose proof (rne_integral n t ltac:(lia) ltac:(lia)) as Hint. fold m in Hint.
    destruct (Z.eqb_spec (n mod 100) 0) as [E|E].
    + apply Z.eqb_eq. apply Hint in E.
      apply Z.mod_divide in E; [|lia]. destruct E as (K & ->).
      rewrite (Z.mul_comm K (2 ^ t)), rne_exact by lia. ring.
    + apply Z.eqb_neq. intros Heq. apply E, Hint.
      rewrite Heq. apply Z.mod_mul. lia.
Qed.

(** [x % 0.25 == 0] holds exactly when the cents are 00, 25, 50 or 75. *)
Lemma total_quarters n :
  0 <= n < 100 * 2 ^ 47 ->
  exists remainder,
    py_float_mod (fdiv (SF_of_Z n) (SF_of_Z 100)) lit_0_25 = Ok remainder
    /\ float_eq_int remainder 0 = (n mod 25 =? 0).
Proof.
  intros Hn. destruct (Z.eq_dec n 0) as [->|Hne].
  - eexists. split; reflexivity.
  - destruct (fdiv_cents n ltac:(lia)) as (t & Ht & Hm & ->).
    set (m := rne (n * 2 ^ t) 100) in *.
    unfold py_float_mod, lit_0_25, c_fmod.
    rewrite Z2Pos.id by lia. simpl cond_Zopp.
    set (e := Z.min (- t) (-54)).
    set (r := (m * 2 ^ (- t - e)) mod (Z.pos 4503599627370496 * 2 ^ (-54 - e))).
    assert (Hr : 0 <= r < 2 ^ 53 /\ (r = 0 <-> m mod 2 ^ (t - 2) = 0)).
    { destruct (Z_le_gt_dec 54 t) as [Hge|Hlt].
      - assert (He : e = - t) by (unfold e; lia).
        unfold r. rewrite He.
        replace (- t - - t) with 0 by lia. rewrite Z.pow_0_r, Z.mul_1_r.
        replace (Z.pos 4503599627370496 * 2 ^ (-54 - - t)) with (2 ^ (t - 2)).
        2:{ change (Z.pos 4503599627370496) with (2 ^ 52).
            rewrite <- Z.pow_add_r by lia. f_equal. lia. }
        assert (0 < 2 ^ (t - 2)) by pow2_pos.
        pose proof (Z.mod_pos_bound m (2 ^ (t - 2)) ltac:(lia)).
        pose proof (Z.mod_le m (2 ^ (t - 2)) ltac:(lia) ltac:(lia)).
        split; [lia|reflexivity].
      - assert (He : e = -54) by (unfold e; lia).
        unfold r. rewrite He.
        replace (-54 - -54) with 0 by lia. rewrite Z.pow_0_r, Z.mul_1_r.
        replace (- t - -54) with (54 - t) by lia.
        change (Z.pos 4503599627370496) with (2 ^ 52).
        assert (H52 : 2 ^ 52 = 2 ^ (t - 2) * 2 ^ (54 - t))
          by (rewrite <- Z.pow_add_r by lia; f_equal; lia).
        assert (0 < 2 ^ (t - 2)) by pow2_pos.
        assert (0 < 2 ^ (54 - t)) by pow2_pos.
        assert (Hmod : (m * 2 ^ (54 - t)) mod 2 ^ 52
                       = m mod 2 ^ (t - 2) * 2 ^ (54 - t))
          by (rewrite H52; apply Z.mul_mod_distr_r; lia).
        rewrite Hmod.
        pose proof (Z.mod_pos_bound m (2 ^ (t - 2)) ltac:(lia)) as Hx.
        change (2 ^ 53) with (2 * 2 ^ 52). rewrite H52.
        set (x := m mod 2 ^ (t - 2)) in *.
        set (A := 2 ^ (t - 2)) in *. set (B := 2 ^ (54 - t)) in *.
        split; [split; nia|]. split; nia. }
    destruct Hr as [Hrb Hr0].
    pose proof (rne_quarter n t ltac:(lia) ltac:(lia)) as Hq. fold m in Hq.
    destruct (Z.eq_dec r 0) as [E|E].
    + rewrite E. simpl. eexists. split; [reflexivity|].
      simpl. symmetry. apply Z.eqb_eq. apply Hq, Hr0, E.
    + destruct (binary_normalize_positive r e ltac:(lia) ltac:(unfold e; lia))
        as (mr & er & ->).
      simpl. eexists. split; [reflexivity|].
      assert (Hn25 : n mod 25 <> 0) by (intros H25; apply E, Hr0, Hq, H25).
      apply Z.eqb_neq in Hn25. rewrite Hn25.
      unfold float_eq_int. simpl cond_Zopp.
      destruct (Z.leb_spec 0 er) as [Her|Her]; apply Z.eqb_neq.
      * assert (0 < 2 ^ er) by pow2_pos. nia.
      * lia.
Qed.

(** ** The item bonus: the ceiling of a fifth of the price *)

Lemma ceil_unique a b c : 0 < b -> (c - 1) * b < a <= c * b -> - (- a / b) = c.
Proof.
  intros Hb H.
  assert (- a / b = - c); [|lia].
  symmetry. apply Z.div_unique with (c * b - a); lia.
Qed.

(** The mantissa of the product with [0.2] and the ceiling of the
    product, on integers: [m] is the mantissa of the price of [n]
    cents at exponent [- t], [k] bits of the product are shifted out. *)
Lemma bonus_arith n t k :
  0 < n -> 6 <= t ->
  2 ^ 52 <= rne (n * 2 ^ t) 100 < 2 ^ 53 ->
  (k = 52 /\ rne (n * 2 ^ t) 100 * 7205759403792794 < 2 ^ 105)
  \/ (k = 53 /\ 2 ^ 105 <= rne (n * 2 ^ t) 100 * 7205759403792794) ->
  - (- rne (rne (n * 2 ^ t) 100 * 7205759403792794) (2 ^ k) / 2 ^ (t + 55 - k))
  = - (- n / 500).
Proof.
  intros Hn Ht Hm Hk.
  assert (HP : 2 ^ t = 64 \/ 2 ^ t = 128 \/ 256 <= 2 ^ t).
  { destruct (Z.eq_dec t 6) as [->|]; [now left|].
    destruct (Z.eq_dec t 7) as [->|]; [right; now left|].
    right; right. change 256 with (2 ^ 8). apply Z.pow_le_mono_r; lia. }
  pose proof (rne_error (n * 2 ^ t) 100 ltac:(lia)) as He.
  set (m := rne (n * 2 ^ t) 100) in *.
  assert (HU : 2 ^ (t + 55 - k) * 2 ^ k = 2 ^ t * 2 ^ 55).
  { rewrite <- !Z.pow_add_r by lia. f_equal. lia. }
  assert (HUk : (k = 52 /\ 2 ^ (t + 55 - k) = 8 * 2 ^ t)
                \/ (k = 53 /\ 2 ^ (t + 55 - k) = 4 * 2 ^ t)).
  { destruct Hk as [[-> _]|[-> _]]; [left|right]; (split; [reflexivity|]).
    - replace (t + 55 - 52) with (3 + t) by lia. now rewrite Z.pow_add_r by lia.
    - replace (t + 55 - 53) with (2 + t) by lia. now rewrite Z.pow_add_r by lia. }
  set (P := 2 ^ t) in *. set (U := 2 ^ (t + 55 - k)) in *.
  pose proof (Z.div_mod n 500 ltac:(lia)) as Hdm.
  pose proof (Z.mod_pos_bound n 500 ltac:(lia)) as Hr0.
  set (j := n / 500) in *. set (r0 := n mod 500) in *.
  assert (Hj : 0 <= j) by (apply Z.div_pos; lia).
  assert (HP0 : 64 <= P) by lia.
  assert (HX : 0 <= j * P) by (apply Z.mul_nonneg_nonneg; lia).
  assert (HY : r0 = 0 /\ r0 * P = 0 \/ 0 < r0 /\ P <= r0 * P <= 499 * P).
  { destruct (Z.eq_dec r0 0) as [E|E]; [left; rewrite E; lia|right].
    split; [lia|]. split.
    - rewrite <- (Z.mul_1_l P) at 1. apply Z.mul_le_mono_nonneg_r; lia.
    - apply Z.mul_le_mono_nonneg_r; lia. }
  assert (HnP : n * P = 500 * (j * P) + r0 * P) by (rewrite Hdm at 1; ring).
  rewrite HnP in He.
  change (2 ^ 52) with 4503599627370496 in *.
  change (2 ^ 53) with 9007199254740992 in *.
  change (2 ^ 105) with 40564819207303340847894502572032 in *.
  destruct HY as [[Hz HY]|[Hnz HY]].
  - (* the price is a multiple of 5.00: the product is the integer [j] *)
    assert (Hmj : m = 5 * (j * P)).
    { unfold m. rewrite HnP, HY, Z.add_0_r.
      replace (500 * (j * P)) with (100 * (5 * (j * P))) by ring.
      apply rne_exact. lia. }
    assert (Hm4 : rne (m * 7205759403792794) (2 ^ k) = j * U).
    { apply Z.le_antisymm.
      - apply rne_le_half; [pow2_pos|].
        replace (2 ^ k * (2 * (j * U) + 1)) with (2 * j * (U * 2 ^ k) + 2 ^ k) by ring.
        rewrite HU. replace (2 * j * (P * 2 ^ 55)) with (2 ^ 55 * 2 * (j * P)) by ring.
        change (2 ^ 55) with 36028797018963968.
        destruct HUk as [[-> _]|[-> _]];
          [change (2 ^ 52) with 4503599627370496
          |change (2 ^ 53) with 9007199254740992];
          destruct Hk as [[Hk1 Hk2]|[Hk1 Hk2]]; try discriminate Hk1; lia.
      - apply rne_ge; [pow2_pos|].
        replace (2 ^ k * (j * U)) with (j * (U * 2 ^ k)) by ring.
        rewrite HU. replace (j * (P * 2 ^ 55)) with (2 ^ 55 * (j * P)) by ring.
        change (2 ^ 55) with 36028797018963968. lia. }
    rewrite Hm4.
    assert (HUpos : 0 < U) by (destruct HUk as [[_ ->]|[_ ->]]; lia).
    rewrite (ceil_unique (j * U) U j); [|lia|lia].
    symmetry. apply ceil_unique; lia.
  - (* otherwise the product is strictly between [j] and [j + 1] *)
    assert (HUpos : 0 < U) by (destruct HUk as [[_ ->]|[_ ->]]; lia).
    assert (Hlo : j * U + 1 <= rne (m * 7205759403792794) (2 ^ k)).
    { apply rne_ge; [pow2_pos|].
      replace (2 ^ k * (j * U + 1)) with (j * (U * 2 ^ k) + 2 ^ k) by ring.
      rewrite HU. replace (j * (P * 2 ^ 55)) with (2 ^ 55 * (j * P)) by ring.
      change (2 ^ 55) with 36028797018963968.
      destruct HUk as [[-> _]|[-> _]];
        [change (2 ^ 52) with 4503599627370496
        |change (2 ^ 53) with 9007199254740992]; lia. }
    assert (Hhi : rne (m * 7205759403792794) (2 ^ k) <= (j + 1) * U).
    { apply rne_le; [pow2_pos|].
      replace (2 ^ k * ((j + 1) * U)) with (j * (U * 2 ^ k) + U * 2 ^ k) by ring.
      rewrite HU. replace (j * (P * 2 ^ 55)) with (2 ^ 55 * (j * P)) by ring.
      change (2 ^ 55) with 36028797018963968. lia. }
    rewrite (ceil_unique (rne (m * 7205759403792794) (2 ^ k)) U (j + 1)); [|lia|lia].
    symmetry. apply ceil_unique; lia.
Qed.

(** [math.ceil(float(price) * 0.2)] for a price of [n] cents below
    [2 ^ 47]: the ceiling of the exact fifth. *)
Lemma item_bonus_float n :
  0 <= n < 100 * 2 ^ 47 ->
  math_ceil (fmul (fdiv (SF_of_Z n) (SF_of_Z 100)) POINTS_ITEM_DESCRIPTION)
  = Ok (- (- n / 500)).
Proof.
  intros Hn. destruct (Z.eq_dec n 0) as [->|Hne]; [reflexivity|].
  destruct (fdiv_cents n ltac:(lia)) as (t & Ht & Hm & ->).
  set (m := rne (n * 2 ^ t) 100) in *.
  unfold fmul, POINTS_ITEM_DESCRIPTION, lit_0_2, SFmul. simpl xorb.
  assert (Hq : Z.pos (Z.to_pos m * 7205759403792794) = m * 7205759403792794).
  { rewrite Pos2Z.inj_mul, Z2Pos.id by lia. reflexivity. }
  rewrite Hq.
  set (q := m * 7205759403792794) in *.
  assert (Hqb : 2 ^ 104 <= q < 2 ^ 106).
  { unfold q. change (2 ^ 52) with 4503599627370496 in Hm.
    change (2 ^ 53) with 9007199254740992 in Hm.
    change (2 ^ 104) with 20282409603651670423947251286016.
    change (2 ^ 106) with 81129638414606681695789005144064. lia. }
  assert (Hk : exists k, ((k = 52 /\ q < 2 ^ 105) \/ (k = 53 /\ 2 ^ 105 <= q))
                         /\ Zdigits2 q = prec + k).
  { destruct (Z_lt_le_dec q (2 ^ 105)) as [Hlt|Hge].
    - exists 52. split; [left; split; [reflexivity|exact Hlt]|].
      apply Zdigits2_unique; unfold prec; simpl; lia.
    - exists 53. split; [right; split; [reflexivity|exact Hge]|].
      apply Zdigits2_unique; unfold prec; simpl; lia. }
  destruct Hk as (k & Hk & Hdig).
  assert (Hk' : k = 52 \/ k = 53) by (destruct Hk as [[-> _]|[-> _]]; auto).
  destruct (binary_round_aux_normal q (- t + -55) loc_Exact 0 1 k)
    as [Hm4 Hround]; try assumption; try reflexivity; try lia.
  { unfold prec, emax. lia. }
  pose proof (bonus_arith n t k ltac:(lia) ltac:(lia) Hm Hk) as Harith.
  fold m in Harith. fold q in Harith.
  replace (rne (q * 1 + 0) (2 ^ k * 1)) with (rne q (2 ^ k)) in *
    by (f_equal; lia).
  set (m4 := rne q (2 ^ k)) in *.
  rewrite Hround. unfold math_ceil.
  destruct (Z.eqb_spec m4 (2 ^ 53)) as [E|E].
  - destruct (Z.leb_spec (- t + -55 + k + 1) (emax - prec)) as [_|Hbad];
      [|unfold emax, prec in Hbad; lia].
    destruct (Z.leb_spec 0 (- t + -55 + k + 1)) as [Hbad|_]; [lia|].
    simpl cond_Zopp. f_equal.
    assert (Hw : - (- t + -55 + k + 1) = t + 55 - k - 1) by lia.
    assert (Hu : 2 ^ (t + 55 - k) = 2 ^ 1 * 2 ^ (t + 55 - k - 1))
      by (rewrite <- Z.pow_add_r by lia; f_equal; lia).
    rewrite Hw, <- Harith, E, Hu.
    change (- 2 ^ 53) with (2 ^ 1 * - 2 ^ 52).
    rewrite Z.div_mul_cancel_l; [reflexivity| |lia].
    apply Z.pow_nonzero; lia.
  - destruct (Z.leb_spec (- t + -55 + k) (emax - prec)) as [_|Hbad];
      [|unfold emax, prec in Hbad; lia].
    destruct (Z.leb_spec 0 (- t + -55 + k)) as [Hbad|_]; [lia|].
    simpl cond_Zopp. rewrite Z2Pos.id by lia. f_equal. rewrite <- Harith.
    f_equal. f_equal. f_equal. lia.
Qed.

(** ** Amounts: what the pattern lets through and what [float] reads *)

Lemma isdecimal_range c : isdecimal c = true <-> 48 <= ord c <= 57.
Proof. unfold isdecimal, in_range. rewrite andb_true_iff, !Z.leb_le. tauto. Qed.

Lemma isdecimal_not_space c : isdecimal c = true -> isspace c = false.
Proof.
  rewrite isdecimal_range. intros H. unfold isspace, in_range.
  repeat (apply orb_false_iff; split);
    try (apply andb_false_iff; rewrite !Z.leb_gt; lia); apply Z.eqb_neq; lia.
Qed.

Lemma isdecimal_not_dot c : isdecimal c = true -> c <> "."%char.
Proof. intros H ->. discriminate H. Qed.

Lemma many_elim p k : forall s pos,
  many p k pos s = true ->
  exists a b, s = a ++ b /\ forallb p a = true
              /\ k (pos + length a)%nat b = true.
Proof.
  induction s as [|c s IH]; intros pos H; simpl in H.
  - exists [], []. rewrite Nat.add_0_r. auto.
  - apply orb_true_iff in H as [H|H].
    + apply andb_true_iff in H as [Hc H].
      destruct (IH _ H) as (a & b & -> & Ha & Hk).
      exists (c :: a), b. simpl. rewrite Hc, Ha.
      replace (pos + S (length a))%nat with (S pos + length a)%nat by lia. auto.
    + exists [], (c :: s). rewrite Nat.add_0_r. auto.
Qed.

(** A string that matches r"^\d+\.\d{2}$": digits, a dot, two digits,
    and at most a final newline. *)
Lemma re_match_amount_shape s :
  re_match RE_AMOUNT s = true ->
  exists ds c1 c2 tl,
    chars s = ds ++ "."%char :: c1 :: c2 :: tl
    /\ ds <> [] /\ forallb isdecimal ds = true
    /\ isdecimal c1 = true /\ isdecimal c2 = true
    /\ (tl = [] \/ tl = [newline]).
Proof.
  unfold re_match, RE_AMOUNT. simpl.
  destruct (chars s) as [|c0 cs]; [discriminate|].
  intros H. apply andb_true_iff in H as [Hc0 H].
  apply many_elim in H as (a & b & -> & Ha & Hk).
  destruct b as [|d b]; [discriminate|].
  apply andb_true_iff in Hk as [Hd Hk]. apply bool_decide_eq_true in Hd. subst d.
  destruct b as [|c1 b]; [discriminate|].
  apply andb_true_iff in Hk as [Hc1 Hk].
  destruct b as [|c2 b]; [discriminate|].
  apply andb_true_iff in Hk as [Hc2 Hk].
  exists (c0 :: a), c1, c2, b. simpl. rewrite Hc0, Ha.
  repeat split; try reflexivity; try assumption; try discriminate.
  destruct b as [|x [|y b]]; [now left| |discriminate].
  apply andb_true_iff in Hk as [Hx _]. apply bool_decide_eq_true in Hx.
  right. now subst.
Qed.

Lemma lstrip_decimal c s : isdecimal c = true -> lstrip (c :: s) = c :: s.
Proof. intros H. simpl. now rewrite (isdecimal_not_space c H). Qed.

Lemma strip_amount ds c1 c2 tl :
  ds <> [] -> forallb isdecimal ds = true -> isdecimal c2 = true ->
  tl = [] \/ tl = [newline] ->
  strip (ds ++ "."%char :: c1 :: c2 :: tl) = ds ++ ["."%char; c1; c2].
Proof.
  intros Hne Hds Hc2 Htl. unfold strip.
  destruct ds as [|d ds]; [congruence|]. simpl in Hds.
  apply andb_true_iff in Hds as [Hd Hds].
  change ((d :: ds) ++ "."%char :: c1 :: c2 :: tl)
    with (d :: (ds ++ "."%char :: c1 :: c2 :: tl)).
  rewrite (lstrip_decimal d _ Hd).
  assert (Hrev : lstrip (rev (d :: ds ++ "."%char :: c1 :: c2 :: tl))
                 = rev (d :: ds ++ ["."%char; c1; c2])).
  { change (d :: ds ++ "."%char :: c1 :: c2 :: tl)
      with ((d :: ds) ++ ["."%char; c1] ++ c2 :: tl).
    change (d :: ds ++ ["."%char; c1; c2])
      with ((d :: ds) ++ ["."%char; c1] ++ [c2]).
    rewrite !rev_app_distr.
    destruct Htl as [-> | ->]; simpl rev at 1; simpl app at 1.
    - now rewrite (lstrip_decimal c2 _ Hc2).
    - change (lstrip (newline :: c2 :: c1 :: "."%char :: rev ds ++ [d]))
        with (lstrip (c2 :: c1 :: "."%char :: rev ds ++ [d])).
      now rewrite (lstrip_decimal c2 _ Hc2). }
  rewrite Hrev. apply rev_involutive.
Qed.

Lemma split_dot_decimal ds rest :
  forallb isdecimal ds = true ->
  split_dot (ds ++ "."%char :: rest) = (ds, Some rest).
Proof.
  induction ds as [|d ds IH]; simpl; intros H; [reflexivity|].
  apply andb_true_iff in H as [Hd H].
  rewrite bool_decide_eq_false_2 by now apply isdecimal_not_dot.
  now rewrite IH.
Qed.

Lemma filter_decimal_all ds : forallb isdecimal ds = true -> List.filter isdecimal ds = ds.
Proof.
  induction ds as [|d ds IH]; simpl; intros H; [reflexivity|].
  apply andb_true_iff in H as [Hd H]. rewrite Hd. now rewrite IH.
Qed.

Lemma fold_digits_nonneg ds : forall acc,
  0 <= acc -> forallb isdecimal ds = true ->
  0 <= fold_left (fun acc c => 10 * acc + digit_value c) ds acc.
Proof.
  induction ds as [|d ds IH]; simpl; intros acc Hacc H; [exact Hacc|].
  apply andb_true_iff in H as [Hd H]. apply IH; [|exact H].
  apply isdecimal_range in Hd. unfold digit_value. lia.
Qed.

(** [float] of a matching string is the quotient of its cents by 100,
    rounded once. *)
Lemma py_float_amount s :
  re_match RE_AMOUNT s = true ->
  0 <= amount_cents s
  /\ py_float s = Ok (fdiv (SF_of_Z (amount_cents s)) (SF_of_Z 100)).
Proof.
  intros H.
  destruct (re_match_amount_shape s H) as (ds & c1 & c2 & tl & Hs & Hne & Hds & Hc1 & Hc2 & Htl).
  assert (Hall : forallb isdecimal (ds ++ [c1; c2]) = true).
  { rewrite forallb_app, Hds. simpl. now rewrite Hc1, Hc2. }
  assert (Hcents : amount_cents s = int_of_digits (ds ++ [c1; c2])).
  { unfold amount_cents. rewrite Hs. f_equal.
    rewrite List.filter_app, (filter_decimal_all ds Hds). f_equal.
    simpl. rewrite Hc1, Hc2. destruct Htl as [-> | ->]; reflexivity. }
  split.
  - rewrite Hcents. unfold int_of_digits. apply fold_digits_nonneg; [lia|exact Hall].
  - unfold py_float. rewrite Hs, (strip_amount ds c1 c2 tl Hne Hds Hc2 Htl).
    rewrite (split_dot_decimal ds [c1; c2] Hds). simpl default.
    rewrite Hall. simpl andb.
    rewrite bool_decide_eq_false_2 by (destruct ds; [congruence|discriminate]).
    simpl negb. cbv iota. rewrite Hcents. reflexivity.
Qed.

(** ** The total *)

(** C3 (amended): for every total that matches the pattern and is below
    2^47 (140737488355328.00), [score_total] is 50 when the cents are 00
    plus 25 when the cents are 00, 25, 50 or 75. *)
Theorem score_total_exact (total : string)
    (Hmatch : re_match RE_AMOUNT total = true)
    (Hbound : amount_cents total < 100 * 2 ^ 47) :
  score_total total = Ok (total_points_exact (amount_cents total)).
Proof.
  destruct (py_float_amount total Hmatch) as [Hpos Hfloat].
  destruct (total_no_cents (amount_cents total) ltac:(lia)) as (rounded & Hr & Heq).
  destruct (total_quarters (amount_cents total) ltac:(lia)) as (remainder & Hm & Hq).
  remember (fdiv (SF_of_Z (amount_cents total)) (SF_of_Z 100)) as x eqn:Hx.
  unfold score_total, validate_total. rewrite Hmatch. simpl.
  rewrite Hfloat. simpl. rewrite Hr. simpl. rewrite Hm. simpl.
  rewrite Heq, Hq. unfold total_points_exact.
  destruct (_ mod 100 =? 0), (_ mod 25 =? 0); reflexivity.
Qed.

Lemma score_total_exact_witness :
  re_match RE_AMOUNT "1.25" = true
  /\ amount_cents "1.25" < 100 * 2 ^ 47
  /\ score_total "35.35" = Ok 0 /\ score_total "9.00" = Ok 75
  /\ score_total "2.65" = Ok 0 /\ score_total "1.25" = Ok 25.
Proof.
  split; [reflexivity|]. split; [reflexivity|].
  split; [exact (score_total_exact "35.35" eq_refl eq_refl)|].
  split; [exact (score_total_exact "9.00" eq_refl eq_refl)|].
  split; [exact (score_total_exact "2.65" eq_refl eq_refl)|].
  exact (score_total_exact "1.25" eq_refl eq_refl).
Defined.

(** C3, as stated, fails: the total 140737488355328.01 matches the
    pattern and has 01 cents, and [score_total] gives it 75 points, not
    0: the float nearest to it is the integer 2^47. *)
Lemma score_total_beyond_2_47 :
  re_match RE_AMOUNT total_2_47_and_a_cent = true
  /\ amount_cents total_2_47_and_a_cent mod 100 = 1
  /\ total_points_exact (amount_cents total_2_47_and_a_cent) = 0
  /\ score_total total_2_47_and_a_cent = Ok 75.
Proof. vm_compute. auto. Qed.

(** ** The items *)

Lemma validate_item_ok d p :
  validate_item d p = Ok tt -> re_match RE_AMOUNT p = true.
Proof.
  unfold validate_item. destruct (negb (re_match RE_DESCRIPTION d)); [discriminate|].
  destruct (re_match RE_AMOUNT p); [reflexivity|discriminate].
Qed.

Lemma score_items_loop_exact items :
  Forall (fun it => exists d p,
            item_fields it d p /\ validate_item d p = Ok tt
            /\ amount_cents p < 100 * 2 ^ 47) items ->
  forall points,
    score_items_loop items points
    = Ok (points + fold_right Z.add 0 (map item_bonus_exact items)).
Proof.
  induction 1 as [|it rest Hit _ IH]; intros points; simpl; [f_equal; lia|].
  destruct Hit as (d & p & (dct & -> & Hd & Hp) & Hv & Hb).
  assert (Hexact : item_bonus_exact (JDict dct)
                   = if Z.of_nat (length (strip (chars d))) mod 3 =? 0
                     then ceil_div (amount_cents p) 500 else 0)
    by (unfold item_bonus_exact; now rewrite Hd, Hp).
  rewrite Hexact.
  unfold subscript, getitem, REWARD_ITEM_DESCRIPTION_LENGTH_FACTOR.
  rewrite Hd, Hp. simpl. rewrite Hv. simpl.
  destruct (py_float_amount p (validate_item_ok d p Hv)) as [Hpos Hfloat].
  pose proof (item_bonus_float (amount_cents p) ltac:(lia)) as Hbonus.
  remember (fdiv (SF_of_Z (amount_cents p)) (SF_of_Z 100)) as x eqn:Hx.
  destruct (_ mod 3 =? 0).
  - rewrite Hfloat. simpl. rewrite Hbonus. simpl.
    rewrite IH. f_equal. unfold ceil_div. lia.
  - rewrite IH. f_equal.
Qed.

(** C4 (amended): for every list of items that are dicts with a valid
    description and a valid price below 2^47 (140737488355328.00),
    [score_items] is 5 points for every two items plus, for every item
    whose trimmed description length is a multiple of 3 (0 counts), the
    ceiling of a fifth of its exact decimal price. *)
Theorem score_items_exact (items : list json)
    (Hvalid : Forall (fun it => exists d p,
                        item_fields it d p /\ validate_item d p = Ok tt
                        /\ amount_cents p < 100 * 2 ^ 47) items) :
  score_items items = Ok (items_points_exact items).
Proof.
  unfold score_items, items_points_exact, POINTS_ITEMS_COUNT.
  now rewrite (score_items_loop_exact items Hvalid).
Qed.

Lemma score_items_exact_witness :
  Forall (fun it => exists d p,
            item_fields it d p /\ validate_item d p = Ok tt
            /\ amount_cents p < 100 * 2 ^ 47)
    [ item "Emils Cheese Pizza" "12.25"; item "   " "5.00"; item "Dasani" "1.40" ]
  /\ score_items
       [ item "Emils Cheese Pizza" "12.25"; item "   " "5.00"; item "Dasani" "1.40" ]
     = Ok 10.
Proof.
  assert (H : Forall (fun it => exists d p,
                item_fields it d p /\ validate_item d p = Ok tt
                /\ amount_cents p < 100 * 2 ^ 47)
              [ item "Emils Cheese Pizza" "12.25"; item "   " "5.00";
                item "Dasani" "1.40" ]).
  { repeat constructor.
    - exists "Emils Cheese Pizza", "12.25". repeat split.
      eexists. repeat split; vm_compute; reflexivity.
    - exists "   ", "5.00". repeat split.
      eexists. repeat split; vm_compute; reflexivity.
    - exists "Dasani", "1.40". repeat split.
      eexists. repeat split; vm_compute; reflexivity. }
  split; [exact H|].
  exact (score_items_exact _ H).
Defined.

(** C4, as stated, fails: for one item "abc" at 140737488355330.01 the
    exact fifth is 28147497671066.002, whose ceiling is 28147497671067;
    [score_items] gives 28147497671066, because the float nearest to the
    price is 140737488355330. *)
Lemma score_items_beyond_2_47 :
  validate_item "abc" "140737488355330.01" = Ok tt
  /\ items_points_exact items_beyond_2_47 = 28147497671067
  /\ score_items items_beyond_2_47 = Ok 28147497671066.
Proof. vm_compute. auto. Qed.

(** * Further properties of the code *)

(** ** What the patterns accept *)

Lemma many_intro p k a : forall b pos,
  forallb p a = true -> k (pos + length a)%nat b = true ->
  many p k pos (a ++ b) = true.
Proof.
  induction a as [|c a IH]; intros b pos Ha Hk; simpl in *.
  - rewrite Nat.add_0_r in Hk. destruct b; simpl; [exact Hk|].
    rewrite Hk. apply orb_true_r.
  - apply andb_true_iff in Ha as [Hc Ha]. rewrite Hc. simpl.
    rewrite IH; [reflexivity|exact Ha|].
    now replace (S pos + length a)%nat with (pos + S (length a))%nat by lia.
Qed.

Lemma re_match_amount_of_shape s :
  amount_shape (chars s) -> re_match RE_AMOUNT s = true.
Proof.
  intros (ds & c1 & c2 & tl & Hs & Hne & Hds & Hc1 & Hc2 & Htl).
  unfold re_match, RE_AMOUNT. rewrite Hs. simpl.
  destruct ds as [|d ds]; [congruence|]. simpl in Hds.
  apply andb_true_iff in Hds as [Hd Hds]. simpl. rewrite Hd. simpl.
  apply many_intro; [exact Hds|]. simpl.
  rewrite Hc1, Hc2. simpl.
  destruct Htl as [-> | ->]; reflexivity.
Qed.

Lemma chars_append s t : chars (s +:+ t) = chars s ++ chars t.
Proof. induction s as [|c s IH]; simpl; [reflexivity|]. now rewrite <- IH. Qed.

(** X1: [validate_retailer_name] accepts exactly the names whose first
    character is not whitespace; every other name, the empty one
    included, is refused with the message that quotes it. *)
Theorem validate_retailer_name_first_character (retailer_name : string) :
  (validate_retailer_name retailer_name = Ok tt
   <-> exists c rest, chars retailer_name = c :: rest /\ isspace c = false)
  /\ (validate_retailer_name retailer_name = Ok tt
      \/ validate_retailer_name retailer_name
         = Raise (ValueError ("Error: invalid receipt retailer name ("
                              +:+ retailer_name +:+ ")"))).
Proof.
  unfold validate_retailer_name. rewrite re_match_retailer.
  destruct (chars retailer_name) as [|c rest].
  - split; [|now right]. split; [discriminate|]. intros (c & rest & H & _). discriminate H.
  - destruct (isspace c) eqn:Hc; simpl.
    + split; [|now right]. split; [discriminate|].
      intros (c' & rest' & [= <- <-] & H). congruence.
    + split; [|now left]. split; [eauto|reflexivity].
Qed.

Lemma sum_alnum_count l :
  fold_right Z.add 0
    (map (fun c => Z.b2z (isalnum c) * POINTS_RETAILER_NAME_ALPHANUM_CHARACTER) l)
  = Z.of_nat (length (List.filter isalnum l)).
Proof.
  induction l as [|c l IH]; [reflexivity|].
  cbn [map fold_right List.filter]. rewrite IH.
  unfold POINTS_RETAILER_NAME_ALPHANUM_CHARACTER.
  destruct (isalnum c); cbn [Z.b2z length]; lia.
Qed.

(** X2: for an accepted name [score_retailer] is the number of its
    alphanumeric characters, whatever other characters stand between
    them: at least 0 and at most the length of the name. *)
Theorem score_retailer_counts_alphanumerics (retailer_name : string)
    (Haccepted : validate_retailer_name retailer_name = Ok tt) :
  score_retailer retailer_name
  = Ok (Z.of_nat (length (List.filter isalnum (chars retailer_name))))
  /\ 0 <= Z.of_nat (length (List.filter isalnum (chars retailer_name)))
     <= Z.of_nat (length (chars retailer_name)).
Proof.
  split.
  - unfold score_retailer. rewrite Haccepted. simpl. now rewrite sum_alnum_count.
  - split; [lia|]. apply Nat2Z.inj_le, List.filter_length_le.
Qed.

Lemma score_retailer_counts_alphanumerics_witness :
  validate_retailer_name "M&M Corner Market" = Ok tt
  /\ score_retailer "M&M Corner Market" = Ok 14.
Proof.
  split; [reflexivity|].
  exact (proj1 (score_retailer_counts_alphanumerics "M&M Corner Market" eq_refl)).
Defined.

(** X3: [validate_total] accepts exactly the strings made of one or
    more digits, a dot and two digits, with at most one newline after
    them; every other string is refused with the message that quotes
    it. *)
Theorem validate_total_accepts_amounts (total : string) :
  (validate_total total = Ok tt <-> amount_shape (chars total))
  /\ (validate_total total = Ok tt
      \/ validate_total total
         = Raise (ValueError ("Error: invalid receipt total (" +:+ total +:+ ")"))).
Proof.
  unfold validate_total.
  destruct (re_match RE_AMOUNT total) eqn:Hm; simpl.
  - split; [|now left]. split; [|reflexivity].
    intros _. now apply re_match_amount_shape.
  - split; [|now right]. split; [discriminate|].
    intros H. apply re_match_amount_of_shape in H. congruence.
Qed.

Lemma re_match_description s :
  re_match RE_DESCRIPTION s = true
  <-> chars s <> [] /\ forallb description_char (chars s) = true.
Proof.
  unfold re_match, RE_DESCRIPTION. simpl.
  destruct (chars s) as [|c0 cs]; [split; [discriminate|intros [H _]; congruence]|].
  change (fun c => isword c || isspace c || bool_decide (c = "-"%char))
    with description_char.
  change (isword c0 || isspace c0 || bool_decide (c0 = "-"%char))
    with (description_char c0).
  split.
  - intros H. apply andb_true_iff in H as [Hc0 H].
    apply many_elim in H as (a & b & -> & Ha & Hk).
    split; [discriminate|]. simpl. rewrite Hc0. simpl.
    rewrite forallb_app, Ha. simpl.
    destruct b as [|x [|y b]]; [reflexivity| |discriminate].
    apply andb_true_iff in Hk as [Hx _]. apply bool_decide_eq_true in Hx. subst x.
    reflexivity.
  - intros [_ H]. simpl in H. apply andb_true_iff in H as [Hc0 H].
    rewrite Hc0. simpl.
    rewrite <- (app_nil_r cs). apply many_intro; [exact H|reflexivity].
Qed.

(** X4: [validate_item] accepts exactly the pairs of a description
    that is not empty and made of word characters, whitespace and
    hyphens, and a price of the shape of an amount; the description is
    judged first. *)
Theorem validate_item_accepts (description price : string) :
  (validate_item description price = Ok tt
   <-> (chars description <> []
        /\ forallb description_char (chars description) = true)
       /\ amount_shape (chars price))
  /\ (re_match RE_DESCRIPTION description = false ->
      validate_item description price
      = Raise (ValueError ("Error: invalid item description ("
                           +:+ description +:+ ")"))).
Proof.
  unfold validate_item.
  pose proof (re_match_description description) as Hd.
  destruct (re_match RE_DESCRIPTION description) eqn:Hmd; simpl.
  - split; [|discriminate].
    destruct (re_match RE_AMOUNT price) eqn:Hmp; simpl.
    + split; [|reflexivity]. intros _. split; [now apply Hd|].
      now apply re_match_amount_shape.
    + split; [discriminate|]. intros [_ H].
      apply re_match_amount_of_shape in H. congruence.
  - split; [|reflexivity]. split; [discriminate|].
    intros [H _]. apply Hd in H. discriminate H.
Qed.

(** X5: one newline after a total changes nothing: the total is
    accepted with it and gets the same points. *)
Theorem score_total_final_newline (total : string) (ds : list ascii) (c1 c2 : ascii)
    (Hchars : chars total = ds ++ ["."%char; c1; c2])
    (Hne : ds <> []) (Hds : forallb isdecimal ds = true)
    (Hc1 : isdecimal c1 = true) (Hc2 : isdecimal c2 = true) :
  validate_total (total +:+ String newline "") = Ok tt
  /\ score_total (total +:+ String newline "") = score_total total.
Proof.
  assert (Hs1 : amount_shape (chars total)).
  { exists ds, c1, c2, []. rewrite Hchars. auto 10. }
  assert (Hs2 : amount_shape (chars (total +:+ String newline ""))).
  { exists ds, c1, c2, [newline]. rewrite chars_append, Hchars, <- app_assoc. simpl. auto 10. }
  pose proof (re_match_amount_of_shape _ Hs1) as Hm1.
  pose proof (re_match_amount_of_shape _ Hs2) as Hm2.
  assert (Hf : py_float (total +:+ String newline "") = py_float total).
  { destruct (py_float_amount _ Hm1) as [_ ->].
    destruct (py_float_amount _ Hm2) as [_ ->].
    unfold amount_cents. rewrite chars_append, List.filter_app. simpl.
    now rewrite app_nil_r. }
  unfold score_total, validate_total. rewrite Hm1, Hm2, Hf. simpl. auto.
Qed.

Lemma score_total_final_newline_witness :
  score_total (String "9" (String "." (String "0" (String "0" (String newline "")))))
  = Ok 75.
Proof.
  destruct (score_total_final_newline "9.00" ["9"%char] "0" "0"
              eq_refl ltac:(discriminate) eq_refl eq_refl eq_refl) as [_ H].
  exact H.
Defined.

(** ** Floats that are not negative *)

Lemma stands_for_nonneg mrs a d : stands_for mrs a d -> 0 <= shr_m mrs.
Proof. intros (Ha & Hd & -> & _). apply Z.div_pos; lia. Qed.

Lemma shr_fexp_stands_for m e l r d :
  0 <= m -> 0 <= r < d -> loc_ok l r d ->
  exists d', stands_for (fst (shr_fexp prec emax m e l)) (m * d + r) d'.
Proof.
  intros Hm Hr Hl. unfold shr_fexp, shr.
  pose proof (stands_for_loc m l r d Hm Hr Hl) as Hs.
  destruct (fexp prec emax (Zdigits2 m + e) - e) as [|p|p]; simpl fst; eauto.
  eexists. apply iter_shr_1_stands_for. exact Hs.
Qed.

Lemma rne_nonneg a d : 0 <= a -> 0 < d -> 0 <= rne a d.
Proof. intros Ha Hd. apply rne_ge; lia. Qed.

(** Rounding a quotient that is not negative gives a float that is not
    negative, and never NaN. *)
Lemma binary_round_aux_nonneg q e l r d :
  0 <= q -> 0 <= r < d -> loc_ok l r d ->
  nonneg_float (binary_round_aux prec emax false q e l).
Proof.
  intros Hq Hr Hl. unfold binary_round_aux.
  destruct (shr_fexp_stands_for q e l r d Hq Hr Hl) as (d' & Hs).
  destruct (shr_fexp prec emax q e l) as [mrs' e'].
  simpl fst in Hs.
  rewrite (round_nearest_even_rne _ _ _ Hs).
  assert (Hd' : 0 < d') by (destruct Hs as (_ & H & _); exact H).
  assert (Ha : 0 <= q * d + r) by nia.
  pose proof (rne_nonneg _ _ Ha Hd') as Hm2.
  destruct (shr_fexp_stands_for (rne (q * d + r) d') e' loc_Exact 0 1 Hm2
              ltac:(lia) eq_refl) as (d'' & Hs2).
  destruct (shr_fexp prec emax (rne (q * d + r) d') e' loc_Exact) as [mrs'' e''].
  simpl fst in Hs2. apply stands_for_nonneg in Hs2.
  destruct (shr_m mrs'') as [|p|p]; [reflexivity| |lia].
  destruct (e'' <=? emax - prec); reflexivity.
Qed.

Lemma fdiv_cents_nonneg n : 0 <= n -> nonneg_float (fdiv (SF_of_Z n) (SF_of_Z 100)).
Proof.
  intros Hn. destruct n as [|pn|pn]; [reflexivity| |lia].
  unfold fdiv, SF_of_Z, SFdiv, SFdiv_core_binary. simpl xorb.
  set (e' := Z.min _ _). set (m' := match _ with 0 => _ | Z.pos _ => _ | Z.neg _ => _ end).
  assert (Hm' : 0 <= m').
  { subst m'. destruct (0 - 0 - e'); try lia. apply Z.shiftl_nonneg. lia. }
  assert (Hdiv : Z.div_eucl m' 100 = (m' / 100, m' mod 100)).
  { unfold Z.div, Z.modulo. now destruct (Z.div_eucl m' 100). }
  rewrite Hdiv.
  pose proof (Z.mod_pos_bound m' 100 ltac:(lia)) as Hmb.
  apply (binary_round_aux_nonneg _ _ _ (m' mod 100) 100);
    [apply Z.div_pos; lia|lia|now apply new_location_100].
Qed.

Lemma fmul_nonneg x : nonneg_float x -> nonneg_float (fmul x POINTS_ITEM_DESCRIPTION).
Proof.
  unfold fmul, POINTS_ITEM_DESCRIPTION, lit_0_2.
  destruct x as [s|s| |s m e]; simpl; try tauto; try (intros ->; reflexivity).
  intros ->. simpl xorb.
  apply (binary_round_aux_nonneg _ _ _ 0 1); [lia|lia|reflexivity].
Qed.

Lemma math_ceil_nonneg x :
  nonneg_float x ->
  (exists b, math_ceil x = Ok b /\ 0 <= b) \/ math_ceil x = Raise OverflowError.
Proof.
  unfold math_ceil. destruct x as [s|s| |s m e]; simpl; try tauto.
  - intros _. left. exists 0. split; [reflexivity|lia].
  - intros ->. left. simpl.
    destruct (Z.leb_spec 0 e) as [He|He]; eexists; (split; [reflexivity|]).
    + assert (0 < 2 ^ e) by (apply Z.pow_pos_nonneg; lia). nia.
    + assert (0 < 2 ^ (- e)) by (apply Z.pow_pos_nonneg; lia).
      assert (- Z.pos m / 2 ^ (- e) < 0); [|lia].
      apply Z.div_lt_upper_bound; lia.
Qed.

Lemma py_round_nonneg x :
  nonneg_float x ->
  (exists n, py_round x = Ok n) \/ py_round x = Raise OverflowError.
Proof.
  unfold py_round. destruct x as [s|s| |s m e]; simpl; try tauto; eauto.
  intros _. destruct (0 <=? e); eauto.
Qed.

(** A float that equals its rounding to an [int] is a multiple of a
    quarter. *)
Lemma integral_is_quarter_multiple x n :
  nonneg_float x -> py_round x = Ok n -> float_eq_int x n = true ->
  exists r, py_float_mod x lit_0_25 = Ok r /\ float_eq_int r 0 = true.
Proof.
  unfold py_round, float_eq_int, py_float_mod, lit_0_25, c_fmod.
  destruct x as [s|s| |s m e]; simpl; try tauto; try discriminate.
  - intros _ _ _. eexists. split; reflexivity.
  - intros -> Hround Heq. simpl cond_Zopp in *.
    assert (Hr : (Z.pos m * 2 ^ (e - Z.min e (-54)))
                 mod (4503599627370496 * 2 ^ (-54 - Z.min e (-54))) = 0).
    { change 4503599627370496 with (2 ^ 52).
      destruct (Z.leb_spec 0 e) as [He|He].
      - replace (Z.min e (-54)) with (-54) by lia.
        replace (-54 - -54) with 0 by lia. rewrite Z.pow_0_r, Z.mul_1_r.
        replace (e - -54) with (e + 2 + 52) by lia.
        rewrite (Z.pow_add_r 2 (e + 2) 52), Z.mul_assoc by lia.
        apply Z.mod_mul. lia.
      - injection Hround as <-. apply Z.eqb_eq in Heq.
        set (K := rne (Z.pos m) (2 ^ (- e))) in *. rewrite Heq.
        destruct (Z_le_gt_dec e (-54)) as [H54|H54].
        + replace (Z.min e (-54)) with e by lia.
          replace (e - e) with 0 by lia. rewrite Z.pow_0_r, Z.mul_1_r.
          rewrite <- Z.pow_add_r by lia.
          replace (- e) with (2 + (52 + (-54 - e))) by lia.
          rewrite (Z.pow_add_r 2 2), Z.mul_assoc by lia.
          apply Z.mod_mul. apply Z.pow_nonzero; lia.
        + replace (Z.min e (-54)) with (-54) by lia.
          replace (-54 - -54) with 0 by lia. rewrite Z.pow_0_r, Z.mul_1_r.
          rewrite <- Z.mul_assoc, <- Z.pow_add_r by lia.
          replace (- e + (e - -54)) with (2 + 52) by lia.
          rewrite (Z.pow_add_r 2 2 52), Z.mul_assoc by lia.
          apply Z.mod_mul. lia. }
    rewrite Hr. simpl. eexists. split; reflexivity.
Qed.

(** The float of an accepted amount and its fifth, rounded up *)
Lemma amount_float_nonneg s :
  re_match RE_AMOUNT s = true ->
  exists x, py_float s = Ok x /\ nonneg_float x.
Proof.
  intros Hm. destruct (py_float_amount s Hm) as [Hn Hx].
  eexists. split; [exact Hx|]. now apply fdiv_cents_nonneg.
Qed.

Lemma item_bonus_outcome price :
  re_match RE_AMOUNT price = true ->
  exists x, py_float price = Ok x
    /\ ((exists b, math_ceil (fmul x POINTS_ITEM_DESCRIPTION) = Ok b /\ 0 <= b)
        \/ math_ceil (fmul x POINTS_ITEM_DESCRIPTION) = Raise OverflowError).
Proof.
  intros Hm. destruct (amount_float_nonneg _ Hm) as (x & Hx & Hnn).
  exists x. split; [exact Hx|]. apply math_ceil_nonneg. now apply fmul_nonneg.
Qed.

(** ** What each step raises *)

Lemma score_retailer_outcome s e :
  score_retailer s = Raise e ->
  e = ValueError ("Error: invalid receipt retailer name (" +:+ s +:+ ")").
Proof.
  unfold score_retailer, validate_retailer_name.
  destruct (negb _); simpl; [|discriminate]. now intros [= <-].
Qed.

Lemma score_total_outcome s e :
  score_total s = Raise e ->
  e = ValueError ("Error: invalid receipt total (" +:+ s +:+ ")")
  \/ e = OverflowError.
Proof.
  unfold score_total, validate_total.
  destruct (re_match RE_AMOUNT s) eqn:Hm; simpl; [|intros [= <-]; now left].
  destruct (amount_float_nonneg _ Hm) as (x & -> & Hnn). simpl.
  destruct (py_round_nonneg x Hnn) as [[n ->] | ->]; simpl;
    [|intros [= <-]; now right].
  destruct (py_float_mod_quarter x) as [r ->]. discriminate.
Qed.

Lemma score_items_loop_outcome items :
  Forall (fun it => check_item it = Ok tt) items ->
  forall points e, score_items_loop items points = Raise e ->
  (exists v, e = ValueError ("Error: invalid item description (" +:+ v +:+ ")"))
  \/ (exists v, e = ValueError ("Error: invalid item price (" +:+ v +:+ ")"))
  \/ e = OverflowError.
Proof.
  induction 1 as [|it rest Hit _ IH]; intros points e H; [discriminate|].
  destruct (check_item_ok _ Hit) as (d & p & dct & -> & Hd & Hp).
  simpl in H. unfold getitem in H. rewrite Hd, Hp in H. simpl in H.
  destruct (validate_item d p) as [[]|e'] eqn:Hv; simpl in H.
  2:{ injection H as ->. unfold validate_item in Hv.
      destruct (negb (re_match RE_DESCRIPTION d)); [injection Hv as <-; eauto|].
      destruct (negb (re_match RE_AMOUNT p)); [injection Hv as <-; eauto|discriminate]. }
  destruct (_ =? 0); [|now apply IH in H].
  destruct (item_bonus_outcome p (validate_item_ok _ _ Hv)) as (x & Hx & Hb).
  rewrite Hx in H. simpl in H.
  destruct Hb as [(b & Hb & _) | Hb]; rewrite Hb in H; simpl in H;
    [now apply IH in H|injection H as <-; auto].
Qed.

Lemma score_date_time_outcome d t e :
  score_date_time d t = Raise e ->
  e = ValueError ("Error: invalid receipt purchase date (" +:+ d +:+ ")")
  \/ e = ValueError ("Error: invalid receipt purchase time (" +:+ t +:+ ")").
Proof.
  unfold score_date_time, validate_and_parse_date_time.
  destruct (strptime_date d); simpl; [|intros [= <-]; now left].
  destruct (strptime_time t); simpl; [discriminate|intros [= <-]; now right].
Qed.

(** ** The scores are not negative *)

Lemma score_retailer_nonneg s p : score_retailer s = Ok p -> 0 <= p.
Proof.
  unfold score_retailer. destruct (validate_retailer_name s); simpl; [|discriminate].
  intros [= <-]. unfold POINTS_RETAILER_NAME_ALPHANUM_CHARACTER.
  induction (chars s) as [|c l IH]; simpl; [lia|]. destruct (isalnum c); simpl; lia.
Qed.

Lemma score_total_nonneg s p : score_total s = Ok p -> 0 <= p.
Proof.
  unfold score_total. destruct (validate_total s); simpl; [|discriminate].
  destruct (py_float s) as [x|]; simpl; [|discriminate].
  destruct (py_round x) as [n|]; simpl; [|discriminate].
  destruct (py_float_mod x lit_0_25) as [r|]; simpl; [|discriminate].
  intros [= <-].
  unfold POINTS_TOTAL_HAS_NO_CENTS, POINTS_TOTAL_IS_MULTIPLE_OF_QUARTERS.
  destruct (float_eq_int x n), (float_eq_int r 0); lia.
Qed.

Lemma score_items_loop_ge items :
  forall points p, score_items_loop items points = Ok p -> points <= p.
Proof.
  induction items as [|it rest IH]; intros points p H; simpl in H.
  - injection H as <-. lia.
  - destruct (subscript it "shortDescription") as [vd|]; simpl in H; [|discriminate].
    destruct (subscript it "price") as [vp|]; simpl in H; [|discriminate].
    destruct (as_str vd) as [d|]; simpl in H; [|discriminate].
    destruct (as_str vp) as [pr|]; simpl in H; [|discriminate].
    destruct (validate_item d pr) as [[]|] eqn:Hv; simpl in H; [|discriminate].
    destruct (_ =? 0); [|now apply IH].
    destruct (item_bonus_outcome pr (validate_item_ok _ _ Hv)) as (x & Hx & Hb).
    rewrite Hx in H. simpl in H.
    destruct Hb as [(b & Hb & Hb0) | Hb]; rewrite Hb in H; simpl in H; [|discriminate].
    apply IH in H. lia.
Qed.

Lemma score_items_nonneg items p : score_items items = Ok p -> 0 <= p.
Proof.
  unfold score_items. intros H. apply score_items_loop_ge in H.
  unfold POINTS_ITEMS_COUNT in H.
  assert (0 <= Z.of_nat (length items) / 2) by (apply Z.div_pos; lia). lia.
Qed.

Lemma score_date_time_nonneg d t p : score_date_time d t = Ok p -> 0 <= p.
Proof.
  unfold score_date_time.
  destruct (validate_and_parse_date_time d t) as [[date_obj time_obj]|]; simpl; [|discriminate].
  intros [= <-]. unfold POINTS_ODD_PURCHASE_DAY, POINTS_VALID_PURCHASE_HOUR.
  destruct (negb _), (_ && _); lia.
Qed.

Lemma calculate_points_nonneg receipt p : calculate_points receipt = Ok p -> 0 <= p.
Proof.
  unfold calculate_points.
  destruct (getitem receipt "retailer") as [v1|]; simpl; [|discriminate].
  destruct (as_str v1) as [retailer|]; simpl; [|discriminate].
  destruct (score_retailer retailer) as [pr|] eqn:Hr; simpl; [|discriminate].
  destruct (getitem receipt "total") as [v2|]; simpl; [|discriminate].
  destruct (as_str v2) as [total|]; simpl; [|discriminate].
  destruct (score_total total) as [pt|] eqn:Ht; simpl; [|discriminate].
  destruct (getitem receipt "items") as [v3|]; simpl; [|discriminate].
  destruct (as_list v3) as [items|]; simpl; [|discriminate].
  destruct (score_items items) as [pi|] eqn:Hi; simpl; [|discriminate].
  destruct (getitem receipt "purchaseDate") as [v4|]; simpl; [|discriminate].
  destruct (as_str v4) as [date|]; simpl; [|discriminate].
  destruct (getitem receipt "purchaseTime") as [v5|]; simpl; [|discriminate].
  destruct (as_str v5) as [time|]; simpl; [|discriminate].
  destruct (score_date_time date time) as [pd|] eqn:Hd; simpl; [|discriminate].
  intros [= <-].
  apply score_retailer_nonneg in Hr. apply score_total_nonneg in Ht.
  apply score_items_nonneg in Hi. apply score_date_time_nonneg in Hd. lia.
Qed.

(** ** What the structure validation and the scoring raise *)

Lemma check_attribute_outcome receipt a e :
  a ∈ required_receipt_attributes ->
  check_attribute receipt a = Raise e ->
  exists msg, e = ValueError msg /\ error_message msg.
Proof.
  intros Ha. unfold check_attribute.
  destruct (receipt !! a) as [v|].
  - destruct (decide (a = "items")) as [->|Hne]; [simpl; discriminate|].
    rewrite bool_decide_eq_false_2 by exact Hne. simpl.
    destruct (is_str v); simpl; [discriminate|].
    intros [= <-]. eexists. split; [reflexivity|]. now constructor.
  - intros [= <-]. eexists. split; [reflexivity|]. now constructor.
Qed.

Lemma check_item_outcome it e :
  check_item it = Raise e ->
  e = ValueError "Error: invalid receipt item format"
  \/ exists k, k ∈ required_item_attributes /\ e = KeyError k.
Proof.
  unfold check_item.
  destruct it as [| | | | |l|d]; try (intros [= <-]; now left).
  intros H. apply for_each_raise in H as (a & Ha & H).
  unfold getitem in H. destruct (d !! a) as [v|]; simpl in H.
  - destruct (is_str v); simpl in H; [discriminate|]. injection H as <-. now left.
  - injection H as <-. right. eauto.
Qed.

Lemma validate_structure_outcome receipt e :
  validate_receipt_json_structure receipt = Raise e ->
  (exists msg, e = ValueError msg /\ error_message msg)
  \/ exists k, k ∈ required_item_attributes /\ e = KeyError k.
Proof.
  unfold validate_receipt_json_structure. intros H.
  destruct (for_each required_receipt_attributes (check_attribute receipt))
    as [[]|e'] eqn:Hattrs; simpl in H.
  2:{ injection H as ->. apply for_each_raise in Hattrs as (a & Ha & Hc).
      left. eapply check_attribute_outcome; eauto. }
  apply for_each_ok in Hattrs.
  assert (Hitems : check_attribute receipt "items" = Ok tt).
  { rewrite Forall_forall in Hattrs. apply Hattrs.
    unfold required_receipt_attributes. set_solver. }
  unfold check_attribute in Hitems. unfold getitem in H.
  destruct (receipt !! "items") as [v|]; [|discriminate]. simpl in H.
  destruct v as [| | | | |l|d];
    try (injection H as <-; left; eexists; split; [reflexivity|constructor]).
  destruct (Z.of_nat (length l) <? 1).
  - injection H as <-. left. eexists. split; [reflexivity|constructor].
  - apply for_each_raise in H as (it & _ & H).
    apply check_item_outcome in H as [-> | H]; [left|now right].
    eexists. split; [reflexivity|constructor].
Qed.

(** What a receipt of the expected structure holds *)
Lemma validate_structure_fields receipt :
  validate_receipt_json_structure receipt = Ok tt ->
  exists retailer total date time items,
    receipt !! "retailer" = Some (JStr retailer)
    /\ receipt !! "total" = Some (JStr total)
    /\ receipt !! "purchaseDate" = Some (JStr date)
    /\ receipt !! "purchaseTime" = Some (JStr time)
    /\ receipt !! "items" = Some (JList items)
    /\ items <> []
    /\ Forall (fun it => check_item it = Ok tt) items.
Proof.
  intros Hv.
  destruct (validate_structure_ok _ Hv) as (Hfields & l & Hitems & Hne & Hchecked).
  unfold required_receipt_attributes in Hfields.
  repeat (apply Forall_cons in Hfields as [?Hf Hfields]).
  destruct (string_field _ _ Hf) as (retailer & Hr); [done|].
  destruct (string_field _ _ Hf0) as (total & Ht); [done|].
  destruct (string_field _ _ Hf2) as (date & Hd); [done|].
  destruct (string_field _ _ Hf3) as (time & Htm); [done|].
  exists retailer, total, date, time, l. auto 10.
Qed.

(** [calculate_points] on the fields of a receipt *)
Lemma calculate_points_fields receipt retailer total date time items :
  receipt !! "retailer" = Some (JStr retailer) ->
  receipt !! "total" = Some (JStr total) ->
  receipt !! "purchaseDate" = Some (JStr date) ->
  receipt !! "purchaseTime" = Some (JStr time) ->
  receipt !! "items" = Some (JList items) ->
  calculate_points receipt =
  (pr ← score_retailer retailer;
   pt ← score_total total;
   pi ← score_items items;
   pd ← score_date_time date time;
   Ok (0 + pr + pt + pi + pd)).
Proof.
  intros Hr Ht Hd Htm Hi. unfold calculate_points, getitem.
  rewrite Hr, Ht, Hd, Htm, Hi. reflexivity.
Qed.

Lemma calculate_points_outcome receipt e :
  validate_receipt_json_structure receipt = Ok tt ->
  calculate_points receipt = Raise e ->
  (exists msg, e = ValueError msg /\ error_message msg) \/ e = OverflowError.
Proof.
  intros Hv H.
  destruct (validate_structure_fields _ Hv)
    as (retailer & total & date & time & items & Hr & Ht & Hd & Htm & Hi & _ & Hchecked).
  rewrite (calculate_points_fields _ _ _ _ _ _ Hr Ht Hd Htm Hi) in H.
  destruct (score_retailer retailer) as [pr|e'] eqn:Hsr; simpl in H.
  2:{ injection H as ->. apply score_retailer_outcome in Hsr as ->.
      left. eexists. split; [reflexivity|constructor]. }
  destruct (score_total total) as [pt|e'] eqn:Hst; simpl in H.
  2:{ injection H as ->. apply score_total_outcome in Hst as [-> | ->]; [left|now right].
      eexists. split; [reflexivity|constructor]. }
  destruct (score_items items) as [pi|e'] eqn:Hsi; simpl in H.
  2:{ injection H as ->.
      apply (score_items_loop_outcome _ Hchecked) in Hsi as [[v ->] | [[v ->] | ->]];
        [left|left|now right]; (eexists; split; [reflexivity|constructor]). }
  destruct (score_date_time date time) as [pd|e'] eqn:Hsd; simpl in H; [discriminate|].
  injection H as ->. apply score_date_time_outcome in Hsd as [-> | ->];
    left; (eexists; split; [reflexivity|constructor]).
Qed.

(** X6: [score_total] gives 0, 25 or 75 points, or refuses the total with
    its message, or fails with the [OverflowError] of [round]: a total
    that equals its rounding is a multiple of a quarter as well, so the
    50 points never come alone; and nothing else is raised. *)
Theorem score_total_values (total : string) :
  score_total total = Ok 0 \/ score_total total = Ok 25 \/ score_total total = Ok 75
  \/ score_total total
     = Raise (ValueError ("Error: invalid receipt total (" +:+ total +:+ ")"))
  \/ score_total total = Raise OverflowError.
Proof.
  unfold score_total, validate_total.
  destruct (re_match RE_AMOUNT total) eqn:Hm; simpl; [|auto].
  destruct (amount_float_nonneg _ Hm) as (x & -> & Hnn). simpl.
  destruct (py_round_nonneg x Hnn) as [[n Hn] | ->]; simpl; [|auto 10].
  rewrite Hn. simpl.
  destruct (float_eq_int x n) eqn:Heq.
  - destruct (integral_is_quarter_multiple x n Hnn Hn Heq) as (r & -> & Hr).
    simpl. rewrite Hr. auto.
  - destruct (py_float_mod_quarter x) as [r ->]. simpl.
    destruct (float_eq_int r 0); auto.
Qed.

(** X7: [validate_receipt_json_structure] passes exactly the receipts
    that hold a string under each of [retailer], [total], [purchaseDate]
    and [purchaseTime] and, under [items], a list that is not empty and
    whose elements are dicts with strings under [shortDescription] and
    [price].  Other keys are free. *)
Theorem validate_structure_accepts (receipt : gmap string json) :
  validate_receipt_json_structure receipt = Ok tt <-> well_formed_receipt receipt.
Proof.
  split.
  - intros Hv.
    destruct (validate_structure_fields _ Hv)
      as (retailer & total & date & time & items & Hr & Ht & Hd & Htm & Hi & Hne & Hchecked).
    split; [exists retailer, total, date, time; auto|].
    exists items. split; [exact Hi|]. split; [exact Hne|].
    eapply Forall_impl; [exact Hchecked|]. intros it Hit. now apply check_item_ok.
  - intros [(retailer & total & date & time & Hr & Ht & Hd & Htm)
            (items & Hi & Hne & Hitems)].
    unfold validate_receipt_json_structure, required_receipt_attributes,
      check_attribute, getitem.
    simpl. rewrite Hr, Ht, Hd, Htm, Hi. simpl.
    destruct items as [|it items]; [congruence|].
    change (Z.of_nat (length (it :: items)) <? 1)
      with (Z.pos (Pos.of_succ_nat (length items)) <? 1).
    replace (Z.pos (Pos.of_succ_nat (length items)) <? 1) with false
      by (symmetry; apply Z.ltb_ge; lia).
    apply for_each_ok. eapply Forall_impl; [exact Hitems|].
    intros it' (d & p & dct & -> & Hdd & Hp).
    unfold check_item, required_item_attributes, getitem. simpl.
    now rewrite Hdd, Hp.
Qed.

(** ** The store after a sequence of requests *)

(** Every entry of the store was there before or is the points of a
    receipt submitted under its id. *)
Lemma store_after_lookup (rs : list request) :
  forall (receipts : gmap string Z) (k : string) (v : Z),
  store_after receipts rs !! k = Some v ->
  receipts !! k = Some v
  \/ exists r, Submit k r ∈ rs /\ validate_and_calculate r = Ok v.
Proof.
  induction rs as [|r0 rs IH]; intros receipts k v H; [now left|].
  change (store_after receipts (r0 :: rs))
    with (store_after (snd (handle receipts r0)) rs) in H.
  apply IH in H as [H | (r & Hin & Hr)].
  2:{ right. exists r. split; [|exact Hr]. apply elem_of_cons. now right. }
  destruct r0 as [id r|id]; [|now left]. simpl in H.
  destruct (validate_and_calculate r) as [p|e] eqn:Hvc.
  - rewrite (process_receipt_ok _ _ _ _ Hvc) in H. simpl in H.
    destruct (decide (id = k)) as [->|Hne].
    + rewrite lookup_insert_eq in H. injection H as ->.
      right. exists r. split; [|exact Hvc]. apply elem_of_cons. now left.
    + rewrite lookup_insert_ne in H by exact Hne. now left.
  - rewrite (process_receipt_raise _ _ _ _ Hvc) in H. now left.
Qed.

Lemma validate_and_calculate_nonneg receipt p :
  validate_and_calculate receipt = Ok p -> 0 <= p.
Proof.
  unfold validate_and_calculate.
  destruct (validate_receipt_json_structure receipt); simpl; [|discriminate].
  apply calculate_points_nonneg.
Qed.

(** X12: the points a receipt earns are never negative, so every answer
    of [get_points] that carries points carries a number that is at
    least 0, after any sequence of requests. *)
Theorem stored_points_nonneg (rs : list request) (receipt_id : string) (points : Z)
    (Hfound : get_points (store_after ∅ rs) receipt_id = Response 200 (BPoints points)) :
  0 <= points.
Proof.
  unfold get_points in Hfound.
  destruct (store_after ∅ rs !! receipt_id) as [v|] eqn:Hv; [|discriminate].
  injection Hfound as ->.
  apply store_after_lookup in Hv as [Hv | (r & _ & Hr)]; [discriminate|].
  now apply validate_and_calculate_nonneg in Hr.
Qed.

Lemma stored_points_nonneg_witness :
  get_points (store_after ∅ [Submit "id-1" walgreens_receipt]) "id-1"
  = Response 200 (BPoints 15)
  /\ 0 <= 15.
Proof.
  assert (H : get_points (store_after ∅ [Submit "id-1" walgreens_receipt]) "id-1"
              = Response 200 (BPoints 15)) by (vm_compute; reflexivity).
  split; [exact H|].
  exact (stored_points_nonneg [Submit "id-1" walgreens_receipt] "id-1" 15 H).
Defined.

(** X13: after any sequence of requests on the empty store, [get_points]
    answers an id in one of two ways.  Either no submission under that id
    was accepted, and the answer is 404 with the message that quotes the
    id; or the answer is 200 with the points of a receipt that was
    submitted under that id and accepted. *)
Theorem get_points_after_requests (rs : list request) (receipt_id : string) :
  (get_points (store_after ∅ rs) receipt_id
   = Response 404 (BError ("ERROR: receipt id not found (" +:+ receipt_id +:+ ")"))
   /\ forall r, Submit receipt_id r ∈ rs -> exists e, validate_and_calculate r = Raise e)
  \/ exists r points,
       Submit receipt_id r ∈ rs
       /\ validate_and_calculate r = Ok points
       /\ get_points (store_after ∅ rs) receipt_id = Response 200 (BPoints points).
Proof.
  unfold get_points.
  destruct (store_after ∅ rs !! receipt_id) as [v|] eqn:Hv.
  - right. apply store_after_lookup in Hv as [Hv | (r & Hin & Hr)]; [discriminate|].
    eauto.
  - left. split; [reflexivity|]. intros r Hin.
    destruct (validate_and_calculate r) as [p|e] eqn:Hr; [|eauto].
    assert (Hsome : is_Some (store_after ∅ rs !! receipt_id)).
    { apply store_after_entries. right. eauto. }
    rewrite Hv in Hsome. now destruct Hsome.
Qed.

(** ** The items, one at a time *)

Lemma score_items_loop_cons it rest points :
  score_items_loop (it :: rest) points
  = (b ← item_points it; score_items_loop rest (points + b)).
Proof.
  unfold item_points. simpl.
  destruct (subscript it "shortDescription") as [vd|]; simpl; [|reflexivity].
  destruct (subscript it "price") as [vp|]; simpl; [|reflexivity].
  destruct (as_str vd) as [d|]; simpl; [|reflexivity].
  destruct (as_str vp) as [pr|]; simpl; [|reflexivity].
  destruct (validate_item d pr) as [[]|]; simpl; [|reflexivity].
  destruct (_ =? 0); simpl; [|now rewrite Z.add_0_r].
  destruct (py_float pr) as [x|]; simpl; [|reflexivity].
  destruct (math_ceil _); reflexivity.
Qed.

Lemma item_points_nonneg it b : item_points it = Ok b -> 0 <= b.
Proof.
  intros H.
  assert (Hc : score_items_loop [it] 0 = Ok (0 + b))
    by (rewrite score_items_loop_cons, H; reflexivity).
  apply score_items_loop_ge in Hc. lia.
Qed.

(** Starting the loop [k] points higher ends it [k] points higher. *)
Lemma score_items_loop_shift items k :
  forall points p,
  score_items_loop items points = Ok p ->
  score_items_loop items (points + k) = Ok (p + k).
Proof.
  induction items as [|it rest IH]; intros points p H.
  - cbn [score_items_loop] in *. now injection H as <-.
  - rewrite score_items_loop_cons in *.
    destruct (item_points it) as [b|]; cbn [mbind result_bind] in *; [|discriminate].
    apply IH in H. now replace (points + k + b) with (points + b + k) by lia.
Qed.

Lemma score_items_loop_app l1 l2 :
  forall points,
  score_items_loop (l1 ++ l2) points
  = (p ← score_items_loop l1 points; score_items_loop l2 p).
Proof.
  induction l1 as [|it rest IH]; intros points; [reflexivity|].
  rewrite <- app_comm_cons, !score_items_loop_cons.
  destruct (item_points it) as [b|]; cbn [mbind result_bind]; [apply IH|reflexivity].
Qed.

Lemma score_items_loop_perm l l' :
  Permutation l l' ->
  forall points p,
  score_items_loop l points = Ok p -> score_items_loop l' points = Ok p.
Proof.
  induction 1 as [|x l l' _ IH|x y l|l l' l'' _ IH1 _ IH2]; intros points p H.
  - exact H.
  - rewrite score_items_loop_cons in *.
    destruct (item_points x) as [b|]; cbn [mbind result_bind] in *; [now apply IH|discriminate].
  - rewrite score_items_loop_cons in H.
    destruct (item_points y) as [b1|] eqn:Hy; cbn [mbind result_bind] in H; [|discriminate].
    rewrite score_items_loop_cons in H.
    destruct (item_points x) as [b2|] eqn:Hx; cbn [mbind result_bind] in H; [|discriminate].
    rewrite score_items_loop_cons, Hx. cbn [mbind result_bind].
    rewrite score_items_loop_cons, Hy. cbn [mbind result_bind].
    now replace (points + b2 + b1) with (points + b1 + b2) by lia.
  - now apply IH2, IH1.
Qed.

(** X15: the points of the items do not depend on their order: a list
    that [score_items] scores gets the same points in any other order. *)
Theorem score_items_any_order (items items' : list json) (points : Z)
    (Hperm : Permutation items items')
    (Hscored : score_items items = Ok points) :
  score_items items' = Ok points.
Proof.
  unfold score_items in *. rewrite <- (Permutation_length Hperm).
  now apply (score_items_loop_perm _ _ Hperm).
Qed.

Lemma score_items_any_order_witness :
  Permutation [item "Pepsi - 12-oz" "1.25"; item "Dasani" "1.40"]
              [item "Dasani" "1.40"; item "Pepsi - 12-oz" "1.25"]
  /\ score_items [item "Pepsi - 12-oz" "1.25"; item "Dasani" "1.40"] = Ok 6
  /\ score_items [item "Dasani" "1.40"; item "Pepsi - 12-oz" "1.25"] = Ok 6.
Proof.
  assert (H : score_items [item "Pepsi - 12-oz" "1.25"; item "Dasani" "1.40"] = Ok 6)
    by (vm_compute; reflexivity).
  split; [apply perm_swap|]. split; [exact H|].
  exact (score_items_any_order _ _ 6 (perm_swap _ _ _) H).
Defined.

(** X16: one more item never lowers the points of the items: when a list
    is scored, and scored again with an item put in at any place, the
    second score is at least the first. *)
Theorem score_items_grows (before after : list json) (it : json) (points points' : Z)
    (Hscored : score_items (before ++ after) = Ok points)
    (Hscored' : score_items (before ++ it :: after) = Ok points') :
  points <= points'.
Proof.
  unfold score_items in *. rewrite score_items_loop_app in *.
  rewrite !length_app in *. cbn [length] in Hscored'.
  set (n := (length before + length after)%nat) in *.
  replace (length before + S (length after))%nat with (S n) in Hscored' by lia.
  set (P0 := Z.of_nat n / 2 * POINTS_ITEMS_COUNT) in *.
  set (P1 := Z.of_nat (S n) / 2 * POINTS_ITEMS_COUNT) in *.
  assert (Hle : P0 <= P1).
  { subst P0 P1. unfold POINTS_ITEMS_COUNT.
    assert (Z.of_nat n / 2 <= Z.of_nat (S n) / 2) by (apply Z.div_le_mono; lia). lia. }
  destruct (score_items_loop before P0) as [a|] eqn:Ha; cbn [mbind result_bind] in Hscored; [|discriminate].
  apply (score_items_loop_shift _ (P1 - P0)) in Ha.
  replace (P0 + (P1 - P0)) with P1 in Ha by lia. rewrite Ha in Hscored'. cbn [mbind result_bind] in Hscored'.
  rewrite score_items_loop_cons in Hscored'.
  destruct (item_points it) as [b|] eqn:Hb; cbn [mbind result_bind] in Hscored'; [|discriminate].
  apply item_points_nonneg in Hb.
  apply (score_items_loop_shift _ (P1 - P0 + b)) in Hscored.
  replace (a + (P1 - P0 + b)) with (a + (P1 - P0) + b) in Hscored by lia.
  rewrite Hscored in Hscored'. injection Hscored' as <-. lia.
Qed.

Lemma score_items_grows_witness :
  score_items ([item "Pepsi - 12-oz" "1.25"] ++ [item "Dasani" "1.40"]) = Ok 6
  /\ score_items ([item "Pepsi - 12-oz" "1.25"] ++ item "Emils Cheese Pizza" "12.25"
                   :: [item "Dasani" "1.40"]) = Ok 9
  /\ 6 <= 9.
Proof.
  assert (H1 : score_items ([item "Pepsi - 12-oz" "1.25"] ++ [item "Dasani" "1.40"]) = Ok 6)
    by (vm_compute; reflexivity).
  assert (H2 : score_items ([item "Pepsi - 12-oz" "1.25"] ++ item "Emils Cheese Pizza" "12.25"
                              :: [item "Dasani" "1.40"]) = Ok 9)
    by (vm_compute; reflexivity).
  split; [exact H1|]. split; [exact H2|].
  exact (score_items_grows _ _ _ 6 9 H1 H2).
Defined.

(** ** The date and the time come last *)

Lemma check_attribute_not_purchase receipt a msg :
  a ∈ required_receipt_attributes ->
  check_attribute receipt a = Raise (ValueError msg) ->
  String.prefix PURCHASE_ERROR_PREFIX msg = false.
Proof.
  intros Ha. unfold check_attribute.
  destruct (receipt !! a) as [v|].
  - destruct (negb _ && negb _); [|discriminate]. intros [= <-].
    unfold required_receipt_attributes in Ha.
    repeat (apply elem_of_cons in Ha as [->|Ha]; [reflexivity|]).
    now apply elem_of_nil in Ha.
  - intros [= <-]. reflexivity.
Qed.

(** No message of the structure validation is about the purchase date
    or time. *)
Lemma validate_structure_not_purchase receipt msg :
  validate_receipt_json_structure receipt = Raise (ValueError msg) ->
  String.prefix PURCHASE_ERROR_PREFIX msg = false.
Proof.
  unfold validate_receipt_json_structure.
  destruct (for_each required_receipt_attributes (check_attribute receipt))
    as [[]|e] eqn:Hattrs; simpl.
  - unfold getitem. destruct (receipt !! "items") as [v|]; simpl; [|discriminate].
    destruct v; try (intros [= <-]; reflexivity).
    destruct (_ <? 1); [intros [= <-]; reflexivity|].
    intros H. apply for_each_raise in H as (it & _ & H).
    apply check_item_outcome in H as [[= ->] | (k & _ & [=])]. reflexivity.
  - intros [= ->]. apply for_each_raise in Hattrs as (a & Ha & H).
    now apply check_attribute_not_purchase in H.
Qed.

(** X11: an error about the purchase date or the purchase time is the
    answer only when everything else passed: the structure validation,
    the retailer, the total and every item.  The time is judged only
    after the date was read. *)
Theorem date_time_judged_last (receipt : gmap string json) (msg : string)
    (Hraised : validate_and_calculate receipt = Raise (ValueError msg))
    (Hpurchase : String.prefix PURCHASE_ERROR_PREFIX msg = true) :
  validate_receipt_json_structure receipt = Ok tt
  /\ exists retailer total items date time points_r points_t points_i,
       receipt !! "retailer" = Some (JStr retailer)
       /\ score_retailer retailer = Ok points_r
       /\ receipt !! "total" = Some (JStr total)
       /\ score_total total = Ok points_t
       /\ receipt !! "items" = Some (JList items)
       /\ score_items items = Ok points_i
       /\ receipt !! "purchaseDate" = Some (JStr date)
       /\ receipt !! "purchaseTime" = Some (JStr time)
       /\ ((strptime_date date = None
            /\ msg = "Error: invalid receipt purchase date (" +:+ date +:+ ")")
           \/ (is_Some (strptime_date date) /\ strptime_time time = None
               /\ msg = "Error: invalid receipt purchase time (" +:+ time +:+ ")")).
Proof.
  unfold validate_and_calculate in Hraised.
  destruct (validate_receipt_json_structure receipt) as [[]|e] eqn:Hv; simpl in Hraised.
  2:{ injection Hraised as ->. apply validate_structure_not_purchase in Hv. congruence. }
  split; [reflexivity|].
  destruct (validate_structure_fields _ Hv)
    as (retailer & total & date & time & items & Hr & Ht & Hd & Htm & Hi & _ & Hchecked).
  rewrite (calculate_points_fields _ _ _ _ _ _ Hr Ht Hd Htm Hi) in Hraised.
  destruct (score_retailer retailer) as [pr|e'] eqn:Hsr; simpl in Hraised.
  2:{ injection Hraised as ->. apply score_retailer_outcome in Hsr as [= ->].
      discriminate Hpurchase. }
  destruct (score_total total) as [pt|e'] eqn:Hst; simpl in Hraised.
  2:{ injection Hraised as ->. apply score_total_outcome in Hst as [[= ->] | [=]].
      discriminate Hpurchase. }
  destruct (score_items items) as [pi|e'] eqn:Hsi; simpl in Hraised.
  2:{ injection Hraised as ->.
      apply (score_items_loop_outcome _ Hchecked) in Hsi
        as [[v [= ->]] | [[v [= ->]] | [=]]]; discriminate Hpurchase. }
  exists retailer, total, items, date, time, pr, pt, pi.
  repeat (split; [first [assumption|reflexivity]|]).
  unfold score_date_time, validate_and_parse_date_time in Hraised.
  destruct (strptime_date date) as [date_obj|]; simpl in Hraised.
  - destruct (strptime_time time) as [time_obj|]; simpl in Hraised; [discriminate|].
    injection Hraised as <-. right. eauto.
  - injection Hraised as <-. now left.
Qed.

Lemma date_time_judged_last_witness :
  validate_and_calculate (receipt "Target" "2022-01-02" "13:99" "1.25"
                            [ item "Pepsi - 12-oz" "1.25" ])
  = Raise (ValueError "Error: invalid receipt purchase time (13:99)")
  /\ validate_receipt_json_structure (receipt "Target" "2022-01-02" "13:99" "1.25"
                                        [ item "Pepsi - 12-oz" "1.25" ]) = Ok tt.
Proof.
  assert (H : validate_and_calculate (receipt "Target" "2022-01-02" "13:99" "1.25"
                                        [ item "Pepsi - 12-oz" "1.25" ])
              = Raise (ValueError "Error: invalid receipt purchase time (13:99)"))
    by (vm_compute; reflexivity).
  split; [exact H|].
  exact (proj1 (date_time_judged_last _ _ H eq_refl)).
Defined.

(** ** Whitespace around a description *)

Lemma lstrip_all_space w s : forallb isspace w = true -> lstrip (w ++ s) = lstrip s.
Proof.
  induction w as [|c w IH]; simpl; [reflexivity|].
  intros H. apply andb_true_iff in H as [-> H]. now apply IH.
Qed.

Lemma lstrip_nil s : lstrip s = [] -> forallb isspace s = true.
Proof.
  induction s as [|c s IH]; simpl; [reflexivity|].
  destruct (isspace c); [exact IH|discriminate].
Qed.

Lemma lstrip_app s w : lstrip s <> [] -> lstrip (s ++ w) = lstrip s ++ w.
Proof.
  induction s as [|c s IH]; simpl; [congruence|].
  destruct (isspace c); [exact IH|reflexivity].
Qed.

Lemma forallb_rev {A} (p : A -> bool) l : forallb p (rev l) = forallb p l.
Proof.
  induction l as [|x l IH]; simpl; [reflexivity|].
  rewrite forallb_app, IH. simpl. rewrite andb_true_r. apply andb_comm.
Qed.

Lemma strip_surrounding w1 s w2 :
  forallb isspace w1 = true -> forallb isspace w2 = true ->
  strip (w1 ++ s ++ w2) = strip s.
Proof.
  intros H1 H2. unfold strip. rewrite (lstrip_all_space _ _ H1).
  destruct (lstrip s) as [|c t] eqn:Hs.
  - apply lstrip_nil in Hs.
    rewrite <- (app_nil_r (s ++ w2)), <- app_assoc, (lstrip_all_space s), lstrip_all_space;
      [reflexivity|exact H2|exact Hs].
  - rewrite lstrip_app by congruence. rewrite Hs, rev_app_distr.
    rewrite lstrip_all_space; [reflexivity|]. now rewrite forallb_rev.
Qed.

Lemma space_description_char c : isspace c = true -> description_char c = true.
Proof. unfold description_char. intros ->. apply orb_true_iff. left. apply orb_true_r. Qed.

Lemma item_lookup description price :
  item_fields (item description price) description price.
Proof. eexists. split; [reflexivity|]. split; reflexivity. Qed.

Lemma item_points_fields it description price :
  item_fields it description price ->
  item_points it =
  (_ ← validate_item description price;
   if Z.of_nat (length (strip (chars description)))
        mod REWARD_ITEM_DESCRIPTION_LENGTH_FACTOR =? 0
   then parsed ← py_float price; math_ceil (fmul parsed POINTS_ITEM_DESCRIPTION)
   else Ok 0).
Proof.
  intros (d & -> & Hd & Hp). unfold item_points, subscript, getitem.
  rewrite Hd, Hp. reflexivity.
Qed.

(** X17: whitespace around an accepted description changes nothing: the
    description is accepted with it, and the receipt's items get the
    same points, because the length that earns the bonus is taken after
    [strip]. *)
Theorem description_surrounding_whitespace (description price w1 w2 : string)
    (before after : list json)
    (Hw1 : forallb isspace (chars w1) = true)
    (Hw2 : forallb isspace (chars w2) = true)
    (Haccepted : validate_item description price = Ok tt) :
  validate_item (w1 +:+ description +:+ w2) price = Ok tt
  /\ score_items (before ++ item (w1 +:+ description +:+ w2) price :: after)
     = score_items (before ++ item description price :: after).
Proof.
  assert (Hd : re_match RE_DESCRIPTION description = true).
  { unfold validate_item in Haccepted.
    destruct (re_match RE_DESCRIPTION description); [reflexivity|discriminate]. }
  assert (Hd' : re_match RE_DESCRIPTION (w1 +:+ description +:+ w2) = true).
  { apply re_match_description in Hd as [Hne Hall].
    apply re_match_description. rewrite !chars_append. split.
    - destruct (chars w1); [|discriminate]. destruct (chars description); [congruence|discriminate].
    - rewrite !forallb_app, Hall.
      rewrite (proj2 (forallb_forall _ _)), (proj2 (forallb_forall _ _)); [reflexivity| |];
        intros c Hc; apply space_description_char;
        [exact (proj1 (forallb_forall _ _) Hw2 c Hc)|exact (proj1 (forallb_forall _ _) Hw1 c Hc)]. }
  assert (Hv : validate_item (w1 +:+ description +:+ w2) price = Ok tt).
  { unfold validate_item in *. rewrite Hd in Haccepted. rewrite Hd'. exact Haccepted. }
  split; [exact Hv|].
  assert (Hp : item_points (item (w1 +:+ description +:+ w2) price)
               = item_points (item description price)).
  { rewrite (item_points_fields _ _ _ (item_lookup _ _)).
    rewrite (item_points_fields _ _ _ (item_lookup description price)).
    rewrite Hv, Haccepted, !chars_append, strip_surrounding by assumption.
    reflexivity. }
  unfold score_items. rewrite !length_app. cbn [length].
  rewrite !score_items_loop_app.
  destruct (score_items_loop before _) as [a|]; cbn [mbind result_bind]; [|reflexivity].
  rewrite !score_items_loop_cons, Hp. reflexivity.
Qed.

Lemma description_surrounding_whitespace_witness :
  validate_item "   Klarbrunn 12-PK 12 FL OZ  " "12.00" = Ok tt
  /\ score_items [item "   Klarbrunn 12-PK 12 FL OZ  " "12.00"]
     = score_items [item "Klarbrunn 12-PK 12 FL OZ" "12.00"].
Proof.
  exact (description_surrounding_whitespace "Klarbrunn 12-PK 12 FL OZ" "12.00" "   " "  "
           [] [] eq_refl eq_refl eq_refl).
Defined.

(** ** The checks on the list of items *)

Lemma attributes_checked receipt :
  for_each required_receipt_attributes (check_attribute receipt) = Ok tt
  <-> string_attributes receipt /\ is_Some (receipt !! "items").
Proof.
  unfold required_receipt_attributes, check_attribute, string_attributes. simpl.
  split.
  - destruct (receipt !! "retailer") as [[| | | |retailer| |]|]; simpl; try discriminate.
    destruct (receipt !! "total") as [[| | | |total| |]|]; simpl; try discriminate.
    destruct (receipt !! "items") as [items|]; simpl; try discriminate.
    destruct (receipt !! "purchaseDate") as [[| | | |date| |]|]; simpl; try discriminate.
    destruct (receipt !! "purchaseTime") as [[| | | |time| |]|]; simpl; try discriminate.
    intros _. split; [exists retailer, total, date, time; auto|eauto].
  - intros [(retailer & total & date & time & -> & -> & -> & ->) [items ->]]. reflexivity.
Qed.

Lemma attribute_error_not_items receipt a msg :
  a ∈ required_receipt_attributes ->
  check_attribute receipt a = Raise (ValueError msg) ->
  String.prefix "Error: invalid receipt item" msg = false
  /\ msg <> "Error: receipt items list is empty".
Proof.
  intros Ha. unfold check_attribute.
  destruct (receipt !! a) as [v|].
  - destruct (negb _ && negb _); [|discriminate]. intros [= <-].
    unfold required_receipt_attributes in Ha.
    repeat (apply elem_of_cons in Ha as [->|Ha]; [split; [reflexivity|discriminate]|]).
    now apply elem_of_nil in Ha.
  - intros [= <-]. split; [reflexivity|discriminate].
Qed.

(** X8: the two errors about the list of items are raised only after all
    five attributes were found and the four others are strings.  Then a
    value under [items] that is not a list gives the list format error,
    and the empty list gives the empty list error; and these are the
    only receipts that get them. *)
Theorem items_list_errors (receipt : gmap string json) :
  (validate_receipt_json_structure receipt
   = Raise (ValueError "Error: invalid receipt items list format")
   <-> string_attributes receipt
       /\ exists v, receipt !! "items" = Some v /\ forall l, v <> JList l)
  /\ (validate_receipt_json_structure receipt
      = Raise (ValueError "Error: receipt items list is empty")
      <-> string_attributes receipt /\ receipt !! "items" = Some (JList [])).
Proof.
  unfold validate_receipt_json_structure.
  pose proof (attributes_checked receipt) as Hattrs.
  destruct (for_each required_receipt_attributes (check_attribute receipt))
    as [[]|e] eqn:Hloop.
  - destruct (proj1 Hattrs eq_refl) as [Hstr [v Hv]].
    unfold getitem. rewrite Hv. simpl.
    destruct v as [| | | | |l|d];
      try (split; (split; [intros _; split; [exact Hstr|]; eexists; split; [reflexivity|discriminate]
                          |reflexivity])
                  || (split; [discriminate|intros [_ [=]]])).
    destruct l as [|it l].
    + simpl. split; split.
      * discriminate.
      * intros (_ & v & [= <-] & Hv'). now destruct (Hv' []).
      * intros _. split; [exact Hstr|reflexivity].
      * reflexivity.
    + change (Z.of_nat (length (it :: l)) <? 1)
        with (Z.pos (Pos.of_succ_nat (length l)) <? 1).
      replace (Z.pos (Pos.of_succ_nat (length l)) <? 1) with false
        by (symmetry; apply Z.ltb_ge; lia).
      split; split.
      * intros H. apply for_each_raise in H as (x & _ & H).
        apply check_item_outcome in H as [[=] | (k & _ & [=])].
      * intros (_ & v & [= <-] & Hv'). now destruct (Hv' (it :: l)).
      * intros H. apply for_each_raise in H as (x & _ & H).
        apply check_item_outcome in H as [[=] | (k & _ & [=])].
      * intros [_ [=]].
  - simpl.
    assert (Hnot : ~ (string_attributes receipt /\ is_Some (receipt !! "items"))).
    { intros H. apply Hattrs in H. discriminate H. }
    apply for_each_raise in Hloop as (a & Ha & Hc).
    split; split.
    + intros [= ->]. apply (attribute_error_not_items _ _ _ Ha) in Hc as [Hc _].
      discriminate Hc.
    + intros (Hs & v & Hv & _). destruct Hnot. split; [exact Hs|eauto].
    + intros [= ->]. apply (attribute_error_not_items _ _ _ Ha) in Hc as [_ Hc].
      congruence.
    + intros (Hs & Hv). destruct Hnot. split; [exact Hs|eauto].
Qed.

(** ** An item that lacks a key *)

(** X9: an item that is a dict and lacks [shortDescription], or has a
    string there and lacks [price], is not answered with 400: when the
    four string attributes are there and the items before it are well
    formed, the [KeyError] of the first missing key leaves the handler,
    and the store is as before. *)
Theorem item_missing_key_unhandled (receipts : gmap string Z) (receipt_id : string)
    (receipt : gmap string json) (before after : list json)
    (d : gmap string json) (key : string)
    (Hattributes : string_attributes receipt)
    (Hitems : receipt !! "items" = Some (JList (before ++ JDict d :: after)))
    (Hbefore : Forall (fun it => exists description price,
                         item_fields it description price) before)
    (Hkey : (key = "shortDescription" /\ d !! "shortDescription" = None)
            \/ (key = "price"
                /\ (exists s, d !! "shortDescription" = Some (JStr s))
                /\ d !! "price" = None)) :
  process_receipt receipts receipt_id receipt = (Unhandled (KeyError key), receipts).
Proof.
  assert (Hv : validate_receipt_json_structure receipt = Raise (KeyError key)).
  { unfold validate_receipt_json_structure.
    rewrite (proj2 (attributes_checked receipt)) by (split; [exact Hattributes|eauto]).
    simpl. unfold getitem. rewrite Hitems. simpl.
    replace (Z.of_nat (length (before ++ JDict d :: after)) <? 1) with false
      by (symmetry; apply Z.ltb_ge; rewrite length_app; simpl; lia).
    apply for_each_first_failure.
    - eapply Forall_impl; [exact Hbefore|].
      intros it (ds & p & dct & -> & Hdd & Hp).
      unfold check_item, required_item_attributes, getitem. simpl.
      now rewrite Hdd, Hp.
    - unfold check_item, required_item_attributes, getitem. simpl.
      destruct Hkey as [[-> ->] | (-> & [s ->] & ->)]; reflexivity. }
  unfold process_receipt, validate_and_calculate. rewrite Hv. reflexivity.
Qed.

Lemma item_missing_key_unhandled_witness :
  process_receipt ∅ "id-1"
    (receipt "Target" "2022-01-02" "13:13" "1.25"
       [ item "Dasani" "1.40"; JDict {[ "shortDescription" := JStr "Pepsi - 12-oz" ]} ])
  = (Unhandled (KeyError "price"), ∅).
Proof.
  apply (item_missing_key_unhandled ∅ "id-1" _ [item "Dasani" "1.40"] []
           {[ "shortDescription" := JStr "Pepsi - 12-oz" ]} "price").
  - exists "Target", "1.25", "2022-01-02", "13:13". repeat split; reflexivity.
  - reflexivity.
  - apply Forall_cons. split; [|apply Forall_nil_2].
    exists "Dasani", "1.40". apply item_lookup.
  - right. split; [reflexivity|]. split; [eexists|]; reflexivity.
Defined.

(** ** Dates and times as they are usually written *)

Lemma range_cases (P : Z -> Prop) (lo : Z) (n : nat) :
  Forall P (map (fun k => lo + Z.of_nat k) (seq 0 n)) ->
  forall z, lo <= z < lo + Z.of_nat n -> P z.
Proof.
  intros H z Hz. rewrite Forall_forall in H. apply H.
  apply list_elem_of_In, in_map_iff. exists (Z.to_nat (z - lo)).
  split; [lia|]. apply in_seq. lia.
Qed.

(** Case analysis on a number in a short range *)
Ltac by_range n :=
  match goal with
  | |- forall z, ?lo <= z < _ -> @?P z =>
      apply (range_cases P lo n); cbn [seq map];
      repeat apply Forall_cons_2; try apply Forall_nil_2
  end.

Lemma digit_char_ord n :
  0 <= n <= 9 -> ord (digit_char n) = 48 + n /\ digit_value (digit_char n) = n.
Proof.
  intros Hn. assert (H : 0 <= n < 0 + Z.of_nat 10) by lia. clear Hn.
  revert n H. apply range_cases. simpl. repeat constructor.
Qed.

Lemma p_digit_char lo hi n t :
  0 <= n <= 9 ->
  p_digit lo hi (digit_char n :: t)
  = if (lo <=? n) && (n <=? hi) then [(n, t)] else [].
Proof.
  intros Hn. destruct (digit_char_ord n Hn) as [Ho Hv].
  unfold p_digit, in_range. rewrite Ho, Hv.
  destruct (Z.leb_spec lo n), (Z.leb_spec n hi),
    (Z.leb_spec (48 + lo) (48 + n)), (Z.leb_spec (48 + n) (48 + hi));
    try lia; reflexivity.
Qed.

Lemma p_two_digits lo1 hi1 lo2 hi2 n t :
  0 <= n <= 99 ->
  p_two lo1 hi1 lo2 hi2 (chars (two_digits n) ++ t)
  = if (lo1 <=? n / 10) && (n / 10 <=? hi1) && ((lo2 <=? n mod 10) && (n mod 10 <=? hi2))
    then [(n, t)] else [].
Proof.
  intros Hn. unfold p_two, p_bind, two_digits. cbn [chars list_ascii_of_string app].
  assert (Hq : 0 <= n / 10 <= 9) by (Z.div_mod_to_equations; lia).
  assert (Hr : 0 <= n mod 10 <= 9) by (Z.div_mod_to_equations; lia).
  rewrite (p_digit_char _ _ _ _ Hq).
  destruct ((lo1 <=? n / 10) && (n / 10 <=? hi1)); [|reflexivity].
  cbn [flat_map fst snd]. rewrite (p_digit_char _ _ _ _ Hr).
  destruct ((lo2 <=? n mod 10) && (n mod 10 <=? hi2)); [|reflexivity].
  cbn [flat_map fst snd p_ret app andb].
  now rewrite (Z.div_mod n 10) at 3 by lia.
Qed.

Lemma p_Y_four_digits y t :
  0 <= y <= 9999 -> p_Y (chars (four_digits y) ++ t) = [(y, t)].
Proof.
  intros Hy. unfold p_Y, p_bind, four_digits.
  assert (Hq : 0 <= y / 100 <= 99) by (Z.div_mod_to_equations; lia).
  assert (Hr : 0 <= y mod 100 <= 99) by (Z.div_mod_to_equations; lia).
  assert (Hin : forall n, 0 <= n <= 99 ->
                (0 <=? n / 10) && (n / 10 <=? 9) && ((0 <=? n mod 10) && (n mod 10 <=? 9)) = true).
  { intros n Hn. rewrite !andb_true_iff, !Z.leb_le. Z.div_mod_to_equations. lia. }
  rewrite chars_append, <- app_assoc, (p_two_digits _ _ _ _ _ _ Hq), (Hin _ Hq).
  cbn [flat_map fst snd]. rewrite (p_two_digits _ _ _ _ _ _ Hr), (Hin _ Hr).
  cbn [flat_map fst snd p_ret app].
  now rewrite (Z.div_mod y 100) at 3 by lia.
Qed.

Lemma date_digits y m d :
  0 <= y <= 9999 -> 1 <= m <= 12 -> 1 <= d <= 31 ->
  first_full
    (p_bind p_Y (fun y => p_bind (p_lit "-") (fun _ =>
     p_bind p_m (fun m => p_bind (p_lit "-") (fun _ =>
     p_bind p_d (fun d => p_ret (y, m, d)))))))
    (iso_date y m d)
  = Some (y, m, d).
Proof.
  intros Hy Hm Hd. unfold first_full, iso_date. rewrite chars_append.
  unfold p_bind at 1. rewrite (p_Y_four_digits _ _ Hy). cbn [flat_map fst snd].
  assert (Hm' : 1 <= m < 1 + Z.of_nat 12) by lia.
  assert (Hd' : 1 <= d < 1 + Z.of_nat 31) by lia.
  clear Hm Hd. revert d Hd'. revert m Hm'.
  by_range 12%nat; by_range 31%nat; vm_compute; reflexivity.
Qed.

Lemma strptime_time_digits h mi :
  0 <= h <= 23 -> 0 <= mi <= 59 ->
  strptime_time (clock_time h mi)
  = Some {| year := 1900; month := 1; day := 1; hour := h; minute := mi |}.
Proof.
  intros Hh Hmi.
  assert (Hh' : 0 <= h < 0 + Z.of_nat 24) by lia.
  assert (Hmi' : 0 <= mi < 0 + Z.of_nat 60) by lia.
  clear Hh Hmi. revert mi Hmi'. revert h Hh'.
  by_range 24%nat; by_range 60%nat; vm_compute; reflexivity.
Qed.

Lemma strptime_date_digits y m d :
  0 <= y <= 9999 -> 1 <= m <= 12 -> 1 <= d <= 31 ->
  strptime_date (iso_date y m d)
  = if (1 <=? y) && (d <=? days_in_month y m)
    then Some {| year := y; month := m; day := d; hour := 0; minute := 0 |}
    else None.
Proof.
  intros Hy Hm Hd. unfold strptime_date.
  now rewrite (date_digits _ _ _ Hy Hm Hd).
Qed.

(** X18: a date written YYYY-MM-DD and a time written HH:MM, with the
    month, the day, the hour and the minute in their ranges, are read as
    written.  A day the month has earns 6 points when it is odd, and the
    hours 14 and 15 earn 10; a day the month does not have (30 February,
    29 February outside leap years, 31 April) is refused as a purchase
    date, and so is the year 0. *)
Theorem score_date_time_as_written (y m d h mi : Z)
    (Hy : 0 <= y <= 9999) (Hm : 1 <= m <= 12) (Hd : 1 <= d <= 31)
    (Hh : 0 <= h <= 23) (Hmi : 0 <= mi <= 59) :
  score_date_time (iso_date y m d) (clock_time h mi)
  = if (1 <=? y) && (d <=? days_in_month y m)
    then Ok ((if d mod 2 =? 0 then 0 else POINTS_ODD_PURCHASE_DAY)
             + (if (14 <=? h) && (h <? 16) then POINTS_VALID_PURCHASE_HOUR else 0))
    else Raise (ValueError ("Error: invalid receipt purchase date ("
                            +:+ iso_date y m d +:+ ")")).
Proof.
  unfold score_date_time, validate_and_parse_date_time.
  rewrite (strptime_date_digits _ _ _ Hy Hm Hd).
  destruct ((1 <=? y) && (d <=? days_in_month y m)); [|reflexivity].
  rewrite (strptime_time_digits _ _ Hh Hmi). simpl.
  unfold REWARD_HOUR_START, REWARD_HOUR_END.
  destruct (d mod 2 =? 0), ((14 <=? h) && (h <? 16)); reflexivity.
Qed.

Lemma score_date_time_as_written_witness :
  score_date_time "2022-03-20" "14:33" = Ok 10
  /\ score_date_time "2023-02-29" "14:33"
     = Raise (ValueError "Error: invalid receipt purchase date (2023-02-29)").
Proof.
  split.
  - exact (score_date_time_as_written 2022 3 20 14 33
             ltac:(lia) ltac:(lia) ltac:(lia) ltac:(lia) ltac:(lia)).
  - exact (score_date_time_as_written 2023 2 29 14 33
             ltac:(lia) ltac:(lia) ltac:(lia) ltac:(lia) ltac:(lia)).
Defined.

(** ** The store only grows *)

(** X14: no request removes an entry of the store: the ids in it stay in
    it through any sequence of requests, and an id that is not issued
    again keeps its points. *)
Theorem store_only_grows (receipts : gmap string Z) (rs : list request) :
  dom receipts ⊆ dom (store_after receipts rs)
  /\ forall k v, receipts !! k = Some v -> k ∉ issued_ids rs ->
                 store_after receipts rs !! k = Some v.
Proof.
  split.
  - intros k Hk. apply elem_of_dom in Hk. apply elem_of_dom.
    apply store_after_entries. now left.
  - intros k v Hv Hk. now rewrite store_after_other.
Qed.

(** * Valid receipts, failed submissions and the order of the checks *)

(** ** Amounts in the range of a float *)

Lemma quotient_digits m' D :
  60 <= D -> 2 ^ (D - 1) <= m' < 2 ^ D ->
  exists k, (k = D - 60 \/ k = D - 59)
            /\ Zdigits2 (m' / 100) = prec + k
            /\ 0 < m' / 100 < 2 ^ (prec + k).
Proof.
  intros HD Hm.
  pose proof (Z.div_mod m' 100 ltac:(lia)) as Hdm.
  pose proof (Z.mod_pos_bound m' 100 ltac:(lia)) as Hmb.
  set (q := m' / 100) in *. set (r := m' mod 100) in *.
  assert (HY : 0 < 2 ^ (D - 8)) by pow2_pos.
  assert (E1 : 2 ^ (D - 1) = 128 * 2 ^ (D - 8)).
  { replace (D - 1) with (7 + (D - 8)) by lia. now rewrite Z.pow_add_r by lia. }
  assert (E2 : 2 ^ D = 256 * 2 ^ (D - 8)).
  { replace D with (8 + (D - 8)) at 1 by lia. now rewrite Z.pow_add_r by lia. }
  assert (E3 : 2 ^ (D - 7) = 2 * 2 ^ (D - 8)).
  { replace (D - 7) with (1 + (D - 8)) by lia. now rewrite Z.pow_add_r by lia. }
  assert (E4 : 2 ^ (D - 6) = 4 * 2 ^ (D - 8)).
  { replace (D - 6) with (2 + (D - 8)) by lia. now rewrite Z.pow_add_r by lia. }
  set (Y := 2 ^ (D - 8)) in *.
  assert (Hq : Y <= q < 4 * Y) by lia.
  unfold prec.
  destruct (Z_lt_le_dec q (2 * Y)) as [Hlt|Hge].
  - exists (D - 60). split; [now left|].
    replace (53 + (D - 60)) with (D - 7) by lia. split; [|lia].
    apply Zdigits2_unique; [lia|]. replace (D - 7 - 1) with (D - 8) by lia.
    fold Y. lia.
  - exists (D - 59). split; [now right|].
    replace (53 + (D - 59)) with (D - 6) by lia. split; [|lia].
    apply Zdigits2_unique; [lia|]. replace (D - 6 - 1) with (D - 7) by lia.
    lia.
Qed.

(** The float of an amount of [n] cents in range is a normal float. *)
Lemma fdiv_normal n :
  0 < n < FLOAT_RANGE_CENTS -> normal_float (fdiv (SF_of_Z n) (SF_of_Z 100)).
Proof.
  unfold FLOAT_RANGE_CENTS. intros Hn.
  destruct n as [|pn|pn]; try lia.
  unfold fdiv, SF_of_Z, SFdiv, SFdiv_core_binary.
  change (Zdigits2 100) with 7. simpl xorb.
  set (n := Z.pos pn) in *.
  pose proof (Zdigits2_bounds n ltac:(lia)) as Hd1.
  set (d1 := Zdigits2 n) in *.
  assert (Hd1r : 1 <= d1 <= 1031).
  { split.
    - subst d1 n. simpl. lia.
    - destruct (Z_le_gt_dec d1 1031); [assumption|].
      assert (2 ^ 1031 <= 2 ^ (d1 - 1)) by (apply Z.pow_le_mono_r; lia).
      assert (100 * 2 ^ 1024 < 2 ^ 1031) by (vm_compute; reflexivity).
      assert (0 < 2 ^ 970) by pow2_pos. lia. }
  rewrite (fexp_normal (d1 + 0 - (7 + 0))) by (unfold prec, emax; lia).
  set (s := Z.max (60 - d1) 0).
  replace (Z.min (d1 + 0 - (7 + 0) - prec) (0 - 0)) with (- s) by (unfold prec; lia).
  replace (0 - 0 - - s) with s by lia.
  assert (Hs : 0 <= s <= 59) by lia.
  assert (Hm' : match s with
                | 0 => n
                | Z.pos _ => Z.shiftl n s
                | Z.neg _ => 0
                end = n * 2 ^ s).
  { destruct s; try lia. apply Z.shiftl_mul_pow2. lia. }
  rewrite Hm'. clear Hm'.
  set (D := d1 + s).
  assert (HD : 60 <= D <= 1031) by lia.
  assert (Hm'b : 2 ^ (D - 1) <= n * 2 ^ s < 2 ^ D).
  { unfold D. replace (d1 + s - 1) with (d1 - 1 + s) by lia.
    rewrite !Z.pow_add_r by lia.
    assert (0 < 2 ^ s) by pow2_pos. nia. }
  set (m' := n * 2 ^ s) in *.
  destruct (quotient_digits m' D ltac:(lia) Hm'b) as (k & Hk & Hdig & Hqb).
  pose proof (Z.div_mod m' 100 ltac:(lia)) as Hdm.
  pose proof (Z.mod_pos_bound m' 100 ltac:(lia)) as Hmb.
  assert (Hdiv : Z.div_eucl m' 100 = (m' / 100, m' mod 100)).
  { unfold Z.div, Z.modulo. now destruct (Z.div_eucl m' 100). }
  rewrite Hdiv. clear Hdiv.
  set (q := m' / 100) in *. set (r := m' mod 100) in *.
  destruct (binary_round_aux_normal q (- s) (new_location 100 r) r 100 k)
    as [Hmb2 Hround]; try assumption; try lia.
  { now apply new_location_100. }
  { unfold prec, emax; lia. }
  replace (q * 100 + r) with m' in * by lia.
  set (m := rne m' (2 ^ k * 100)) in *.
  rewrite Hround. unfold normal_float.
  (* the exponent stays below the largest one *)
  assert (Hk971 : - s + k <= 971 /\ (m = 2 ^ 53 -> - s + k + 1 <= 971)).
  { destruct (Z_lt_le_dec d1 60) as [Hsmall|Hbig]; [lia|].
    assert (Es : s = 0) by lia.
    assert (En : m' = n) by (unfold m'; rewrite Es, Z.pow_0_r; lia).
    assert (Hq1024 : q < 2 ^ 1024).
    { assert (0 < 2 ^ 970) by pow2_pos. lia. }
    assert (Hk' : k <= 971).
    { destruct (Z_le_gt_dec k 971); [assumption|].
      pose proof (Zdigits2_bounds q ltac:(lia)) as Hqd. rewrite Hdig in Hqd.
      assert (2 ^ 1024 <= 2 ^ (prec + k - 1))
        by (apply Z.pow_le_mono_r; unfold prec; lia). lia. }
    split; [lia|]. intros Hcarry.
    destruct (Z.eq_dec k 971) as [E971|]; [|lia]. exfalso.
    assert (m <= 2 ^ 53 - 1); [|lia].
    unfold m. rewrite E971. apply rne_le_half; [vm_compute; reflexivity|].
    rewrite En.
    replace (2 ^ 971 * 100 * (2 * (2 ^ 53 - 1) + 1))
      with (2 * (100 * (2 ^ 1024 - 2 ^ 970))) by (vm_compute; reflexivity).
    lia. }
  destruct Hk971 as [Hk1 Hk2].
  destruct (Z.eqb_spec m (2 ^ 53)) as [E|E].
  - specialize (Hk2 E).
    destruct (Z.leb_spec (- s + k + 1) (emax - prec)) as [_|Hbad];
      [|unfold emax, prec in Hbad; lia].
    eexists _, _. split; [reflexivity|]. unfold emax, prec. split; [|lia].
    vm_compute. split; [discriminate|reflexivity].
  - destruct (Z.leb_spec (- s + k) (emax - prec)) as [_|Hbad];
      [|unfold emax, prec in Hbad; lia].
    eexists _, _. split; [reflexivity|]. unfold emax, prec. split; [|lia].
    rewrite Z2Pos.id by lia. lia.
Qed.

(** The bound is the least one: at [FLOAT_RANGE_CENTS] the float is
    infinity, one cent below it is the largest float. *)
Lemma float_range_tight :
  fdiv (SF_of_Z FLOAT_RANGE_CENTS) (SF_of_Z 100) = S754_infinity false
  /\ fdiv (SF_of_Z (FLOAT_RANGE_CENTS - 1)) (SF_of_Z 100)
     = S754_finite false (Z.to_pos (2 ^ 53 - 1)) 971.
Proof. split; vm_compute; reflexivity. Qed.

(** A fifth of a normal float is a finite float. *)
Lemma fmul_normal x :
  normal_float x ->
  exists m e, fmul x POINTS_ITEM_DESCRIPTION = S754_finite false m e.
Proof.
  intros (mx & ex & -> & Hmx & Hex).
  unfold fmul, POINTS_ITEM_DESCRIPTION, lit_0_2, SFmul. simpl xorb.
  set (c := 7205759403792794%positive).
  assert (Hc : 2 ^ 52 < Z.pos c < 2 ^ 53) by (vm_compute; split; reflexivity).
  rewrite Pos2Z.inj_mul.
  set (P := Z.pos mx * Z.pos c).
  assert (HP : 2 ^ 104 <= P < 2 ^ 106).
  { change (2 ^ 104) with (2 ^ 52 * 2 ^ 52). change (2 ^ 106) with (2 ^ 53 * 2 ^ 53).
    unfold P. split.
    - apply Z.mul_le_mono_nonneg; lia.
    - apply Z.mul_lt_mono_nonneg; lia. }
  assert (Hk : exists k, (k = 52 \/ k = 53) /\ Zdigits2 P = prec + k).
  { destruct (Z_lt_le_dec P (2 ^ 105)) as [Hlt|Hge].
    - exists 52. split; [now left|]. apply Zdigits2_unique; [unfold prec; lia|].
      change (prec + 52 - 1) with 104. change (prec + 52) with 105. lia.
    - exists 53. split; [now right|]. apply Zdigits2_unique; [unfold prec; lia|].
      change (prec + 53 - 1) with 105. change (prec + 53) with 106. lia. }
  destruct Hk as (k & Hk & Hdig).
  destruct (binary_round_aux_normal P (ex + -55) loc_Exact 0 1 k)
    as [Hm Hround]; try lia; [reflexivity|unfold prec, emax; lia|].
  rewrite Hround. unfold emax, prec in *.
  destruct (Z.eqb_spec (rne (P * 1 + 0) (2 ^ k * 1)) (2 ^ 53)) as [E|E].
  - destruct (Z.leb_spec (ex + -55 + k + 1) (1024 - 53)); [eauto|lia].
  - destruct (Z.leb_spec (ex + -55 + k) (1024 - 53)); [eauto|lia].
Qed.

Lemma py_round_normal x : normal_float x -> exists n, py_round x = Ok n.
Proof. intros (m & e & -> & _). unfold py_round. destruct (0 <=? e); eauto. Qed.

(** A total in range is scored. *)
Lemma score_total_in_range total :
  validate_total total = Ok tt ->
  amount_cents total < FLOAT_RANGE_CENTS ->
  exists points, score_total total = Ok points.
Proof.
  intros Hv Hrange. unfold score_total. rewrite Hv. simpl.
  assert (Hm : re_match RE_AMOUNT total = true).
  { unfold validate_total in Hv. destruct (re_match RE_AMOUNT total); [reflexivity|discriminate]. }
  destruct (py_float_amount total Hm) as [Hn Hx].
  remember (fdiv (SF_of_Z (amount_cents total)) (SF_of_Z 100)) as x eqn:Ex.
  rewrite Hx. simpl.
  assert (Hround : exists n, py_round x = Ok n).
  { subst x. destruct (Z.eq_dec (amount_cents total) 0) as [->|Hne]; [now exists 0|].
    apply py_round_normal, fdiv_normal. lia. }
  destruct Hround as [n ->]. simpl.
  destruct (py_float_mod_quarter x) as [r ->]. simpl. eauto.
Qed.

(** An item with a price in range is scored. *)
Lemma item_points_in_range it description price :
  item_fields it description price ->
  validate_item description price = Ok tt ->
  (Z.of_nat (length (strip (chars description)))
     mod REWARD_ITEM_DESCRIPTION_LENGTH_FACTOR = 0 ->
   amount_cents price < FLOAT_RANGE_CENTS) ->
  exists b, item_points it = Ok b.
Proof.
  intros Hit Hv Hrange. rewrite (item_points_fields _ _ _ Hit), Hv. simpl.
  destruct (Z.eqb_spec (Z.of_nat (length (strip (chars description)))
                          mod REWARD_ITEM_DESCRIPTION_LENGTH_FACTOR) 0) as [E|_]; [|eauto].
  specialize (Hrange E).
  destruct (py_float_amount price (validate_item_ok _ _ Hv)) as [Hn Hx].
  remember (fdiv (SF_of_Z (amount_cents price)) (SF_of_Z 100)) as x eqn:Ex.
  rewrite Hx. simpl. subst x.
  destruct (Z.eq_dec (amount_cents price) 0) as [->|Hne]; [now exists 0|].
  destruct (fmul_normal _ (fdiv_normal (amount_cents price) ltac:(lia))) as (m & e & ->).
  unfold math_ceil. destruct (0 <=? e); eauto.
Qed.

Lemma score_items_loop_in_range items :
  Forall (fun it => exists description price,
            item_fields it description price
            /\ validate_item description price = Ok tt
            /\ (Z.of_nat (length (strip (chars description)))
                  mod REWARD_ITEM_DESCRIPTION_LENGTH_FACTOR = 0 ->
                amount_cents price < FLOAT_RANGE_CENTS)) items ->
  forall points, exists p, score_items_loop items points = Ok p.
Proof.
  induction 1 as [|it rest (d & p & Hit & Hv & Hr) _ IH]; intros points; [now exists points|].
  rewrite score_items_loop_cons.
  destruct (item_points_in_range _ _ _ Hit Hv Hr) as [b ->]. apply IH.
Qed.

Lemma item_fields_unique it d p d' p' :
  item_fields it d p -> item_fields it d' p' -> d = d' /\ p = p'.
Proof.
  intros (m & -> & Hd & Hp) (m' & [= <-] & Hd' & Hp').
  rewrite Hd in Hd'. rewrite Hp in Hp'. now injection Hd' as ->; injection Hp' as ->.
Qed.

Lemma structure_of_fields receipt retailer total date time items :
  receipt !! "retailer" = Some (JStr retailer) ->
  receipt !! "total" = Some (JStr total) ->
  receipt !! "purchaseDate" = Some (JStr date) ->
  receipt !! "purchaseTime" = Some (JStr time) ->
  receipt !! "items" = Some (JList items) ->
  items <> [] ->
  Forall (fun it => exists description price, item_fields it description price) items ->
  validate_receipt_json_structure receipt = Ok tt.
Proof.
  intros Hr Ht Hd Htm Hi Hne Hitems.
  unfold validate_receipt_json_structure, required_receipt_attributes,
    check_attribute, getitem.
  simpl. rewrite Hr, Ht, Hd, Htm, Hi. simpl.
  destruct items as [|it items]; [congruence|].
  change (Z.of_nat (length (it :: items)) <? 1)
    with (Z.pos (Pos.of_succ_nat (length items)) <? 1).
  replace (Z.pos (Pos.of_succ_nat (length items)) <? 1) with false
    by (symmetry; apply Z.ltb_ge; lia).
  apply for_each_ok. eapply Forall_impl; [exact Hitems|].
  intros it' (d & p & dct & -> & Hdd & Hp).
  unfold check_item, required_item_attributes, getitem. simpl.
  now rewrite Hdd, Hp.
Qed.

(** A valid receipt with its amounts in range is scored. *)
Lemma valid_receipt_scored receipt :
  valid_receipt receipt -> amounts_in_float_range receipt ->
  exists points, validate_and_calculate receipt = Ok points
                 /\ calculate_points receipt = Ok points.
Proof.
  intros (retailer & total & date & time & items & Hr & Ht & Hd & Htm & Hi & Hne
          & Hvr & Hvt & Hvi & [date_obj Hdate] & [time_obj Htime]) [Hrt Hri].
  assert (Hs : validate_receipt_json_structure receipt = Ok tt).
  { apply (structure_of_fields _ _ _ _ _ _ Hr Ht Hd Htm Hi Hne).
    eapply Forall_impl; [exact Hvi|]. intros it (d & p & Hit & _). eauto. }
  unfold validate_and_calculate. rewrite Hs. simpl.
  rewrite (calculate_points_fields _ _ _ _ _ _ Hr Ht Hd Htm Hi).
  unfold score_retailer. rewrite Hvr. simpl.
  destruct (score_total_in_range total Hvt (Hrt _ Ht)) as [pt ->]. simpl.
  assert (Hitems : Forall (fun it => exists description price,
            item_fields it description price
            /\ validate_item description price = Ok tt
            /\ (Z.of_nat (length (strip (chars description)))
                  mod REWARD_ITEM_DESCRIPTION_LENGTH_FACTOR = 0 ->
                amount_cents price < FLOAT_RANGE_CENTS)) items).
  { specialize (Hri _ Hi). rewrite Forall_forall in *.
    intros it Hin. destruct (Hvi it Hin) as (d & p & Hit & Hv).
    exists d, p. split; [exact Hit|]. split; [exact Hv|]. now apply (Hri it Hin). }
  unfold score_items.
  destruct (score_items_loop_in_range _ Hitems
              (Z.of_nat (length items) / 2 * POINTS_ITEMS_COUNT)) as [pi ->]. simpl.
  unfold score_date_time, validate_and_parse_date_time. rewrite Hdate, Htime. simpl.
  eauto.
Qed.

(** X19: a valid receipt whose total and bonus-earning prices are in the
    range of a float (below [2 ^ 1024 - 2 ^ 970]) is accepted: it is
    scored, answered 200 with the id it was given and stored under it;
    and after any further requests that were issued other ids, a
    retrieval of the id is answered 200 with these points. *)
Theorem valid_receipt_in_range_accepted (receipts : gmap string Z)
    (receipt_id : string) (receipt : gmap string json) (rs : list request)
    (Hvalid : valid_receipt receipt)
    (Hrange : amounts_in_float_range receipt)
    (Hfresh : receipt_id ∉ issued_ids rs) :
  exists points,
    calculate_points receipt = Ok points
    /\ process_receipt receipts receipt_id receipt
       = (Response 200 (BId receipt_id), <[receipt_id := points]> receipts)
    /\ get_points
         (store_after (snd (process_receipt receipts receipt_id receipt)) rs)
         receipt_id
       = Response 200 (BPoints points).
Proof.
  destruct (valid_receipt_scored _ Hvalid Hrange) as (points & Hvc & Hcp).
  exists points. split; [exact Hcp|].
  rewrite (process_receipt_ok _ _ _ _ Hvc). split; [reflexivity|].
  simpl. unfold get_points.
  rewrite store_after_other by exact Hfresh.
  now rewrite lookup_insert_eq.
Qed.

Lemma simple_receipt_valid :
  valid_receipt simple_receipt_skeleton /\ amounts_in_float_range simple_receipt_skeleton.
Proof.
  split.
  - exists "Target", "1.25", "2022-01-02", "13:13", [item "Pepsi - 12-oz" "1.25"].
    do 5 (split; [reflexivity|]). split; [discriminate|].
    do 2 (split; [vm_compute; reflexivity|]).
    split; [|split; vm_compute; eauto].
    apply Forall_cons_2; [|apply Forall_nil_2].
    exists "Pepsi - 12-oz", "1.25". split; [apply item_lookup|vm_compute; reflexivity].
  - split.
    + intros total [= <-]. vm_compute. reflexivity.
    + intros items [= <-]. apply Forall_cons_2; [|apply Forall_nil_2].
      intros d p Hit _.
      destruct (item_fields_unique _ _ _ _ _ Hit (item_lookup "Pepsi - 12-oz" "1.25")) as [_ ->].
      vm_compute. reflexivity.
Qed.

Lemma valid_receipt_in_range_accepted_witness :
  exists points,
    calculate_points simple_receipt_skeleton = Ok points
    /\ process_receipt ∅ "id-1" simple_receipt_skeleton
       = (Response 200 (BId "id-1"), <["id-1" := points]> ∅)
    /\ get_points
         (store_after (snd (process_receipt ∅ "id-1" simple_receipt_skeleton))
            [Retrieve "id-1"; Submit "id-2" target_receipt; Retrieve "id-1"])
         "id-1"
       = Response 200 (BPoints points).
Proof.
  apply (valid_receipt_in_range_accepted ∅ "id-1" simple_receipt_skeleton
           [Retrieve "id-1"; Submit "id-2" target_receipt; Retrieve "id-1"]
           (proj1 simple_receipt_valid) (proj2 simple_receipt_valid)).
  simpl. intros H. apply list_elem_of_singleton in H. discriminate H.
Defined.

(** C8: the claim is right and the code misses a case.  The receipt
    with a total of 1 followed by 309 zeros and [.00] passes every
    validation rule, but its total reads as the float infinity and
    [round] raises [OverflowError], which [process_receipt] does not
    handle: no id is returned and nothing is stored, so no retrieval
    finds the receipt. *)
Theorem valid_receipt_overflow_unhandled (receipts : gmap string Z) (receipt_id : string) :
  valid_receipt receipt_huge_total
  /\ process_receipt receipts receipt_id receipt_huge_total
     = (Unhandled OverflowError, receipts)
  /\ get_points (snd (process_receipt receipts receipt_id receipt_huge_total)) receipt_id
     = get_points receipts receipt_id.
Proof.
  destruct (huge_total_unhandled receipts receipt_id) as [Hm Hp].
  split.
  - exists "Target", huge_total, "2022-01-02", "13:13", [item "Pepsi - 12-oz" "1.25"].
    do 5 (split; [vm_compute; reflexivity|]). split; [discriminate|].
    split; [vm_compute; reflexivity|].
    split; [unfold validate_total; now rewrite Hm|].
    split; [|split; vm_compute; eauto].
    apply Forall_cons_2; [|apply Forall_nil_2].
    exists "Pepsi - 12-oz", "1.25". split; [apply item_lookup|vm_compute; reflexivity].
  - split; [exact Hp|]. rewrite Hp. reflexivity.
Qed.

(** ** A failed submission *)

(** C7: the claim is right about the store and the code misses a case
    of the answer.  Whatever the validation or the scoring of a
    submission raises, the store is left as it was; a [ValueError] is
    answered 400 with its message, but any other exception leaves the
    handler, and no 400 is sent.  The receipt whose item has no [price]
    fails the item type check this way: the [KeyError] of the key is not
    handled.  The store reached from the empty one has an entry under an
    id exactly when a submission that was issued this id got through
    validation and scoring. *)
Theorem failed_submission_leaves_store (rs : list request) (receipt_id : string) :
  (forall receipt e,
     validate_and_calculate receipt = Raise e ->
     process_receipt (store_after ∅ rs) receipt_id receipt
     = (match e with
        | ValueError msg => Response 400 (BError msg)
        | _ => Unhandled e
        end, store_after ∅ rs))
  /\ (validate_and_calculate receipt_item_without_price = Raise (KeyError "price")
      /\ process_receipt (store_after ∅ rs) receipt_id receipt_item_without_price
         = (Unhandled (KeyError "price"), store_after ∅ rs))
  /\ forall k : string,
       is_Some (store_after ∅ rs !! k) <->
       exists r p, Submit k r ∈ rs /\ validate_and_calculate r = Ok p.
Proof.
  assert (Hall : forall receipt e,
     validate_and_calculate receipt = Raise e ->
     process_receipt (store_after ∅ rs) receipt_id receipt
     = (match e with
        | ValueError msg => Response 400 (BError msg)
        | _ => Unhandled e
        end, store_after ∅ rs)).
  { intros receipt e H. unfold process_receipt. rewrite H. now destruct e. }
  assert (Hprice : validate_and_calculate receipt_item_without_price
                   = Raise (KeyError "price")) by (vm_compute; reflexivity).
  split; [exact Hall|]. split.
  - split; [exact Hprice|]. exact (Hall _ _ Hprice).
  - intros k. rewrite store_after_entries. split.
    + intros [H|H]; [|exact H]. rewrite lookup_empty in H. now destruct H.
    + intros H. now right.
Qed.

(** ** The order of the checks *)





(** ** A request body of any JSON type *)

Lemma check_attribute_any_dict d attribute :
  check_attribute_any (JDict d) attribute = check_attribute d attribute.
Proof.
  unfold check_attribute_any, check_attribute, contains, subscript, getitem.
  cbn [mbind result_bind].
  destruct (d !! attribute) as [v|] eqn:Hv.
  - rewrite bool_decide_eq_true_2 by eauto. cbn [negb].
    destruct (negb (bool_decide (attribute = "items"))); [|reflexivity].
    cbn [mbind result_bind andb]. reflexivity.
  - rewrite bool_decide_eq_false_2 by (intros [? [=]]). reflexivity.
Qed.

Lemma for_each_ext {A} (f g : A -> result unit) l :
  (forall a, f a = g a) -> for_each l f = for_each l g.
Proof.
  intros H. induction l as [|a l IH]; [reflexivity|].
  cbn [for_each]. now rewrite H, IH.
Qed.

(** On an object the routes are the ones on a dict. *)
Lemma process_receipt_any_dict receipts receipt_id d :
  process_receipt_any receipts receipt_id (JDict d)
  = process_receipt receipts receipt_id d.
Proof.
  unfold process_receipt_any, process_receipt, validate_and_calculate,
    validate_receipt_json_structure_any, validate_receipt_json_structure,
    calculate_points_any, subscript.
  now rewrite (for_each_ext _ _ _ (check_attribute_any_dict d)).
Qed.

Lemma process_receipt_dict_outcomes (receipts : gmap string Z) (receipt_id : string)
    (receipt : gmap string json) :
  (exists points,
      validate_and_calculate receipt = Ok points
      /\ process_receipt receipts receipt_id receipt
         = (Response 200 (BId receipt_id), <[receipt_id := points]> receipts))
  \/ (exists msg,
        error_message msg
        /\ process_receipt receipts receipt_id receipt
           = (Response 400 (BError msg), receipts))
  \/ (exists key,
        key ∈ required_item_attributes
        /\ process_receipt receipts receipt_id receipt
           = (Unhandled (KeyError key), receipts))
  \/ process_receipt receipts receipt_id receipt = (Unhandled OverflowError, receipts).
Proof.
  unfold process_receipt.
  destruct (validate_and_calculate receipt) as [points|e] eqn:H; [left; eauto|right].
  unfold validate_and_calculate in H.
  destruct (validate_receipt_json_structure receipt) as [[]|e'] eqn:Hv; simpl in H.
  - apply (calculate_points_outcome _ _ Hv) in H as [(msg & -> & Hmsg) | ->]; eauto.
  - injection H as ->.
    apply validate_structure_outcome in Hv as [(msg & -> & Hmsg) | (k & Hk & ->)]; eauto.
Qed.

(** A body that is not an object: the first attribute decides. *)
Lemma check_attribute_any_retailer body :
  (forall d, body <> JDict d) ->
  check_attribute_any body "retailer"
  = match contains body "retailer" with
    | Ok false => Raise (ValueError "Error: missing retailer in receipt")
    | _ => Raise TypeError
    end.
Proof.
  intros Hnd. unfold check_attribute_any.
  destruct body as [| | | |s|l|d]; try reflexivity.
  - cbn [contains mbind result_bind]. destruct (occurs "retailer" s); reflexivity.
  - cbn [contains mbind result_bind]. destruct (existsb _ l); reflexivity.
  - now destruct (Hnd d).
Qed.

Lemma process_receipt_any_other receipts receipt_id body :
  (forall d, body <> JDict d) ->
  process_receipt_any receipts receipt_id body
  = (match contains body "retailer" with
     | Ok false => Response 400 (BError "Error: missing retailer in receipt")
     | _ => Unhandled TypeError
     end, receipts).
Proof.
  intros Hnd. unfold process_receipt_any, validate_receipt_json_structure_any,
    required_receipt_attributes.
  cbn [for_each]. rewrite (check_attribute_any_retailer _ Hnd).
  destruct (contains body "retailer") as [[|]|e]; reflexivity.
Qed.

(** X10: a submission, whatever JSON value its body is, has one of five
    outcomes.  It is stored under the id it was given and answered with
    200 and that id; or it is answered with 400 and one of the error
    messages of the program; or, for an item that lacks one of its two
    keys, the [KeyError] of that key leaves the handler; or the
    [OverflowError] of [round] or [math.ceil] does; or, only for a body
    that is not an object, a [TypeError] does.  In the last four cases
    the store is as before.  A body that is not an object is answered
    400 with the missing-retailer message when it is a string or a list
    that does not contain "retailer", and ends in the [TypeError]
    otherwise. *)
Theorem process_receipt_outcomes (receipts : gmap string Z) (receipt_id : string)
    (body : json) :
  ((exists d points,
       body = JDict d
       /\ validate_and_calculate d = Ok points
       /\ process_receipt_any receipts receipt_id body
          = (Response 200 (BId receipt_id), <[receipt_id := points]> receipts))
   \/ (exists msg,
         error_message msg
         /\ process_receipt_any receipts receipt_id body
            = (Response 400 (BError msg), receipts))
   \/ (exists key,
         key ∈ required_item_attributes
         /\ process_receipt_any receipts receipt_id body
            = (Unhandled (KeyError key), receipts))
   \/ process_receipt_any receipts receipt_id body = (Unhandled OverflowError, receipts)
   \/ ((forall d, body <> JDict d)
       /\ process_receipt_any receipts receipt_id body = (Unhandled TypeError, receipts)))
  /\ ((forall d, body <> JDict d) ->
      process_receipt_any receipts receipt_id body
      = (match contains body "retailer" with
         | Ok false => Response 400 (BError "Error: missing retailer in receipt")
         | _ => Unhandled TypeError
         end, receipts)).
Proof.
  split; [|apply process_receipt_any_other].
  assert (Hcases : (exists d, body = JDict d) \/ forall d, body <> JDict d)
    by (destruct body; eauto; right; discriminate).
  destruct Hcases as [[d ->]|Hnd'].
  - rewrite process_receipt_any_dict.
    destruct (process_receipt_dict_outcomes receipts receipt_id d)
      as [(p & Hp & H) | [H | [H | H]]]; [left; eauto|auto..].
  - rewrite (process_receipt_any_other _ _ _ Hnd').
    destruct (contains body "retailer") as [[|]|e]; [auto 10..| |auto 10].
    right. left. eexists. split; [|reflexivity].
    apply (missing_attribute "retailer"). unfold required_receipt_attributes. set_solver.
Qed.
